(** * DeepSight-AI: CSV-to-SQL value coercion, dialect translation,
      batch execution and the query catalog

    A shallow embedding of
    - [data/models/convert.py]   (cell coercion to SQL literals),
    - [db/setup_database.py]     (PostgreSQL-to-SQLite rewriting and the
                                  statement-by-statement executor),
    - [db/query_examples.py]     (the catalog of read queries),
    followed by the properties established about them.

    Python values are modelled as follows.  A [str] is a [string] whose
    characters are code points below 256.  A [float] is an IEEE binary64
    number given by sign, integral significand and binary exponent.  An
    exception is a constructor of [exn]; code that may raise returns a
    [result]. *)

From Stdlib Require Import ZArith NArith List String Ascii Bool Lia.
From Stdlib Require Import Numbers.DecimalString Numbers.DecimalPos.
From Stdlib Require Import Sorting.Sorted Sorting.Permutation.
Import ListNotations.

Open Scope string_scope.

(** ** Python strings *)

Module PyStr.

Definition quote : ascii := "'"%char.
Definition newline : ascii := "010"%char.

(** [c.isspace()] for a code point below 256: TAB..CR, FS..US, space,
    NEL and the no-break space. *)
Definition isspace (c : ascii) : bool :=
  let n := N_of_ascii c in
  (((9 <=? n) && (n <=? 13)) || ((28 <=? n) && (n <=? 32))
   || (n =? 133) || (n =? 160))%N.

Definition isdigit (c : ascii) : bool :=
  let n := N_of_ascii c in ((48 <=? n) && (n <=? 57))%N.

Definition digit_value (c : ascii) : Z := Z.of_N (N_of_ascii c) - 48.

(** [c.lower()]: A..Z and the Latin-1 capitals move up by 32. *)
Definition lower_char (c : ascii) : ascii :=
  let n := N_of_ascii c in
  if (((65 <=? n) && (n <=? 90))
      || ((192 <=? n) && (n <=? 222) && negb (n =? 215)))%N
  then ascii_of_N (n + 32) else c.

Fixpoint lower (s : string) : string :=
  match s with
  | EmptyString => EmptyString
  | String c s' => String (lower_char c) (lower s')
  end.

Fixpoint lstrip (s : string) : string :=
  match s with
  | EmptyString => EmptyString
  | String c s' => if isspace c then lstrip s' else s
  end.

Fixpoint rstrip (s : string) : string :=
  match s with
  | EmptyString => EmptyString
  | String c s' =>
      match rstrip s' with
      | EmptyString => if isspace c then EmptyString else String c EmptyString
      | r => String c r
      end
  end.

(** [s.strip()] *)
Definition strip (s : string) : string := rstrip (lstrip s).

(** [s.startswith(p)] *)
Definition startswith (p s : string) : bool := prefix p s.

(** [s.endswith(p)] *)
Definition endswith (p s : string) : bool :=
  let n := String.length s in
  let k := String.length p in
  (k <=? n)%nat && (substring (n - k) k s =? p).

(** [needle in s] *)
Fixpoint contains (needle s : string) : bool :=
  prefix needle s ||
  match s with
  | EmptyString => false
  | String _ s' => contains needle s'
  end.

(** [s.replace(c, r)] for a one-character [c]. *)
Fixpoint replace_char (c : ascii) (r : string) (s : string) : string :=
  match s with
  | EmptyString => EmptyString
  | String a s' =>
      if Ascii.eqb a c then r ++ replace_char c r s'
      else String a (replace_char c r s')
  end.

(** [s.split(c)] for a one-character separator: never the empty list. *)
Fixpoint split (c : ascii) (s : string) : list string :=
  match s with
  | EmptyString => [EmptyString]
  | String a s' =>
      if Ascii.eqb a c then EmptyString :: split c s'
      else match split c s' with
           | [] => [String a EmptyString]
           | w :: ws => String a w :: ws
           end
  end.

(** [sep.join(l)] *)
Definition join (sep : string) (l : list string) : string := concat sep l.

(** [s[:n]] *)
Definition take (n : nat) (s : string) : string := substring 0 n s.

Fixpoint drop (n : nat) (s : string) : string :=
  match n, s with
  | O, _ => s
  | S n', String _ s' => drop n' s'
  | S _, EmptyString => EmptyString
  end.

(** [str(z)] for an [int]. *)
Definition of_Z (z : Z) : string := NilZero.string_of_int (Z.to_int z).

Fixpoint repeat_char (c : ascii) (n : nat) : string :=
  match n with
  | O => EmptyString
  | S n' => String c (repeat_char c n')
  end.

(** [l.sort()] for a list of strings: ascending by code points.  The
    order is total and strings that compare equal are the same string,
    so every sorting method gives this list. *)
Fixpoint insert_sorted (x : string) (l : list string) : list string :=
  match l with
  | [] => [x]
  | y :: l' => if String.leb x y then x :: l else y :: insert_sorted x l'
  end.

Fixpoint sort (l : list string) : list string :=
  match l with
  | [] => []
  | x :: l' => insert_sorted x (sort l')
  end.

(** [os.path.join(a, b)] on POSIX. *)
Definition path_join (a b : string) : string :=
  if startswith "/" b then b
  else if (a =? "") || endswith "/" a then a ++ b
  else a ++ "/" ++ b.

End PyStr.

(** ** Python exceptions *)

Inductive exn := ValueError | TypeError | OverflowError | OtherError.

Inductive result (A : Type) :=
| Return (a : A)
| Raise (e : exn).
Arguments Return {A} a.
Arguments Raise {A} e.

Definition bind {A B} (r : result A) (k : A -> result B) : result B :=
  match r with
  | Return a => k a
  | Raise e => Raise e
  end.

Notation "x <- r ;; k" := (bind r (fun x => k))
  (at level 61, r at next level, right associativity).

Definition exn_eqb (a b : exn) : bool :=
  match a, b with
  | ValueError, ValueError | TypeError, TypeError
  | OverflowError, OverflowError | OtherError, OtherError => true
  | _, _ => false
  end.

(** [try: body  except (handled...): handler] *)
Definition try_except {A} (body : result A) (handled : list exn)
    (handler : result A) : result A :=
  match body with
  | Return a => Return a
  | Raise e => if existsb (exn_eqb e) handled then handler else Raise e
  end.

(** ** Python floats (IEEE binary64) *)

Module PyFloat.
Import PyStr.
Open Scope Z_scope.

(** [Fin neg m e] is (-1)^neg * m * 2^e.  Values built by [round_pos]
    are canonical: m = 0 and e = 0, or 2^52 <= m < 2^53, or e = -1074. *)
Inductive float :=
| Nan
| Inf (neg : bool)
| Fin (neg : bool) (m : Z) (e : Z).

Definition eqb (x y : float) : bool :=
  match x, y with
  | Nan, Nan => true
  | Inf a, Inf b => Bool.eqb a b
  | Fin a m e, Fin b m' e' => Bool.eqb a b && (m =? m') && (e =? e')
  | _, _ => false
  end.

(** Round the positive rational n/d to the nearest binary64, ties to
    even; magnitudes of 2^1024 and above become infinite. *)
Definition round_pos (neg : bool) (n d : Z) : float :=
  let quo e := if 0 <=? e then n / (d * 2 ^ e) else (n * 2 ^ (- e)) / d in
  let e1 := Z.log2 n - Z.log2 d - 53 in
  let e2 := if 2 ^ 53 <=? quo e1 then e1 + 1 else e1 in
  let e := Z.max e2 (-1074) in
  let num := if 0 <=? e then n else n * 2 ^ (- e) in
  let den := if 0 <=? e then d * 2 ^ e else d in
  let q := num / den in
  let q' := match 2 * (num mod den) ?= den with
            | Lt => q
            | Gt => q + 1
            | Eq => if Z.even q then q else q + 1
            end in
  let m := if q' =? 2 ^ 53 then 2 ^ 52 else q' in
  let e' := if q' =? 2 ^ 53 then e + 1 else e in
  if m =? 0 then Fin neg 0 0
  else if 971 <? e' then Inf neg
  else Fin neg m e'.

(** m * 10^e10 as a float. *)
Definition of_decimal (neg : bool) (m e10 : Z) : float :=
  if m =? 0 then Fin neg 0 0
  else if 0 <=? e10 then round_pos neg (m * 10 ^ e10) 1
  else round_pos neg m (10 ^ (- e10)).

(** *** [float(s)] for a string *)

Fixpoint span_digits (s : string) : string * string :=
  match s with
  | EmptyString => (EmptyString, EmptyString)
  | String c s' =>
      if isdigit c
      then let (d, r) := span_digits s' in (String c d, r)
      else (EmptyString, s)
  end.

Fixpoint digits_to_Z (acc : Z) (s : string) : Z :=
  match s with
  | EmptyString => acc
  | String c s' => digits_to_Z (10 * acc + digit_value c) s'
  end.

Definition is_underscore (c : ascii) : bool := Ascii.eqb c "_"%char.

(** An underscore is accepted only between two digits. *)
Fixpoint underscores_ok (prev : option ascii) (s : string) : bool :=
  match s with
  | EmptyString =>
      match prev with Some p => negb (is_underscore p) | None => true end
  | String c s' =>
      (if is_underscore c
       then match prev with Some p => isdigit p | None => false end
       else match prev with
            | Some p => if is_underscore p then isdigit c else true
            | None => true
            end)
      && underscores_ok (Some c) s'
  end.

(** The blanks [float] skips around the number. *)
Definition float_space (c : ascii) : bool :=
  let n := N_of_ascii c in
  (((9 <=? n) && (n <=? 13)) || (n =? 32) || (n =? 133) || (n =? 160))%N.

Fixpoint lskip (s : string) : string :=
  match s with
  | EmptyString => EmptyString
  | String c s' => if float_space c then lskip s' else s
  end.

Fixpoint rskip (s : string) : string :=
  match s with
  | EmptyString => EmptyString
  | String c s' =>
      match rskip s' with
      | EmptyString =>
          if float_space c then EmptyString else String c EmptyString
      | r => String c r
      end
  end.

Definition split_sign (s : string) : bool * string :=
  match s with
  | String "-"%char r => (true, r)
  | String "+"%char r => (false, r)
  | _ => (false, s)
  end.

(** digits [. digits] [(e|E) [sign] digits], at least one digit in the
    significand; yields significand and decimal exponent. *)
Definition parse_unsigned (s : string) : option (Z * Z) :=
  let (ip, r1) := span_digits s in
  let (fp, r2) := match r1 with
                  | String "."%char r => span_digits r
                  | _ => (EmptyString, r1)
                  end in
  if (ip ++ fp =? "")%string then None
  else
    let mant := digits_to_Z 0 (ip ++ fp) in
    let frac := Z.of_nat (String.length fp) in
    match r2 with
    | EmptyString => Some (mant, - frac)
    | String c r3 =>
        if Ascii.eqb (lower_char c) "e"%char then
          let (eneg, r4) := split_sign r3 in
          let (ed, r5) := span_digits r4 in
          if (ed =? "")%string || negb (r5 =? "")%string then None
          else let x := digits_to_Z 0 ed in
               Some (mant, (if eneg then - x else x) - frac)
        else None
    end.

Definition of_string (s : string) : result float :=
  if negb (underscores_ok None s) then Raise ValueError
  else
    let t := rskip (lskip (replace_char "_"%char "" s)) in
    let (neg, u) := split_sign t in
    let lu := lower u in
    if (lu =? "inf")%string || (lu =? "infinity")%string then Return (Inf neg)
    else if (lu =? "nan")%string then Return Nan
    else match parse_unsigned u with
         | None => Raise ValueError
         | Some (m, e10) => Return (of_decimal neg m e10)
         end.

(** [float(z)] for an [int]. *)
Definition of_Z (z : Z) : result float :=
  if z =? 0 then Return (Fin false 0 0)
  else match round_pos (z <? 0) (Z.abs z) 1 with
       | Inf _ => Raise OverflowError
       | f => Return f
       end.

(** [int(x)] *)
Definition to_int (x : float) : result Z :=
  match x with
  | Nan => Raise ValueError
  | Inf _ => Raise OverflowError
  | Fin neg m e =>
      let a := if 0 <=? e then m * 2 ^ e else m / 2 ^ (- e) in
      Return (if neg then - a else a)
  end.

(** [x.is_integer()] *)
Definition is_integer (x : float) : bool :=
  match x with
  | Fin _ m e => (0 <=? e) || (m mod 2 ^ (- e) =? 0)
  | _ => false
  end.

(** *** [str(x)]: the shortest decimal string that reads back as [x] *)

(** The least j with d <= n * 10^j, for n/d < 1. *)
Fixpoint scale_up (fuel : nat) (n d j : Z) : Z :=
  match fuel with
  | O => j
  | S f => if d <=? n then j else scale_up f (n * 10) d (j + 1)
  end.

(** k with 10^(k-1) <= n/d < 10^k. *)
Definition decimal_point (n d : Z) : Z :=
  if d <=? n then Z.of_nat (String.length (PyStr.of_Z (n / d)))
  else 1 - scale_up 400 n d 0.

(** The p-digit decimal nearest to n/d among those that read back as [x]. *)
Definition candidate (x : float) (n d k p : Z) : option Z :=
  let s := p - k in
  let num := if 0 <=? s then n * 10 ^ s else n in
  let den := if 0 <=? s then d else d * 10 ^ (- s) in
  let lo := num / den in
  let hi := lo + 1 in
  let back D := eqb (of_decimal false D (- s)) x in
  match back lo, back hi with
  | true, true =>
      Some match 2 * (num mod den) ?= den with
           | Lt => lo
           | Gt => hi
           | Eq => if Z.even lo then lo else hi
           end
  | true, false => Some lo
  | false, true => Some hi
  | false, false => None
  end.

Fixpoint shortest (fuel : nat) (x : float) (n d k p : Z) : Z * Z :=
  match fuel with
  | O => (0, p)
  | S f =>
      match candidate x n d k p with
      | Some D => (D, p)
      | None => shortest f x n d k (p + 1)
      end
  end.

Fixpoint strip_zeros (s : string) : string :=
  match s with
  | EmptyString => EmptyString
  | String c s' =>
      match strip_zeros s' with
      | EmptyString =>
          if Ascii.eqb c "0"%char then EmptyString else String c EmptyString
      | r => String c r
      end
  end.

Definition zeros (n : Z) : string := repeat_char "0"%char (Z.to_nat n).

Definition format_repr (digits : string) (decpt : Z) : string :=
  let nd := Z.of_nat (String.length digits) in
  if (-4 <? decpt) && (decpt <=? 16) then
    if decpt <=? 0 then "0." ++ zeros (- decpt) ++ digits
    else if nd <=? decpt then digits ++ zeros (decpt - nd) ++ ".0"
    else take (Z.to_nat decpt) digits ++ "." ++ drop (Z.to_nat decpt) digits
  else
    let x := decpt - 1 in
    let ax := PyStr.of_Z (Z.abs x) in
    take 1 digits
    ++ (if 1 <? nd then "." ++ drop 1 digits else "")
    ++ "e" ++ (if x <? 0 then "-" else "+")
    ++ (if Z.abs x <? 10 then "0" ++ ax else ax).

Definition to_string (x : float) : string :=
  match x with
  | Nan => "nan"
  | Inf neg => if neg then "-inf" else "inf"
  | Fin neg m e =>
      (if neg then "-" else "") ++
      if m =? 0 then "0.0"
      else
        let n := if 0 <=? e then m * 2 ^ e else m in
        let d := if 0 <=? e then 1 else 2 ^ (- e) in
        let k := decimal_point n d in
        let (D, p) := shortest 17 (Fin false m e) n d k 1 in
        let ds := PyStr.of_Z D in
        let decpt := k + (Z.of_nat (String.length ds) - p) in
        format_repr (strip_zeros ds) decpt
  end.

End PyFloat.

(** ** [datetime.strptime(s, '%Y-%m-%d')] *)

Module PyDate.
Import PyStr.
Open Scope Z_scope.

Definition between (lo hi : ascii) (c : ascii) : bool :=
  ((N_of_ascii lo <=? N_of_ascii c) && (N_of_ascii c <=? N_of_ascii hi))%N.

(** One alternative of a directive's regular expression: two characters
    or one, with the number read and the text left over. *)
Definition alt2 (p1 p2 : ascii -> bool) (s : string) : list (Z * string) :=
  match s with
  | String a (String b r) =>
      if p1 a && p2 b then [(10 * digit_value a + digit_value b, r)] else []
  | _ => []
  end.

Definition alt1 (p : ascii -> bool) (s : string) : list (Z * string) :=
  match s with
  | String a r => if p a then [(digit_value a, r)] else []
  | EmptyString => []
  end.

(** A blank followed by a digit, the last alternative of [%d]. *)
Definition alt_padded (p : ascii -> bool) (s : string) : list (Z * string) :=
  match s with
  | String a (String b r) =>
      if Ascii.eqb a " "%char && p b then [(digit_value b, r)] else []
  | _ => []
  end.

(** [%m] is 1[0-2]|0[1-9]|[1-9], tried in this order. *)
Definition month_alts (s : string) : list (Z * string) :=
  alt2 (Ascii.eqb "1"%char) (between "0" "2") s
  ++ alt2 (Ascii.eqb "0"%char) (between "1" "9") s
  ++ alt1 (between "1" "9") s.

(** [%d] is 3[0-1]|[1-2]\d|0[1-9]|[1-9]| [1-9], tried in this order. *)
Definition day_alts (s : string) : list (Z * string) :=
  alt2 (Ascii.eqb "3"%char) (between "0" "1") s
  ++ alt2 (between "1" "2") isdigit s
  ++ alt2 (Ascii.eqb "0"%char) (between "1" "9") s
  ++ alt1 (between "1" "9") s
  ++ alt_padded (between "1" "9") s.

Fixpoint first_some {A B} (f : A -> option B) (l : list A) : option B :=
  match l with
  | [] => None
  | a :: l' => match f a with Some b => Some b | None => first_some f l' end
  end.

Definition expect (c : ascii) (s : string) : option string :=
  match s with
  | String a r => if Ascii.eqb a c then Some r else None
  | EmptyString => None
  end.

(** The compiled format matched at the start of [s]: year, month, day
    and the unconverted remainder. *)
Definition match_Ymd (s : string) : option (Z * Z * Z * string) :=
  match s with
  | String y1 (String y2 (String y3 (String y4 r))) =>
      if isdigit y1 && isdigit y2 && isdigit y3 && isdigit y4 then
        let y := 1000 * digit_value y1 + 100 * digit_value y2
                 + 10 * digit_value y3 + digit_value y4 in
        match expect "-"%char r with
        | None => None
        | Some r1 =>
            first_some
              (fun mr : Z * string =>
                 match expect "-"%char (snd mr) with
                 | None => None
                 | Some r2 =>
                     first_some
                       (fun dr : Z * string =>
                          Some (y, fst mr, fst dr, snd dr))
                       (day_alts r2)
                 end)
              (month_alts r1)
        end
      else None
  | _ => None
  end.

Definition is_leap (y : Z) : bool :=
  (y mod 4 =? 0) && (negb (y mod 100 =? 0) || (y mod 400 =? 0)).

Definition days_in_month (y m : Z) : Z :=
  if m =? 2 then (if is_leap y then 29 else 28)
  else if (m =? 4) || (m =? 6) || (m =? 9) || (m =? 11) then 30
  else 31.

(** [datetime.strptime(s, '%Y-%m-%d')]: the date read, or [ValueError]
    when the text does not match, when text remains, or when the date
    does not exist. *)
Definition strptime_Ymd (s : string) : result (Z * Z * Z) :=
  match match_Ymd s with
  | None => Raise ValueError
  | Some (y, m, d, rest) =>
      if negb (rest =? "")%string then Raise ValueError
      else if (1 <=? y) && (d <=? days_in_month y m)
      then Return (y, m, d)
      else Raise ValueError
  end.

End PyDate.

(** ** data/models/convert.py *)

Module convert.
Import PyStr.

(** A cell as [row.get] hands it over: [None] for an absent column, or
    a scalar read by pandas.  A missing cell is the float NaN. *)
Inductive cell :=
| CNone
| CStr (s : string)
| CInt (z : Z)
| CFloat (x : PyFloat.float)
| CBool (b : bool).

(** [pd.isna(value)] *)
Definition isna (value : cell) : bool :=
  match value with
  | CNone => true
  | CFloat PyFloat.Nan => true
  | _ => false
  end.

(** [value == ''] *)
Definition eq_empty (value : cell) : bool :=
  match value with
  | CStr s => (s =? "")
  | _ => false
  end.

(** [str(value)] *)
Definition str (value : cell) : string :=
  match value with
  | CNone => "None"
  | CStr s => s
  | CInt z => PyStr.of_Z z
  | CFloat x => PyFloat.to_string x
  | CBool b => if b then "True" else "False"
  end.

(** [float(value)] *)
Definition float (value : cell) : result PyFloat.float :=
  match value with
  | CNone => Raise TypeError
  | CStr s => PyFloat.of_string s
  | CInt z => PyFloat.of_Z z
  | CFloat x => Return x
  | CBool b =>
      Return (if b then PyFloat.Fin false (2 ^ 52) (-52)
              else PyFloat.Fin false 0 0)
  end.

(** The guard shared by the four coercions:
    [pd.isna(value) or value == '' or str(value).strip() == '']. *)
Definition is_blank (value : cell) : bool :=
  isna value || eq_empty value || (strip (str value) =? "").

Definition escape_sql_string (value : cell) : string :=
  if is_blank value then "NULL"
  else
    let str_value := replace_char quote "''" (str value) in
    "'" ++ str_value ++ "'".

Definition convert_to_sql_number (value : cell) (is_decimal : bool)
  : result string :=
  if is_blank value then Return "NULL"
  else
    try_except
      (if contains "e+" (lower (str value))
          || contains "e-" (lower (str value))
       then
         num_value <- float value ;;
         if is_decimal then Return (PyFloat.to_string num_value)
         else if PyFloat.is_integer num_value
              then i <- PyFloat.to_int num_value ;; Return (PyStr.of_Z i)
              else Return (PyFloat.to_string num_value)
       else
         if is_decimal
         then x <- float value ;; Return (PyFloat.to_string x)
         else x <- float value ;;
              i <- PyFloat.to_int x ;;
              Return (PyStr.of_Z i))
      [ValueError; TypeError]
      (Return "NULL").

Definition convert_to_sql_date (value : cell) : result string :=
  if is_blank value then Return "NULL"
  else
    try_except
      (let date_str := strip (str value) in
       _ <- PyDate.strptime_Ymd date_str ;;
       Return ("'" ++ date_str ++ "'"))
      [ValueError; TypeError]
      (Return "NULL").

Definition mem (s : string) (l : list string) : bool :=
  existsb (String.eqb s) l.

Definition convert_to_sql_boolean (value : cell) : string :=
  if is_blank value then "NULL"
  else
    let str_value := lower (strip (str value)) in
    if mem str_value ["true"; "1"; "yes"; "t"] then "TRUE"
    else if mem str_value ["false"; "0"; "no"; "f"] then "FALSE"
    else "NULL".

(** A row of the data frame: its cells by column name. *)
Definition row := list (string * cell).

Fixpoint lookup (r : row) (name : string) : option cell :=
  match r with
  | [] => None
  | (k, v) :: r' => if (k =? name) then Some v else lookup r' name
  end.

(** [row.get(name)]: [None] for a column the row does not have. *)
Definition get (r : row) (name : string) : cell :=
  match lookup r name with Some v => v | None => CNone end.

(** The coercion applied to a column. *)
Inductive kind := AsString | AsDate | AsInteger | AsDecimal | AsBoolean.

Definition coerce (k : kind) (value : cell) : result string :=
  match k with
  | AsString => Return (escape_sql_string value)
  | AsDate => convert_to_sql_date value
  | AsInteger => convert_to_sql_number value false
  | AsDecimal => convert_to_sql_number value true
  | AsBoolean => Return (convert_to_sql_boolean value)
  end.

(** The [values.append(...)] lines of [generate_insert_statement], in
    their order: the column read and the coercion applied to it. *)
Definition columns : list (string * kind) :=
  [ ("Model", AsString);
    ("Organization", AsString);
    ("Publication date", AsDate);
    ("Domain", AsString);
    ("Task", AsString);
    ("Parameters", AsInteger);
    ("Parameters notes", AsString);
    ("Training compute (FLOP)", AsDecimal);
    ("Training compute notes", AsString);
    ("Training dataset", AsString);
    ("Training dataset size (datapoints)", AsInteger);
    ("Dataset size notes", AsString);
    ("Confidence", AsString);
    ("Link", AsString);
    ("Reference", AsString);
    ("Citations", AsInteger);
    ("Authors", AsString);
    ("Abstract", AsString);
    ("Organization categorization", AsString);
    ("Country (of organization)", AsString);
    ("Notability criteria", AsString);
    ("Notability criteria notes", AsString);
    ("Epochs", AsDecimal);
    ("Training time (hours)", AsDecimal);
    ("Training time notes", AsString);
    ("Training hardware", AsString);
    ("Hardware quantity", AsDecimal);
    ("Hardware utilization", AsDecimal);
    ("Training compute cost (2023 USD)", AsDecimal);
    ("Compute cost notes", AsString);
    ("Training power draw (W)", AsInteger);
    ("Base model", AsString);
    ("Finetune compute (FLOP)", AsDecimal);
    ("Finetune compute notes", AsString);
    ("Batch size", AsInteger);
    ("Batch size notes", AsString);
    ("Model accessibility", AsString);
    ("Training code accessibility", AsString);
    ("Inference code accessibility", AsString);
    ("Accessibility notes", AsString);
    ("Numerical format", AsString);
    ("Frontier model", AsBoolean) ].

(** The values appended one after the other; the first coercion that
    raises ends the call. *)
Fixpoint collect (r : row) (cols : list (string * kind))
  : result (list string) :=
  match cols with
  | [] => Return []
  | (name, k) :: rest =>
      v <- coerce k (get r name) ;;
      vs <- collect r rest ;;
      Return (v :: vs)
  end.

Definition generate_insert_statement (r : row) : result string :=
  values <- collect r columns ;;
  let values_str := join ", " values in
  Return ("INSERT INTO ai_models VALUES (" ++ values_str ++ ");").

(** What [pd.read_csv] gave. *)
Inductive csv_result :=
| Frame (df : list row)
| FileNotFound
| CsvError (e : string).

(** What a run of [main] leaves: the text written to the output file
    (when it got that far), the lines printed, and the exit status. *)
Record run := {
  written : option string;
  printed : list string;
  exit_status : Z
}.

Definition eol : string := String newline EmptyString.

Section main.

(** [str(e)] for an exception raised by a coercion. *)
Variable describe : exn -> string.

(** The loop over [df.iterrows()], with the row label [index] counting
    from 0; it carries the text written and the lines printed. *)
Fixpoint write_rows (index : nat) (rows : list row)
    (file : string) (out : list string) : string * list string :=
  match rows with
  | [] => (file, out)
  | r :: rest =>
      match generate_insert_statement r with
      | Return insert_statement =>
          let progress :=
            "Processed " ++ PyStr.of_Z (Z.of_nat (index + 1)) ++ " records..." in
          write_rows (S index) rest
            (file ++ insert_statement ++ eol)
            (if ((index + 1) mod 100 =? 0)%nat
             then app out [progress]
             else out)
      | Raise e =>
          let error :=
            "Error processing row " ++ PyStr.of_Z (Z.of_nat (index + 1))
            ++ ": " ++ describe e in
          let data :=
            "Row data: " ++ match lookup r "Model" with
                            | Some v => str v
                            | None => "Unknown"
                            end in
          write_rows (S index) rest file (app out [error; data])
      end
  end.

(** [main], given what reading the CSV file gave and the time stamp
    [datetime.now().strftime('%Y-%m-%d %H:%M:%S')]; the output file is
    taken to open and accept what is written. *)
Definition main (csv : csv_result) (now : string) : run :=
  match csv with
  | FileNotFound =>
      {| written := None;
         printed := ["Reading CSV file...";
                     "Error: Could not find 'data/models/notable_ai_models.csv'";
                     "Please make sure the CSV file exists in the correct location."];
         exit_status := 1 |}
  | CsvError e =>
      {| written := None;
         printed := ["Reading CSV file..."; "Error reading CSV file: " ++ e];
         exit_status := 1 |}
  | Frame df =>
      let n := PyStr.of_Z (Z.of_nat (List.length df)) in
      let header :=
        "-- AI Models Data Import" ++ eol
        ++ "-- Generated INSERT statements from notable_ai_models.csv" ++ eol
        ++ "-- Total records: " ++ n ++ eol
        ++ "-- Generated on: " ++ now ++ eol ++ eol in
      let (file, out) :=
        write_rows O df header
          ["Reading CSV file...";
           "Successfully loaded " ++ n ++ " records from CSV";
           "Converting to SQL INSERT statements..."] in
      {| written := Some (file ++ eol ++ "-- End of INSERT statements" ++ eol);
         printed := app out
                      [eol ++ "Conversion completed successfully!";
                       "SQL INSERT statements written to: notable_ai_models_insert.sql";
                       "Total records processed: " ++ n];
         exit_status := 0 |}
  end.

End main.

End convert.

(** ** The regular expressions of the dialect translator *)

Module PyRe.
Import PyStr.

(** A compiled pattern, tried at the start of a text: the length of the
    match the engine settles on there, if there is one.  None of the
    patterns below matches the empty string. *)
Definition matcher := string -> option nat.

(** A literal such as [BIGINT]. *)
Definition lit (p : string) : matcher :=
  fun s => if prefix p s then Some (String.length p) else None.

Fixpoint count_digits (s : string) : nat :=
  match s with
  | EmptyString => O
  | String c s' => if isdigit c then S (count_digits s') else O
  end.

(** [\d+]: all the digits at hand, at least one.  Each use below is
    followed by a literal that is not a digit, so giving digits back
    never helps a match along. *)
Definition digits : matcher :=
  fun s => match count_digits s with O => None | n => Some n end.

Fixpoint index_of (c : ascii) (s : string) : option nat :=
  match s with
  | EmptyString => None
  | String a s' =>
      if Ascii.eqb a c then Some O else option_map S (index_of c s')
  end.

(** [.*?c] under [re.DOTALL]: up to and including the first [c]. *)
Definition until (c : ascii) : matcher :=
  fun s => option_map S (index_of c s).

(** One pattern after another. *)
Definition seq (m1 m2 : matcher) : matcher :=
  fun s =>
    match m1 s with
    | None => None
    | Some n =>
        match m2 (drop n s) with
        | None => None
        | Some k => Some (n + k)
        end
    end.

(** [re.sub(pattern, repl, s)]: left to right, each match replaced and
    the scan resumed after it; [skip] counts the characters of a match
    still to pass over. *)
Fixpoint sub_from (m : matcher) (repl : string) (skip : nat) (s : string)
  : string :=
  match s with
  | EmptyString => EmptyString
  | String c s' =>
      match skip with
      | S k => sub_from m repl k s'
      | O =>
          match m s with
          | Some (S n) => repl ++ sub_from m repl n s'
          | _ => String c (sub_from m repl O s')
          end
      end
  end.

Definition sub (m : matcher) (repl : string) (s : string) : string :=
  sub_from m repl O s.

(** A pattern and the texts it stands for.  What the pattern finds is a
    text of its language, and it is not empty. *)
Definition sound (m : matcher) (P : string -> Prop) : Prop :=
  forall s n, m s = Some n ->
    0 < n /\ exists w v, s = w ++ v /\ String.length w = n /\ P w.

(** Where a text of the language starts, the pattern finds it. *)
Definition complete (m : matcher) (P : string -> Prop) : Prop :=
  forall w v, P w -> m (w ++ v) = Some (String.length w).

End PyRe.

(** ** db/setup_database.py *)

Module setup_database.
Import PyStr PyRe.

(** [COMMENT ON .*?;] *)
Definition re_comment_on : matcher := seq (lit "COMMENT ON ") (until ";").
(** [DECIMAL\(\d+,\d+\)] *)
Definition re_decimal : matcher :=
  seq (lit "DECIMAL(") (seq digits (seq (lit ",") (seq digits (lit ")")))).
(** [VARCHAR\(\d+\)] *)
Definition re_varchar : matcher := seq (lit "VARCHAR(") (seq digits (lit ")")).
Definition re_bigint : matcher := lit "BIGINT".
Definition re_boolean : matcher := lit "BOOLEAN".

Definition nl : string := String newline EmptyString.

(** The test of the second list comprehension:
    [line and not line.startswith('--')]. *)
Definition kept (line : string) : bool :=
  negb (line =? "") && negb (startswith "--" line).

Definition convert_postgres_to_sqlite (sql_content : string) : string :=
  let sql_content := sub re_comment_on "" sql_content in
  let sql_content := sub re_decimal "REAL" sql_content in
  let sql_content := sub re_varchar "TEXT" sql_content in
  let sql_content := sub re_bigint "INTEGER" sql_content in
  let sql_content := sub re_boolean "INTEGER" sql_content in
  let lines := map strip (split newline sql_content) in
  let lines := filter kept lines in
  join nl lines.

(** [find_sql_files], given what [os.walk(data_dir)] yields: the
    directories in walk order, each with the names of its files. *)
Fixpoint classify (root : string) (files : list string)
    (acc : list string * list string) : list string * list string :=
  match files with
  | [] => acc
  | file :: rest =>
      classify root rest
        (if endswith ".sql" file then
           let file_path := path_join root file in
           if endswith "_insert.sql" file
           then (fst acc, app (snd acc) [file_path])
           else (app (fst acc) [file_path], snd acc)
         else acc)
  end.

Fixpoint walk_files (walk : list (string * list string))
    (acc : list string * list string) : list string * list string :=
  match walk with
  | [] => acc
  | (root, files) :: rest => walk_files rest (classify root files acc)
  end.

Definition find_sql_files (walk : list (string * list string))
  : list string * list string :=
  let (schema_files, insert_files) := walk_files walk ([], []) in
  (sort schema_files, sort insert_files).

(** What [cursor.execute] or [cursor.executescript] did: it returned, it
    raised an [sqlite3.Error], or it raised something else. *)
Inductive outcome :=
| Done
| SqliteError (e : string)
| OtherException (e : string).

(** What [open(file_path).read()] gave. *)
Inductive read_result :=
| Content (s : string)
| ReadError (e : string).

Inductive level := INFO | WARNING | ERROR.

Definition str_nat (n : nat) : string := PyStr.of_Z (Z.of_nat n).

Section executor.

(** The database behind the cursor. *)
Variable cursor : Type.
Variable execute : cursor -> string -> cursor * outcome.
Variable executescript : cursor -> string -> cursor * outcome.
Variable read_file : string -> read_result.

(** The locals of the statement loop, with the log written so far. *)
Record loop_state := {
  cur : cursor;
  successful_statements : nat;
  failed_statements : nat;
  logged : list (level * string)
}.

(** The [for statement in statements] loop; the second component
    tells the exception that ended it early, if one did. *)
Fixpoint run_statements (file_path : string) (statements : list string)
    (st : loop_state) : loop_state * option string :=
  match statements with
  | [] => (st, None)
  | statement :: rest =>
      let statement := strip statement in
      if kept statement then
        match execute (cur st) statement with
        | (c, Done) =>
            run_statements file_path rest
              {| cur := c;
                 successful_statements := S (successful_statements st);
                 failed_statements := failed_statements st;
                 logged := logged st |}
        | (c, SqliteError e) =>
            let failed := S (failed_statements st) in
            run_statements file_path rest
              {| cur := c;
                 successful_statements := successful_statements st;
                 failed_statements := failed;
                 logged :=
                   if (failed <=? 10)%nat then
                     logged st ++
                     [(WARNING, "Warning executing statement in "
                                ++ file_path ++ ": " ++ e);
                      (WARNING, "Statement preview: "
                                ++ take 100 statement ++ "...")]
                   else if (failed =? 11)%nat then
                     logged st ++
                     [(WARNING, "Suppressing further error messages for "
                                ++ file_path ++ "...")]
                   else logged st |}
        | (c, OtherException e) =>
            ({| cur := c;
                successful_statements := successful_statements st;
                failed_statements := failed_statements st;
                logged := logged st |}, Some e)
        end
      else run_statements file_path rest st
  end.

(** What a call of [execute_sql_file] leaves behind. *)
Record file_result := {
  final : loop_state;
  raised : bool
}.

Definition fail_with (c : cursor) (log : list (level * string))
    (file_path e : string) : file_result :=
  {| final := {| cur := c; successful_statements := O;
                 failed_statements := O;
                 logged := log ++ [(ERROR, "Error executing " ++ file_path
                                           ++ ": " ++ e)] |};
     raised := true |}.

(** Lines 119 to 144: split on semicolons, run the loop, report. *)
Definition execute_statements (c : cursor) (log : list (level * string))
    (file_path sql_content : string) : file_result :=
  let statements := split ";" sql_content in
  match run_statements file_path statements
          {| cur := c; successful_statements := O;
             failed_statements := O; logged := log |} with
  | (st, Some e) =>
      {| final := {| cur := cur st;
                     successful_statements := successful_statements st;
                     failed_statements := failed_statements st;
                     logged := logged st
                               ++ [(ERROR, "Error executing " ++ file_path
                                           ++ ": " ++ e)] |};
         raised := true |}
  | (st, None) =>
      {| final := {| cur := cur st;
                     successful_statements := successful_statements st;
                     failed_statements := failed_statements st;
                     logged :=
                       logged st
                       ++ [(INFO, "Successfully executed: " ++ file_path);
                           (INFO, "  - Successful statements: "
                                  ++ str_nat (successful_statements st))]
                       ++ (if (0 <? failed_statements st)%nat
                           then [(WARNING, "  - Failed statements: "
                                    ++ str_nat (failed_statements st))]
                           else []) |};
         raised := false |}
  end.

Definition execute_sql_file (c : cursor) (file_path : string)
  : file_result :=
  let log := [(INFO, "Executing SQL file: " ++ file_path)] in
  match read_file file_path with
  | ReadError e => fail_with c log file_path e
  | Content sql_content =>
      let sql_content := convert_postgres_to_sqlite sql_content in
      if endswith "_insert.sql" file_path then
        match executescript c sql_content with
        | (c', Done) =>
            {| final := {| cur := c'; successful_statements := O;
                           failed_statements := O;
                           logged := log ++ [(INFO, "Successfully executed: "
                                                    ++ file_path)] |};
               raised := false |}
        | (c', SqliteError e) =>
            execute_statements c'
              (log ++ [(WARNING, "executescript failed for " ++ file_path
                                 ++ ": " ++ e);
                       (INFO, "Falling back to statement-by-statement execution...")])
              file_path sql_content
        | (c', OtherException e) => fail_with c' log file_path e
        end
      else execute_statements c log file_path sql_content
  end.

End executor.

Arguments cur {cursor} _.
Arguments successful_statements {cursor} _.
Arguments failed_statements {cursor} _.
Arguments logged {cursor} _.
Arguments final {cursor} _.
Arguments raised {cursor} _.

(** *** setup_database *)

Section setup.

(** The connection and its cursor: one database behind both. *)
Variable cursor : Type.
Variable execute : cursor -> string -> cursor * outcome.
Variable executescript : cursor -> string -> cursor * outcome.
Variable read_file : string -> read_result.
(** [os.walk(data_dir)]. *)
Variable walk : string -> list (string * list string).
(** [sqlite3.connect(db_path)] with [conn.cursor()]: the database, or
    the exception raised. *)
Variable connect : string -> cursor + string.
Variable commit : cursor -> cursor * outcome.
Variable rollback : cursor -> cursor * outcome.
Variable close : cursor -> cursor * outcome.
(** [cursor.fetchall()] after the query on [sqlite_master]: the first
    column of each row; [cursor.fetchone()[0]] after a count. *)
Variable fetchall : cursor -> list string.
Variable fetchone : cursor -> Z.

(** The exception a raising call of [execute_sql_file] passes on: line
    147 logs it last, after the path, and line 148 raises it again. *)
Definition raised_exception (file_path : string)
    (r : file_result cursor) : string :=
  drop (String.length ("Error executing " ++ file_path ++ ": "))
       (snd (List.last (logged (final r)) (ERROR, ""))).

(** The database and the log written so far. *)
Record conn_state := {
  conn : cursor;
  messages : list (level * string)
}.

(** A piece of the body: it returns a value or raises an exception,
    of which the message is kept. *)
Definition action (A : Type) : Type := conn_state -> conn_state * (A + string).

Definition pure {A} (a : A) : action A := fun s => (s, inl a).

Definition and_then {A B} (m : action A) (k : A -> action B) : action B :=
  fun s =>
    match m s with
    | (s', inl a) => k a s'
    | (s', inr e) => (s', inr e)
    end.

Definition call (f : cursor -> cursor * outcome) : action unit :=
  fun s =>
    let (c, o) := f (conn s) in
    let s' := {| conn := c; messages := messages s |} in
    match o with
    | Done => (s', inl tt)
    | SqliteError e | OtherException e => (s', inr e)
    end.

Definition fetch {A} (f : cursor -> A) : action A :=
  fun s => (s, inl (f (conn s))).

Definition log_line (l : level) (m : string) : action unit :=
  fun s => ({| conn := conn s; messages := messages s ++ [(l, m)] |}, inl tt).

Definition run_file (file_path : string) : action unit :=
  fun s =>
    let r := execute_sql_file cursor execute executescript read_file
               (conn s) file_path in
    let s' := {| conn := cur (final r);
                 messages := messages s ++ logged (final r) |} in
    if raised r then (s', inr (raised_exception file_path r))
    else (s', inl tt).

Fixpoint for_each {A} (l : list A) (body : A -> action unit) : action unit :=
  match l with
  | [] => pure tt
  | x :: rest => and_then (body x) (fun _ => for_each rest body)
  end.

(** Lines 176 to 196: the pragma, the schema files, the insert files. *)
Definition load_files (schema_files insert_files : list string)
  : action unit :=
  and_then (call (fun c => execute c "PRAGMA foreign_keys = ON")) (fun _ =>
  and_then (log_line INFO "Executing schema files...") (fun _ =>
  and_then (for_each schema_files run_file) (fun _ =>
  and_then (call commit) (fun _ =>
  and_then (log_line INFO "Schema files executed successfully") (fun _ =>
  match insert_files with
  | [] => pure tt
  | _ :: _ =>
      and_then (log_line INFO "Executing insert files...") (fun _ =>
      and_then (for_each insert_files run_file) (fun _ =>
      and_then (call commit) (fun _ =>
      log_line INFO "Insert files executed successfully")))
  end))))).

(** Lines 198 to 206: the tables and their row counts. *)
Definition report_statistics : action unit :=
  and_then (call (fun c =>
              execute c "SELECT name FROM sqlite_master WHERE type='table'"))
    (fun _ =>
  and_then (fetch fetchall) (fun tables =>
  and_then (log_line INFO ("Database setup complete. Created "
                           ++ str_nat (List.length tables) ++ " tables:"))
    (fun _ =>
  for_each tables (fun table =>
    and_then (call (fun c => execute c ("SELECT COUNT(*) FROM " ++ table)))
      (fun _ =>
    and_then (fetch fetchone) (fun count =>
    log_line INFO ("  - " ++ table ++ ": " ++ PyStr.of_Z count ++ " rows"))))))).

(** What a call of [setup_database] leaves behind: the database, when
    one was opened; the log; the exception raised to the caller. *)
Record setup_result := {
  database : option cursor;
  setup_log : list (level * string);
  exception : option string
}.

(** [finally: conn.close()], with the exception that is on its way. *)
Definition finally (s : conn_state) (pending : option string)
  : setup_result :=
  match call close s with
  | (s', inl _) =>
      {| database := Some (conn s'); setup_log := messages s';
         exception := pending |}
  | (s', inr e) =>
      {| database := Some (conn s'); setup_log := messages s';
         exception := Some e |}
  end.

(** Lines 175 to 214: the [try] statement, on the open database. *)
Definition try_files (schema_files insert_files : list string)
    (s : conn_state) : setup_result :=
  match and_then (load_files schema_files insert_files)
          (fun _ => report_statistics) s with
  | (s, inl _) => finally s None
  | (s, inr e) =>
      match and_then (log_line ERROR ("Error setting up database: " ++ e))
              (fun _ => call rollback) s with
      | (s', inl _) => finally s' (Some e)
      | (s', inr e') => finally s' (Some e')
      end
  end.

Definition setup_database (db_path data_dir : string) : setup_result :=
  let log := [(INFO, "Setting up database: " ++ db_path);
              (INFO, "Data directory: " ++ data_dir)] in
  let (schema_files, insert_files) := find_sql_files (walk data_dir) in
  let log := app log [(INFO, "Found " ++ str_nat (List.length schema_files)
                             ++ " schema files and "
                             ++ str_nat (List.length insert_files)
                             ++ " insert files")] in
  match schema_files, insert_files with
  | [], [] =>
      {| database := None;
         setup_log := log ++ [(WARNING,
                               "No SQL files found in the data directory")];
         exception := None |}
  | _, _ =>
      match connect db_path with
      | inr e => {| database := None; setup_log := log; exception := Some e |}
      | inl c =>
          try_files schema_files insert_files {| conn := c; messages := log |}
      end
  end.

End setup.

Arguments conn {cursor} _.
Arguments messages {cursor} _.
Arguments database {cursor} _.
Arguments setup_log {cursor} _.
Arguments exception {cursor} _.

End setup_database.

(** ** db/query_examples.py *)

Module query_examples.

Inductive sqlvalue :=
| SqlInt (z : Z)
| SqlText (s : string).

(** How a query of the catalog ends: without a LIMIT clause, with a
    constant one, or with [LIMIT ?] bound to the last parameter. *)
Inductive limit_clause :=
| NoLimit
| LimitConst (n : Z)
| LimitParam.

Record query := {
  body : string;          (* the statement up to its LIMIT clause *)
  limit : limit_clause
}.

(** SQLite's LIMIT: a negative bound means no bound. *)
Definition sql_limit {row} (n : Z) (rows : list row) : list row :=
  if (n <? 0)%Z then rows else firstn (Z.to_nat n) rows.

Definition Q_models_by_year : query :=
  {| body := "SELECT strftime('%Y', publication_date) as year, COUNT(*) as model_count FROM ai_models WHERE publication_date IS NOT NULL GROUP BY strftime('%Y', publication_date) ORDER BY year DESC";
     limit := LimitParam |}.
Definition Q_largest_models : query :=
  {| body := "SELECT model, organization, parameters, publication_date, domain FROM ai_models WHERE parameters IS NOT NULL ORDER BY parameters DESC";
     limit := LimitParam |}.
Definition Q_models_by_organization : query :=
  {| body := "SELECT organization, COUNT(*) as model_count FROM ai_models WHERE organization IS NOT NULL GROUP BY organization ORDER BY model_count DESC";
     limit := LimitParam |}.
Definition Q_frontier_models : query :=
  {| body := "SELECT model, organization, publication_date, parameters, domain, notability_criteria FROM ai_models WHERE frontier_model = 1 ORDER BY publication_date DESC";
     limit := LimitParam |}.
Definition Q_models_by_domain : query :=
  {| body := "SELECT model, organization, publication_date, parameters, domain, task FROM ai_models WHERE domain LIKE ? ORDER BY publication_date DESC";
     limit := NoLimit |}.
Definition Q_domain_distribution : query :=
  {| body := "SELECT domain, COUNT(*) as model_count FROM ai_models WHERE domain IS NOT NULL GROUP BY domain ORDER BY model_count DESC";
     limit := LimitConst 15 |}.
Definition Q_training_cost_analysis : query :=
  {| body := "SELECT model, organization, publication_date, parameters, training_compute_flop, training_compute_cost_usd, training_time_hours, training_hardware FROM ai_models WHERE training_compute_cost_usd IS NOT NULL ORDER BY training_compute_cost_usd DESC";
     limit := LimitConst 20 |}.
Definition Q_recent_models (days : Z) : query :=
  {| body := "SELECT model, organization, publication_date, parameters, domain, notability_criteria FROM ai_models WHERE publication_date >= date('now', '-" ++ PyStr.of_Z days ++ " days') ORDER BY publication_date DESC";
     limit := NoLimit |}.
Definition Q_search_models : query :=
  {| body := "SELECT model, organization, publication_date, parameters, domain, abstract FROM ai_models WHERE model LIKE ? OR organization LIKE ? OR abstract LIKE ? ORDER BY publication_date DESC";
     limit := LimitConst 50 |}.

Section catalog.

(** The connection and the records SQLite hands back. *)
Variables connection row : Type.
(** The rows a statement yields before its LIMIT clause cuts them:
    the work of the SQLite engine. *)
Variable select_rows : connection -> string -> list sqlvalue -> list row.

Definition execute_query (conn : connection) (q : query)
    (params : list sqlvalue) : list row :=
  match limit q with
  | NoLimit => select_rows conn (body q) params
  | LimitConst n => sql_limit n (select_rows conn (body q) params)
  | LimitParam =>
      match last params (SqlInt (-1)) with
      | SqlInt n => sql_limit n (select_rows conn (body q) (removelast params))
      | SqlText _ => []
      end
  end.

(** An argument left out takes the default of the signature. *)
Definition default {A} (d : A) (arg : option A) : A :=
  match arg with Some a => a | None => d end.

Definition get_models_by_year (conn : connection) (limit : option Z) :=
  execute_query conn Q_models_by_year [SqlInt (default 10%Z limit)].

Definition get_largest_models (conn : connection) (limit : option Z) :=
  execute_query conn Q_largest_models [SqlInt (default 10%Z limit)].

Definition get_models_by_organization (conn : connection)
    (limit : option Z) :=
  execute_query conn Q_models_by_organization [SqlInt (default 10%Z limit)].

Definition get_frontier_models (conn : connection) (limit : option Z) :=
  execute_query conn Q_frontier_models [SqlInt (default 20%Z limit)].

(** [if domain:] holds for a string that is not empty. *)
Definition get_models_by_domain (conn : connection)
    (domain : option string) :=
  match domain with
  | Some d =>
      if (d =? "") then execute_query conn Q_domain_distribution []
      else execute_query conn Q_models_by_domain [SqlText ("%" ++ d ++ "%")]
  | None => execute_query conn Q_domain_distribution []
  end.

Definition get_training_cost_analysis (conn : connection) :=
  execute_query conn Q_training_cost_analysis [].

Definition get_recent_models (conn : connection) (days : option Z) :=
  execute_query conn (Q_recent_models (default 365%Z days)) [].

Definition search_models (conn : connection) (search_term : string) :=
  let search_pattern := "%" ++ search_term ++ "%" in
  execute_query conn Q_search_models
    [SqlText search_pattern; SqlText search_pattern; SqlText search_pattern].

End catalog.

End query_examples.

(** * Properties *)

(** ** Vocabulary of the statements *)

Module Spec.
Import PyStr.

(** A text made of blanks only (the empty text included). *)
Fixpoint whitespace_only (s : string) : bool :=
  match s with
  | EmptyString => true
  | String c s' => isspace c && whitespace_only s'
  end.

(** A cell that carries no value: the missing marker ([None] or NaN) or
    a text of blanks only. *)
Definition no_value (v : convert.cell) : Prop :=
  v = convert.CNone \/ v = convert.CFloat PyFloat.Nan
  \/ exists s, v = convert.CStr s /\ whitespace_only s = true.

(** Every maximal run of quote characters has even length; [odd] tells
    whether the run being read has odd length so far. *)
Fixpoint runs_even_from (odd : bool) (s : string) : bool :=
  match s with
  | EmptyString => negb odd
  | String a s' =>
      if Ascii.eqb a quote then runs_even_from (negb odd) s'
      else negb odd && runs_even_from false s'
  end.

Definition quote_runs_even (s : string) : bool := runs_even_from false s.

(** Reading a SQL string after its opening quote: the number of
    characters up to and including the quote that closes it.  Two
    quotes in a row stand for one and do not close. *)
Fixpoint closing_quote (s : string) : option nat :=
  match s with
  | EmptyString => None
  | String a s' =>
      if Ascii.eqb a quote then
        match s' with
        | String b s'' =>
            if Ascii.eqb b quote
            then option_map (fun n => S (S n)) (closing_quote s'')
            else Some 1
        | EmptyString => Some 1
        end
      else option_map S (closing_quote s')
  end.

(** Where the quoting of a literal ends, counted from its start. *)
Definition literal_end (lit : string) : option nat :=
  match lit with
  | String a s' =>
      if Ascii.eqb a quote then option_map S (closing_quote s') else None
  | EmptyString => None
  end.

(** The text without its last character, when that is a quote. *)
Fixpoint drop_closing_quote (s : string) : option string :=
  match s with
  | EmptyString => None
  | String a EmptyString =>
      if Ascii.eqb a quote then Some EmptyString else None
  | String a s' => option_map (String a) (drop_closing_quote s')
  end.

Definition strip_outer_quotes (lit : string) : option string :=
  match lit with
  | String a s' =>
      if Ascii.eqb a quote then drop_closing_quote s' else None
  | EmptyString => None
  end.

(** Each doubled quote becomes one quote. *)
Fixpoint collapse_quotes (s : string) : string :=
  match s with
  | EmptyString => EmptyString
  | String a s' =>
      if Ascii.eqb a quote then
        match s' with
        | String b s'' =>
            if Ascii.eqb b quote then String quote (collapse_quotes s'')
            else String a (collapse_quotes s')
        | EmptyString => String a EmptyString
        end
      else String a (collapse_quotes s')
  end.

(** Decoding a literal: strip the outer quotes, collapse the doubled
    ones. *)
Definition decode_literal (lit : string) : option string :=
  option_map collapse_quotes (strip_outer_quotes lit).

(** *** Occurrences in a schema text *)

Fixpoint all_digits (s : string) : bool :=
  match s with
  | EmptyString => true
  | String c s' => isdigit c && all_digits s'
  end.

(** [c] does not occur in [s]. *)
Fixpoint free_of (c : ascii) (s : string) : bool :=
  match s with
  | EmptyString => true
  | String a s' => negb (Ascii.eqb a c) && free_of c s'
  end.

(** One digit or more. *)
Definition number_text (s : string) : Prop :=
  s <> "" /\ all_digits s = true.

(** VARCHAR(n) *)
Definition varchar_text (w : string) : Prop :=
  exists n, number_text n /\ w = "VARCHAR(" ++ n ++ ")".

(** DECIMAL(p,s) *)
Definition decimal_text (w : string) : Prop :=
  exists p s, number_text p /\ number_text s
              /\ w = "DECIMAL(" ++ p ++ "," ++ s ++ ")".

(** COMMENT ON ... ; up to the next semicolon *)
Definition comment_clause (w : string) : Prop :=
  exists text, free_of ";" text = true /\ w = "COMMENT ON " ++ text ++ ";".

Definition bigint_text (w : string) : Prop := w = "BIGINT".
Definition boolean_text (w : string) : Prop := w = "BOOLEAN".

(** [rewritten P r s out]: reading [s] from the left, every occurrence
    of a text in [P] that starts where no earlier occurrence has been
    taken is replaced by [r], and nothing else changes.  Either no
    occurrence is left, or [w] is the first one (none starts before it)
    and the rest is rewritten in the same way. *)
Inductive rewritten (P : string -> Prop) (r : string)
  : string -> string -> Prop :=
| rewritten_none (s : string) :
    (forall u w v, s = u ++ w ++ v -> ~ P w) ->
    rewritten P r s s
| rewritten_next (u w rest out : string) :
    (forall u' w' v',
       u ++ w ++ rest = u' ++ w' ++ v' ->
       String.length u' < String.length u -> ~ P w') ->
    P w ->
    rewritten P r rest out ->
    rewritten P r (u ++ w ++ rest) (u ++ r ++ out).

(** A line the translator lets through: not empty, not a comment. *)
Definition clean_line (l : string) : Prop :=
  l <> "" /\ startswith "--" l = false.

(** Every character of [s] passes the test [p]. *)
Fixpoint only_chars (p : ascii -> bool) (s : string) : bool :=
  match s with
  | EmptyString => true
  | String c s' => p c && only_chars p s'
  end.


(** The characters of the decimal writing of an integer. *)
Definition numchar (c : ascii) : bool := isdigit c || Ascii.eqb c "-".

(** *** The output of the converter *)

(** The statements of the rows for which one can be generated, in the
    order of the rows. *)
Fixpoint good_statements (df : list convert.row) : list string :=
  match df with
  | [] => []
  | r :: rest =>
      match convert.generate_insert_statement r with
      | Return stmt => stmt :: good_statements rest
      | Raise _ => good_statements rest
      end
  end.

(** The statements, one per line. *)
Fixpoint statement_lines (stmts : list string) : string :=
  match stmts with
  | [] => ""
  | stmt :: rest => stmt ++ convert.eol ++ statement_lines rest
  end.

(** The comment lines that open the output file for [n] records. *)
Definition file_header (n : nat) (now : string) : string :=
  "-- AI Models Data Import" ++ convert.eol
  ++ "-- Generated INSERT statements from notable_ai_models.csv" ++ convert.eol
  ++ "-- Total records: " ++ PyStr.of_Z (Z.of_nat n) ++ convert.eol
  ++ "-- Generated on: " ++ now ++ convert.eol ++ convert.eol.

(** *** The files of the data directory *)

(** The walk lists [file] in the directory [root]. *)
Definition listed (walk : list (string * list string)) (root file : string)
  : Prop :=
  exists files, In (root, files) walk /\ In file files.

(** The number of listed files whose name ends in .sql. *)
Fixpoint sql_count (walk : list (string * list string)) : nat :=
  match walk with
  | [] => 0
  | (_, files) :: rest =>
      List.length (filter (endswith ".sql") files) + sql_count rest
  end.

(** In ascending order of code points. *)
Definition ascending (l : list string) : Prop :=
  Sorted (fun a b => String.leb a b = true) l.

(** The last character of a text. *)
Fixpoint last_char (s : string) : option ascii :=
  match s with
  | EmptyString => None
  | String c EmptyString => Some c
  | String _ s' => last_char s'
  end.

(** The first character of a text. *)
Definition first_char (s : string) : option ascii :=
  match s with
  | EmptyString => None
  | String c _ => Some c
  end.

(** *** Runs of the statement-by-statement path *)

(** The statements of a translated script: the chunks between
    semicolons, stripped, without the empty ones and those that start
    with two dashes. *)
Definition statements_of (script : string) : list string :=
  filter setup_database.kept (map strip (split ";" script)).

Definition is_sqlite_error (o : setup_database.outcome) : bool :=
  match o with setup_database.SqliteError _ => true | _ => false end.

Definition is_other_exception (o : setup_database.outcome) : bool :=
  match o with setup_database.OtherException _ => true | _ => false end.

Definition is_preview (entry : setup_database.level * string) : bool :=
  prefix "Statement preview: " (snd entry).

Definition is_suppression (entry : setup_database.level * string) : bool :=
  prefix "Suppressing further error messages for " (snd entry).

(** The detailed reports of failed statements in a log, and the
    notices that further ones are suppressed. *)
Definition previews (log : list (setup_database.level * string)) : nat :=
  List.length (filter is_preview log).

Definition suppressions (log : list (setup_database.level * string)) : nat :=
  List.length (filter is_suppression log).

Section runs.
Variable cursor : Type.
Variable execute : cursor -> string -> cursor * setup_database.outcome.
Variable executescript : cursor -> string -> cursor * setup_database.outcome.

(** The database after the statements were executed one after the
    other, whatever each did. *)
Definition exec_all (c : cursor) (stmts : list string) : cursor :=
  fold_left (fun c s => fst (execute c s)) stmts c.

(** What each statement does when run after those before it. *)
Fixpoint outcomes (c : cursor) (stmts : list string)
  : list setup_database.outcome :=
  match stmts with
  | [] => []
  | s :: rest => snd (execute c s) :: outcomes (fst (execute c s)) rest
  end.

(** The number of statements that fail with an [sqlite3.Error]. *)
Definition failures (c : cursor) (stmts : list string) : nat :=
  List.length (filter is_sqlite_error (outcomes c stmts)).

(** No statement raises anything but an [sqlite3.Error]. *)
Definition only_sqlite_errors (c : cursor) (stmts : list string) : Prop :=
  forallb (fun o => negb (is_other_exception o)) (outcomes c stmts) = true.

(** The statement-by-statement path is entered from [c1]: right away
    for a file that is not an insert file, and after [executescript]
    failed with an [sqlite3.Error] for an insert file. *)
Definition enters_statement_path (c : cursor) (file_path script : string)
    (c1 : cursor) : Prop :=
  (endswith "_insert.sql" file_path = false /\ c1 = c)
  \/ (endswith "_insert.sql" file_path = true
      /\ exists e, executescript c script = (c1, setup_database.SqliteError e)).

End runs.

(** The number of records of a result. *)
Definition rows_count {row : Type} (rows : list row) : Z :=
  Z.of_nat (List.length rows).

(** An engine whose table is a list of record numbers and which hands
    back the whole table for any statement. *)
Definition table_scan (table : list nat) (_ : string)
    (_ : list query_examples.sqlvalue) : list nat := table.

(** A cursor that records the statements handed to it; [fails] tells
    which of them raise an [sqlite3.Error]. *)
Definition recorder (fails : string -> bool) (seen : list string)
    (s : string) : list string * setup_database.outcome :=
  ((seen ++ [s])%list,
   if fails s then setup_database.SqliteError "error" else setup_database.Done).

Section files.
Variable cursor : Type.
Variable execute : cursor -> string -> cursor * setup_database.outcome.
Variable executescript : cursor -> string -> cursor * setup_database.outcome.
Variable read_file : string -> setup_database.read_result.

(** The database after the files were executed one after the other. *)
Definition after_files (c : cursor) (files : list string) : cursor :=
  fold_left
    (fun c f =>
       setup_database.cur
         (setup_database.final
            (setup_database.execute_sql_file cursor execute executescript
               read_file c f)))
    files c.

(** None of the files, executed one after the other, raises. *)
Fixpoint no_file_raises (c : cursor) (files : list string) : bool :=
  match files with
  | [] => true
  | f :: rest =>
      let r := setup_database.execute_sql_file cursor execute executescript
                 read_file c f in
      negb (setup_database.raised r)
      && no_file_raises (setup_database.cur (setup_database.final r)) rest
  end.

End files.

(** A connection that records what is done to it. *)
Definition mark (what : string) (seen : list string)
  : list string * setup_database.outcome :=
  ((seen ++ [what])%list, setup_database.Done).

End Spec.

(** ** Strings *)

Section string_facts.
Import PyStr.

Lemma append_empty_r (s : string) : s ++ "" = s.
Proof. induction s as [|c s IH]; simpl; [reflexivity | now rewrite IH]. Qed.

Lemma append_assoc (a b c : string) : (a ++ b) ++ c = a ++ (b ++ c).
Proof. induction a as [|x a IH]; simpl; [reflexivity | now rewrite IH]. Qed.

Lemma length_append (a b : string) :
  String.length (a ++ b) = String.length a + String.length b.
Proof. induction a as [|x a IH]; simpl; [reflexivity | now rewrite IH]. Qed.

Lemma lstrip_whitespace_only (s : string) :
  Spec.whitespace_only s = true -> lstrip s = "".
Proof.
  induction s as [|c s IH]; simpl; [reflexivity|].
  intros H. apply andb_true_iff in H as [Hc Hs]. now rewrite Hc, IH.
Qed.

Lemma strip_whitespace_only (s : string) :
  Spec.whitespace_only s = true -> strip s = "".
Proof. intros H. unfold strip. now rewrite lstrip_whitespace_only. Qed.

Lemma rstrip_empty_inv (s : string) :
  rstrip s = "" -> Spec.whitespace_only s = true.
Proof.
  induction s as [|c s IH]; simpl; [reflexivity|].
  destruct (rstrip s) eqn:E.
  - destruct (isspace c); [intros _; now rewrite IH | discriminate].
  - discriminate.
Qed.

Lemma lstrip_sound (s : string) :
  Spec.whitespace_only (lstrip s) = true -> Spec.whitespace_only s = true.
Proof.
  induction s as [|c s IH]; simpl; [reflexivity|].
  destruct (isspace c) eqn:E; simpl.
  - exact IH.
  - now rewrite E.
Qed.

(** [s.strip() == ''] holds exactly for the texts of blanks only. *)
Lemma strip_empty_iff (s : string) :
  strip s = "" <-> Spec.whitespace_only s = true.
Proof.
  split.
  - intros H. apply lstrip_sound, rstrip_empty_inv, H.
  - apply strip_whitespace_only.
Qed.

Lemma strip_eqb_empty (s : string) :
  (strip s =? "") = Spec.whitespace_only s.
Proof.
  destruct (Spec.whitespace_only s) eqn:E.
  - apply String.eqb_eq, strip_empty_iff, E.
  - apply String.eqb_neq. intros H. apply strip_empty_iff in H. congruence.
Qed.

End string_facts.

(** ** Value coercion *)

Section coercion_facts.
Import PyStr convert.

Lemma no_value_is_blank (v : cell) : Spec.no_value v -> is_blank v = true.
Proof.
  intros [-> | [-> | (s & -> & Hs)]]; try reflexivity.
  unfold is_blank. simpl. rewrite strip_eqb_empty, Hs.
  now rewrite orb_true_r.
Qed.

Lemma is_blank_str (s : string) :
  is_blank (CStr s) = Spec.whitespace_only s.
Proof.
  unfold is_blank. simpl. rewrite strip_eqb_empty.
  destruct s; reflexivity.
Qed.

Lemma doubled_runs_even (s : string) :
  Spec.quote_runs_even (replace_char quote "''" s) = true.
Proof.
  unfold Spec.quote_runs_even.
  induction s as [|a s IH]; simpl; [reflexivity|].
  destruct (Ascii.eqb a quote) eqn:E; simpl.
  - exact IH.
  - now rewrite E, IH.
Qed.

Lemma doubled_closing_quote (s : string) :
  Spec.closing_quote (replace_char quote "''" s ++ "'")
  = Some (S (String.length (replace_char quote "''" s))).
Proof.
  induction s as [|a s IH]; simpl; [reflexivity|].
  destruct (Ascii.eqb a quote) eqn:E; simpl.
  - now rewrite IH.
  - now rewrite E, IH.
Qed.

Lemma doubled_drop_closing (s : string) :
  Spec.drop_closing_quote (replace_char quote "''" s ++ "'")
  = Some (replace_char quote "''" s).
Proof.
  assert (G : forall t, Spec.drop_closing_quote (t ++ "'") = Some t).
  { induction t as [|a t IH]; [reflexivity|].
    change (String a t ++ "'") with (String a (t ++ "'")).
    simpl. rewrite IH. destruct (t ++ "'") eqn:Et; [|reflexivity].
    destruct t; discriminate. }
  apply G.
Qed.

Lemma collapse_doubled (s : string) :
  Spec.collapse_quotes (replace_char quote "''" s) = s.
Proof.
  induction s as [|a s IH]; simpl; [reflexivity|].
  destruct (Ascii.eqb a quote) eqn:E; simpl.
  - apply Ascii.eqb_eq in E. now rewrite IH, E.
  - now rewrite E, IH.
Qed.

End coercion_facts.

Section coercion_properties.
Import PyStr convert.

(** C8.  A cell that is the missing marker, the empty string or made of
    blanks only is turned into the NULL keyword by each of the four
    coercions: string, numeric (in integer and in decimal mode), date
    and boolean. *)
Theorem blank_cells_become_null (v : cell) :
  Spec.no_value v ->
  escape_sql_string v = "NULL"
  /\ convert_to_sql_number v false = Return "NULL"
  /\ convert_to_sql_number v true = Return "NULL"
  /\ convert_to_sql_date v = Return "NULL"
  /\ convert_to_sql_boolean v = "NULL".
Proof.
  intros H. apply no_value_is_blank in H.
  unfold escape_sql_string, convert_to_sql_number, convert_to_sql_date,
    convert_to_sql_boolean.
  rewrite H. repeat split.
Qed.

Lemma blank_cells_become_null_witness :
  Spec.no_value (CStr "   ")
  /\ escape_sql_string (CStr "   ") = "NULL"
  /\ convert_to_sql_date (CStr "   ") = Return "NULL".
Proof.
  assert (H : Spec.no_value (CStr "   ")).
  { right. right. exists "   ". split; reflexivity. }
  split; [exact H|].
  destruct (blank_cells_become_null (CStr "   ") H) as (H1 & _ & _ & H4 & _).
  split; assumption.
Defined.

(** C9.  Whatever the cell, string coercion gives either the NULL
    keyword or a literal that starts and ends with a quote and whose
    interior has quote characters in runs of even length only; a
    reader of SQL strings therefore finds the closing quote at the very
    last character of the literal. *)
Theorem string_literal_well_quoted (v : cell) :
  escape_sql_string v = "NULL"
  \/ exists interior,
       escape_sql_string v = "'" ++ interior ++ "'"
       /\ Spec.quote_runs_even interior = true
       /\ Spec.literal_end (escape_sql_string v)
          = Some (String.length (escape_sql_string v)).
Proof.
  unfold escape_sql_string. destruct (is_blank v); [now left|].
  right. exists (replace_char quote "''" (str v)). split; [reflexivity|].
  split; [apply doubled_runs_even|].
  simpl. rewrite doubled_closing_quote. simpl.
  now rewrite length_append, Nat.add_1_r.
Qed.

(** C7, as the code has it.  For every string with at least one
    character that is not a blank, decoding the emitted literal
    (stripping the outer quotes and collapsing each doubled quote)
    gives the string back. *)
Theorem string_literal_round_trip (s : string) :
  Spec.whitespace_only s = false ->
  Spec.decode_literal (escape_sql_string (CStr s)) = Some s.
Proof.
  intros H. unfold escape_sql_string. rewrite is_blank_str, H.
  unfold Spec.decode_literal. simpl.
  now rewrite doubled_drop_closing; simpl; rewrite collapse_doubled.
Qed.

Lemma string_literal_round_trip_witness :
  Spec.whitespace_only "O'Brien" = false
  /\ escape_sql_string (CStr "O'Brien") = "'O''Brien'"
  /\ Spec.decode_literal (escape_sql_string (CStr "O'Brien"))
     = Some "O'Brien".
Proof.
  split; [reflexivity|]. split; [reflexivity|].
  apply (string_literal_round_trip "O'Brien"). reflexivity.
Defined.

(** C7 as stated fails: the string of one blank is not empty, yet it is
    coerced to the NULL keyword, which does not decode to it. *)
Lemma blank_string_does_not_round_trip :
  " " <> "" /\ escape_sql_string (CStr " ") = "NULL"
  /\ Spec.decode_literal (escape_sql_string (CStr " ")) <> Some " ".
Proof. repeat split; discriminate. Qed.

(** C1, at the input that shows the defect.  The text 3.7 has no
    exponent marker and its value is not an integer (its own decimal
    representation is 3.7), yet integer mode returns the truncated 3;
    the branch for scientific notation keeps the decimal
    representation of a value that is not an integer. *)
Theorem integer_mode_truncates_fraction :
  contains "e+" (lower "3.7") || contains "e-" (lower "3.7") = false
  /\ (x <- float (CStr "3.7") ;; Return (PyFloat.is_integer x)) = Return false
  /\ convert_to_sql_number (CStr "3.7") true = Return "3.7"
  /\ convert_to_sql_number (CStr "3.7") false = Return "3"
  /\ convert_to_sql_number (CStr "37e-1") false = Return "3.7".
Proof. repeat split; vm_compute; reflexivity. Qed.

(** C2, at the input that shows the defect.  In integer mode the text
    inf is read as the infinite float, whose conversion to an integer
    raises OverflowError; the handler names ValueError and TypeError
    only, so the exception reaches the caller. *)
Theorem integer_mode_raises_on_infinity :
  convert_to_sql_number (CStr "inf") false = Raise OverflowError
  /\ convert_to_sql_number (CFloat (PyFloat.Inf false)) false
     = Raise OverflowError
  /\ convert_to_sql_number (CStr "1e999") false = Raise OverflowError.
Proof. repeat split; vm_compute; reflexivity. Qed.

(** C5, at the input that shows the defect.  [strptime] accepts a month
    and a day of one digit, so a text that is not of the form
    YYYY-MM-DD is emitted as a date literal. *)
Theorem date_accepts_unpadded_fields :
  convert_to_sql_date (CStr "2023-1-5") = Return "'2023-1-5'"
  /\ convert_to_sql_date (CStr "2023-01- 5") = Return "'2023-01- 5'".
Proof. split; vm_compute; reflexivity. Qed.

End coercion_properties.

Section coercion_support.
Import PyStr convert.

(** Reading a float from a text raises nothing but ValueError. *)
Lemma float_of_string_raises (s : string) (e : exn) :
  PyFloat.of_string s = Raise e -> e = ValueError.
Proof.
  unfold PyFloat.of_string.
  destruct (negb (PyFloat.underscores_ok None s)); [congruence|].
  destruct (PyFloat.split_sign _) as [neg u].
  destruct (_ || _); [discriminate|].
  destruct (_ =? _); [discriminate|].
  destruct (PyFloat.parse_unsigned u) as [[m e10]|]; congruence.
Qed.

(** Decimal mode never raises on a text. *)
Lemma decimal_mode_total (s : string) :
  exists r, convert_to_sql_number (CStr s) true = Return r.
Proof.
  unfold convert_to_sql_number.
  destruct (is_blank (CStr s)); [eauto|].
  assert (G : exists r,
    try_except (x <- float (CStr s) ;; Return (PyFloat.to_string x))
      [ValueError; TypeError] (Return "NULL") = Return r).
  { simpl float. destruct (PyFloat.of_string s) as [x|e] eqn:E; simpl.
    - eauto.
    - apply float_of_string_raises in E. subst e. simpl. eauto. }
  destruct (_ || _); exact G.
Qed.

(** Integer mode on a text without exponent marker: whenever the text
    reads as a finite float, the result is its truncation, whether or
    not the value is an integer. *)
Lemma integer_mode_plain (v : cell) (x : PyFloat.float) (i : Z) :
  is_blank v = false ->
  contains "e+" (lower (str v)) || contains "e-" (lower (str v)) = false ->
  float v = Return x ->
  PyFloat.to_int x = Return i ->
  convert_to_sql_number v false = Return (PyStr.of_Z i).
Proof.
  intros Hb Hm Hx Hi. unfold convert_to_sql_number.
  now rewrite Hb, Hm, Hx; simpl; rewrite Hi.
Qed.

(** Integer mode raises on a text only when the text reads as an
    infinite float without exponent marker, and then with
    OverflowError. *)
Lemma integer_mode_raises_only_on_infinity (s : string) (e : exn) :
  convert_to_sql_number (CStr s) false = Raise e ->
  e = OverflowError
  /\ contains "e+" (lower s) || contains "e-" (lower s) = false
  /\ exists neg, PyFloat.of_string s = Return (PyFloat.Inf neg).
Proof.
  unfold convert_to_sql_number.
  destruct (is_blank (CStr s)); [discriminate|].
  simpl str. simpl float.
  destruct (contains "e+" (lower s) || contains "e-" (lower s)).
  - destruct (PyFloat.of_string s) as [x|e'] eqn:E; simpl.
    + destruct x as [|neg|neg m z]; simpl; try discriminate.
      destruct (_ || _); discriminate.
    + apply float_of_string_raises in E. subst e'. discriminate.
  - destruct (PyFloat.of_string s) as [x|e'] eqn:E; simpl.
    + destruct x as [|neg|neg m z]; simpl; try discriminate.
      intros [= <-]. repeat split. now exists neg.
    + apply float_of_string_raises in E. subst e'. discriminate.
Qed.

(** Date coercion never raises. *)
Lemma date_total (v : cell) : exists r, convert_to_sql_date v = Return r.
Proof.
  unfold convert_to_sql_date. destruct (is_blank v); [eauto|].
  unfold PyDate.strptime_Ymd.
  destruct (PyDate.match_Ymd _) as [[[[y m] d] rest]|]; simpl; [|eauto].
  destruct (negb _); simpl; [eauto|].
  destruct (_ && _); simpl; eauto.
Qed.

(** *** What [strptime] lets through *)












(** The examples of the specification. *)
Example number_examples :
  convert_to_sql_number (CStr "1.5e+10") true = Return "15000000000.0"
  /\ convert_to_sql_number (CStr "42.0") false = Return "42"
  /\ convert_to_sql_number (CStr "abc") false = Return "NULL"
  /\ convert_to_sql_number (CStr "abc") true = Return "NULL".
Proof. repeat split; vm_compute; reflexivity. Qed.

Example date_examples :
  convert_to_sql_date (CStr "2023-01-15") = Return "'2023-01-15'"
  /\ convert_to_sql_date (CStr "2023-13-01") = Return "NULL"
  /\ convert_to_sql_date (CStr "01/15/2023") = Return "NULL"
  /\ convert_to_sql_date (CStr "2023-02-29") = Return "NULL".
Proof. repeat split; vm_compute; reflexivity. Qed.

Example boolean_examples :
  map (fun s => convert_to_sql_boolean (CStr s))
      ["Yes"; "TRUE"; "1"; "No"; "0"; "maybe"]
  = ["TRUE"; "TRUE"; "TRUE"; "FALSE"; "FALSE"; "NULL"].
Proof. reflexivity. Qed.

End coercion_support.

(** ** The dialect translator *)

Section substitution_facts.
Import PyStr PyRe.

Lemma drop_append (a b : string) : drop (String.length a) (a ++ b) = b.
Proof. induction a as [|c a IH]; simpl; [now destruct b | exact IH]. Qed.

Lemma prefix_append (p v : string) : prefix p (p ++ v) = true.
Proof.
  induction p as [|c p IH]; simpl; [now destruct v|].
  destruct (ascii_dec c c); [exact IH | contradiction].
Qed.

Lemma prefix_split (p s : string) :
  prefix p s = true -> s = p ++ drop (String.length p) s.
Proof.
  revert s. induction p as [|c p IH]; intros s H; simpl.
  - now destruct s.
  - destruct s as [|a s]; simpl in H; [discriminate|].
    destruct (ascii_dec c a); [|discriminate].
    subst a. f_equal. now apply IH.
Qed.

Section generic.
Variables (m : matcher) (P : string -> Prop) (r : string).
Hypothesis m_sound : sound m P.
Hypothesis m_complete : complete m P.

Lemma miss_no_occurrence (s w v : string) :
  m s = None -> s = w ++ v -> ~ P w.
Proof.
  intros Hm -> Hw. rewrite (m_complete w v Hw) in Hm. discriminate.
Qed.

Lemma sub_from_drop (s : string) (k : nat) :
  sub_from m r k s = sub m r (drop k s).
Proof.
  revert k. induction s as [|c s IH]; intros [|k]; try reflexivity.
  simpl. apply IH.
Qed.

Lemma sub_hit (c : ascii) (s : string) (n : nat) :
  m (String c s) = Some (S n) ->
  sub m r (String c s) = r ++ sub m r (drop n s).
Proof.
  intros H. unfold sub at 1. simpl. rewrite H. now rewrite sub_from_drop.
Qed.

Lemma sub_miss (c : ascii) (s : string) :
  m (String c s) = None ->
  sub m r (String c s) = String c (sub m r s).
Proof. intros H. unfold sub. simpl. now rewrite H. Qed.

Lemma rewritten_cons (c : ascii) (s out : string) :
  (forall w v, String c s = w ++ v -> ~ P w) ->
  Spec.rewritten P r s out ->
  Spec.rewritten P r (String c s) (String c out).
Proof.
  intros Hc H. destruct H as [s Hnone | u w rest out Hbefore Hw Hrest].
  - apply Spec.rewritten_none. intros [|a u] w v E.
    + apply (Hc w v E).
    + simpl in E. injection E as _ E. apply (Hnone u w v E).
  - change (String c (u ++ w ++ rest)) with (String c u ++ w ++ rest).
    change (String c (u ++ r ++ out)) with (String c u ++ r ++ out).
    apply Spec.rewritten_next; [|assumption..].
    intros [|a u'] w' v' E Hlen.
    + apply (Hc w' v' E).
    + simpl in E. injection E as _ E. simpl in Hlen.
      apply (Hbefore u' w' v' E). lia.
Qed.

Lemma sub_rewritten_bounded (n : nat) (s : string) :
  String.length s <= n -> Spec.rewritten P r s (sub m r s).
Proof.
  revert s. induction n as [|n IH]; intros s Hlen.
  - destruct s; [|simpl in Hlen; lia].
    apply Spec.rewritten_none. intros u w v E Hw.
    destruct u; [|discriminate]. destruct w; [|discriminate].
    specialize (m_complete "" "" Hw). simpl in m_complete.
    apply m_sound in m_complete. lia.
  - destruct s as [|c s].
    { apply (IH ""). simpl. lia. }
    destruct (m (String c s)) as [k|] eqn:Hm.
    + destruct (m_sound _ _ Hm) as (Hk & w & v & Hs & Hlw & Hw).
      destruct k as [|k]; [lia|].
      rewrite (sub_hit _ _ _ Hm).
      assert (Hd : drop k s = v).
      { change (drop k s) with (drop (S k) (String c s)).
        rewrite Hs, <- Hlw. apply drop_append. }
      rewrite Hd, Hs.
      apply (Spec.rewritten_next P r "" w v (sub m r v)).
      * simpl. intros. lia.
      * exact Hw.
      * apply IH. apply (f_equal String.length) in Hs.
        rewrite length_append in Hs. simpl in Hs, Hlen. lia.
    + rewrite (sub_miss _ _ Hm). apply rewritten_cons.
      * intros w v. apply (miss_no_occurrence _ _ _ Hm).
      * apply IH. simpl in Hlen. lia.
Qed.

(** [re.sub] rewrites every occurrence, left to right. *)
Lemma sub_rewritten (s : string) : Spec.rewritten P r s (sub m r s).
Proof. apply (sub_rewritten_bounded (String.length s)). lia. Qed.

End generic.

End substitution_facts.

Section pattern_facts.
Import PyStr PyRe setup_database.

Lemma sound_weaken (m : matcher) (P Q : string -> Prop) :
  sound m P -> (forall w, P w -> Q w) -> sound m Q.
Proof.
  intros H HPQ s n Hm. destruct (H s n Hm) as (Hn & w & v & E & L & Hw).
  split; [exact Hn|]. exists w, v. auto.
Qed.

Lemma sound_seq (m1 m2 : matcher) (P1 P2 : string -> Prop) :
  sound m1 P1 -> sound m2 P2 ->
  sound (seq m1 m2) (fun w => exists a b, w = a ++ b /\ P1 a /\ P2 b).
Proof.
  intros H1 H2 s n. unfold seq.
  destruct (m1 s) as [n1|] eqn:E1; [|discriminate].
  destruct (m2 (drop n1 s)) as [n2|] eqn:E2; [|discriminate].
  intros [= <-].
  destruct (H1 _ _ E1) as (Hn1 & a & v1 & Es & La & Ha).
  rewrite Es, <- La, drop_append in E2.
  destruct (H2 _ _ E2) as (Hn2 & b & v2 & Ev & Lb & Hb).
  split; [lia|]. exists (a ++ b), v2. repeat split.
  - now rewrite Es, Ev, append_assoc.
  - rewrite length_append. lia.
  - exists a, b. auto.
Qed.

Lemma seq_some (m1 m2 : matcher) (s : string) (n k : nat) :
  m1 s = Some n -> m2 (drop n s) = Some k -> seq m1 m2 s = Some (n + k).
Proof. intros H1 H2. unfold seq. now rewrite H1, H2. Qed.

Lemma lit_append (p v : string) : lit p (p ++ v) = Some (String.length p).
Proof. unfold lit. now rewrite prefix_append. Qed.

Lemma sound_lit (p : string) : p <> "" -> sound (lit p) (eq p).
Proof.
  intros Hp s n. unfold lit. destruct (prefix p s) eqn:E; [|discriminate].
  intros [= <-]. split.
  - destruct p; [contradiction | simpl; lia].
  - exists p, (drop (String.length p) s). split; [|split]; trivial.
    now apply prefix_split.
Qed.

Lemma count_digits_split (s : string) :
  exists w v, s = w ++ v /\ String.length w = count_digits s
              /\ Spec.all_digits w = true.
Proof.
  induction s as [|c s (w & v & E & L & D)]; simpl.
  - exists "", "". auto.
  - destruct (isdigit c) eqn:Hc.
    + exists (String c w), v. simpl. rewrite Hc, D, L, <- E. auto.
    + exists "", (String c s). auto.
Qed.

Lemma sound_digits : sound digits Spec.number_text.
Proof.
  intros s n. unfold digits.
  destruct (count_digits s) as [|k] eqn:E; [discriminate|].
  intros [= <-]. split; [lia|].
  destruct (count_digits_split s) as (w & v & Es & L & D).
  exists w, v. rewrite E in L. repeat split; trivial.
  intros ->. discriminate.
Qed.

Lemma digits_append (n : string) (c : ascii) (v : string) :
  Spec.number_text n -> isdigit c = false ->
  digits (n ++ String c v) = Some (String.length n).
Proof.
  intros [Hne Hd] Hc. unfold digits.
  assert (G : count_digits (n ++ String c v) = String.length n).
  { clear Hne. induction n as [|a n IH]; simpl.
    - now rewrite Hc.
    - simpl in Hd. apply andb_true_iff in Hd as [Ha Hd].
      now rewrite Ha, IH. }
  rewrite G. destruct n; [contradiction | reflexivity].
Qed.

Lemma sound_until (c : ascii) :
  sound (until c)
    (fun w => exists text, Spec.free_of c text = true
                           /\ w = text ++ String c "").
Proof.
  intros s n. unfold until.
  destruct (index_of c s) as [i|] eqn:E; [|discriminate].
  intros [= <-]. split; [lia|].
  revert i E. induction s as [|a s IH]; intros i E; [discriminate|].
  simpl in E. destruct (Ascii.eqb a c) eqn:Hac.
  - injection E as <-. apply Ascii.eqb_eq in Hac. subst a.
    exists (String c ""), s. repeat split. exists "". auto.
  - destruct (index_of c s) as [j|]; [|discriminate].
    injection E as <-.
    destruct (IH j eq_refl) as (w & v & Es & L & text & Hf & Ew).
    exists (String a w), v. simpl. rewrite <- Es, L. repeat split.
    exists (String a text). simpl. now rewrite Hac, Hf, Ew.
Qed.

Lemma until_append (c : ascii) (text v : string) :
  Spec.free_of c text = true ->
  until c (text ++ String c v) = Some (S (String.length text)).
Proof.
  intros Hf. unfold until.
  assert (G : index_of c (text ++ String c v) = Some (String.length text)).
  { induction text as [|a t IH]; simpl.
    - now rewrite Ascii.eqb_refl.
    - simpl in Hf. apply andb_true_iff in Hf as [Ha Hf].
      apply negb_true_iff in Ha. now rewrite Ha, IH. }
  now rewrite G.
Qed.

(** *** The five patterns mean what the translator's comments say *)

Lemma comment_on_sound : sound re_comment_on Spec.comment_clause.
Proof.
  eapply sound_weaken.
  - apply sound_seq; [apply sound_lit; discriminate | apply sound_until].
  - intros w (a & b & -> & <- & text & Hf & ->). exists text. auto.
Qed.

Lemma comment_on_complete : complete re_comment_on Spec.comment_clause.
Proof.
  intros w v (text & Hf & ->). unfold re_comment_on.
  rewrite !append_assoc. change (";" ++ v) with (String ";"%char v).
  etransitivity.
  - apply seq_some; [apply lit_append|].
    rewrite drop_append. now apply until_append.
  - f_equal. rewrite !length_append. simpl. lia.
Qed.

Lemma decimal_sound : sound re_decimal Spec.decimal_text.
Proof.
  eapply sound_weaken.
  - apply sound_seq; [apply sound_lit; discriminate|].
    apply sound_seq; [apply sound_digits|].
    apply sound_seq; [apply sound_lit; discriminate|].
    apply sound_seq; [apply sound_digits | apply sound_lit; discriminate].
  - intros w (a & b & -> & <- & p & b1 & -> & Hp & c & b2 & -> & <-
              & s & d & -> & Hs & <-).
    exists p, s. auto.
Qed.

Lemma decimal_complete : complete re_decimal Spec.decimal_text.
Proof.
  intros w v (p & s & Hp & Hs & ->). unfold re_decimal.
  rewrite !append_assoc.
  change ("," ++ s ++ ")" ++ v) with (String ","%char (s ++ String ")"%char v)).
  etransitivity.
  - apply seq_some; [apply lit_append|].
    rewrite drop_append. apply seq_some; [now apply digits_append|].
    rewrite drop_append. apply seq_some; [apply (lit_append "," _)|].
    simpl drop. apply seq_some; [now apply digits_append|].
    rewrite drop_append. apply (lit_append ")" v).
  - f_equal. rewrite !length_append. simpl. lia.
Qed.

Lemma varchar_sound : sound re_varchar Spec.varchar_text.
Proof.
  eapply sound_weaken.
  - apply sound_seq; [apply sound_lit; discriminate|].
    apply sound_seq; [apply sound_digits | apply sound_lit; discriminate].
  - intros w (a & b & -> & <- & n & c & -> & Hn & <-). exists n. auto.
Qed.

Lemma varchar_complete : complete re_varchar Spec.varchar_text.
Proof.
  intros w v (n & Hn & ->). unfold re_varchar.
  rewrite !append_assoc. change (")" ++ v) with (String ")"%char v).
  etransitivity.
  - apply seq_some; [apply lit_append|].
    rewrite drop_append. apply seq_some; [now apply digits_append|].
    rewrite drop_append. apply (lit_append ")" v).
  - f_equal. rewrite !length_append. simpl. lia.
Qed.

Lemma bigint_sound : sound re_bigint Spec.bigint_text.
Proof.
  eapply sound_weaken; [apply sound_lit; discriminate|].
  intros w <-. reflexivity.
Qed.

Lemma bigint_complete : complete re_bigint Spec.bigint_text.
Proof. intros w v ->. apply lit_append. Qed.

Lemma boolean_sound : sound re_boolean Spec.boolean_text.
Proof.
  eapply sound_weaken; [apply sound_lit; discriminate|].
  intros w <-. reflexivity.
Qed.

Lemma boolean_complete : complete re_boolean Spec.boolean_text.
Proof. intros w v ->. apply lit_append. Qed.

End pattern_facts.

Section line_facts.
Import PyStr setup_database.

Lemma kept_clean (l : string) : kept l = true <-> Spec.clean_line l.
Proof.
  unfold kept, Spec.clean_line. rewrite andb_true_iff, !negb_true_iff.
  now rewrite String.eqb_neq.
Qed.

Lemma split_free (c : ascii) (s : string) :
  Forall (fun l => Spec.free_of c l = true) (split c s).
Proof.
  induction s as [|a s IH]; simpl.
  - constructor; [reflexivity | constructor].
  - destruct (Ascii.eqb a c) eqn:E.
    + constructor; [reflexivity | exact IH].
    + destruct (split c s) as [|w ws].
      * constructor; [simpl; now rewrite E | constructor].
      * inversion IH; subst. constructor; [simpl; now rewrite E | assumption].
Qed.

Lemma lstrip_free (c : ascii) (s : string) :
  Spec.free_of c s = true -> Spec.free_of c (lstrip s) = true.
Proof.
  induction s as [|a s IH]; simpl; [trivial|].
  intros H. destruct (isspace a); [|exact H].
  apply andb_true_iff in H as [_ H]. auto.
Qed.

Lemma rstrip_free (c : ascii) (s : string) :
  Spec.free_of c s = true -> Spec.free_of c (rstrip s) = true.
Proof.
  induction s as [|a s IH]; simpl; [trivial|].
  intros H. apply andb_true_iff in H as [Ha H]. specialize (IH H).
  destruct (rstrip s) eqn:E.
  - destruct (isspace a); simpl; [reflexivity | now rewrite Ha].
  - change (Spec.free_of c (String a (String a0 s0)))
      with (negb (Ascii.eqb a c) && Spec.free_of c (String a0 s0)).
    now rewrite Ha, IH.
Qed.

Lemma strip_free (c : ascii) (s : string) :
  Spec.free_of c s = true -> Spec.free_of c (strip s) = true.
Proof. intros H. now apply rstrip_free, lstrip_free. Qed.

Lemma split_one (c : ascii) (x : string) :
  Spec.free_of c x = true -> split c x = [x].
Proof.
  induction x as [|a x IH]; simpl; [reflexivity|].
  intros H. apply andb_true_iff in H as [Ha H].
  apply negb_true_iff in Ha. now rewrite Ha, IH.
Qed.

Lemma split_append (c : ascii) (x rest : string) :
  Spec.free_of c x = true ->
  split c (x ++ String c rest) = x :: split c rest.
Proof.
  induction x as [|a x IH]; simpl.
  - now rewrite Ascii.eqb_refl.
  - intros H. apply andb_true_iff in H as [Ha H].
    apply negb_true_iff in Ha. now rewrite Ha, IH.
Qed.

(** Splitting what was joined gives the lines back. *)
Lemma split_join (c : ascii) (lines : list string) :
  lines <> [] ->
  Forall (fun l => Spec.free_of c l = true) lines ->
  split c (join (String c "") lines) = lines.
Proof.
  intros Hne H. induction H as [|x xs Hx Hxs IH]; [contradiction|].
  unfold join in *. destruct xs as [|y ys].
  - simpl. now apply split_one.
  - change (concat (String c "") (x :: y :: ys))
      with (x ++ String c (concat (String c "") (y :: ys))).
    rewrite split_append by assumption. f_equal. apply IH. discriminate.
Qed.

End line_facts.

Section translator_properties.
Import PyStr PyRe setup_database.

(** C6.  The translator works in stages, each reading its text from
    the left and replacing every occurrence it meets: every
    COMMENT ON ... ; clause, up to the next semicolon, by nothing;
    then every DECIMAL(p,s) by REAL; every VARCHAR(n) by TEXT; every
    BIGINT by INTEGER; every BOOLEAN by INTEGER.  The lines of the
    result are then stripped, and the blank ones and those that start
    with two dashes are dropped: the output is the remaining lines,
    joined by newlines, so that no line of a non-empty output is blank
    or starts with two dashes. *)
Theorem translator_rewrites_then_cleans (sql : string) :
  exists s1 s2 s3 s4 s5 lines,
    Spec.rewritten Spec.comment_clause "" sql s1
    /\ Spec.rewritten Spec.decimal_text "REAL" s1 s2
    /\ Spec.rewritten Spec.varchar_text "TEXT" s2 s3
    /\ Spec.rewritten Spec.bigint_text "INTEGER" s3 s4
    /\ Spec.rewritten Spec.boolean_text "INTEGER" s4 s5
    /\ lines = filter kept (map strip (split newline s5))
    /\ Forall Spec.clean_line lines
    /\ convert_postgres_to_sqlite sql = join nl lines
    /\ (lines <> [] ->
        split newline (convert_postgres_to_sqlite sql) = lines).
Proof.
  set (s1 := sub re_comment_on "" sql).
  set (s2 := sub re_decimal "REAL" s1).
  set (s3 := sub re_varchar "TEXT" s2).
  set (s4 := sub re_bigint "INTEGER" s3).
  set (s5 := sub re_boolean "INTEGER" s4).
  exists s1, s2, s3, s4, s5, (filter kept (map strip (split newline s5))).
  split; [apply sub_rewritten;
          [apply comment_on_sound | apply comment_on_complete]|].
  split; [apply sub_rewritten;
          [apply decimal_sound | apply decimal_complete]|].
  split; [apply sub_rewritten;
          [apply varchar_sound | apply varchar_complete]|].
  split; [apply sub_rewritten;
          [apply bigint_sound | apply bigint_complete]|].
  split; [apply sub_rewritten;
          [apply boolean_sound | apply boolean_complete]|].
  split; [reflexivity|].
  split.
  { apply Forall_forall. intros l Hl. apply filter_In in Hl as [_ Hl].
    now apply kept_clean. }
  split; [reflexivity|].
  intros Hne. unfold convert_postgres_to_sqlite. fold s1 s2 s3 s4 s5.
  apply split_join; [exact Hne|].
  apply Forall_forall. intros l Hl. apply filter_In in Hl as [Hl _].
  apply in_map_iff in Hl as (x & <- & Hx). apply strip_free.
  pose proof (split_free newline s5) as F.
  rewrite Forall_forall in F. now apply F.
Qed.

(** The examples of the specification. *)
Example translator_examples :
  convert_postgres_to_sqlite "VARCHAR(255)" = "TEXT"
  /\ convert_postgres_to_sqlite "DECIMAL(10,2)" = "REAL"
  /\ convert_postgres_to_sqlite "COMMENT ON COLUMN x IS 'desc';" = ""
  /\ convert_postgres_to_sqlite "id BIGINT, ok BOOLEAN"
     = "id INTEGER, ok INTEGER".
Proof. repeat split; vm_compute; reflexivity. Qed.

End translator_properties.

(** ** The batch executor *)

Section executor_facts.
Import PyStr setup_database.

Variable cursor : Type.
Variable execute : cursor -> string -> cursor * outcome.

Lemma previews_app (a b : list (level * string)) :
  Spec.previews (a ++ b) = Spec.previews a + Spec.previews b.
Proof. unfold Spec.previews. now rewrite filter_app, length_app. Qed.

Lemma suppressions_app (a b : list (level * string)) :
  Spec.suppressions (a ++ b) = Spec.suppressions a + Spec.suppressions b.
Proof. unfold Spec.suppressions. now rewrite filter_app, length_app. Qed.

Lemma detailed_report_counts (file_path e statement : string) :
  let report :=
    [(WARNING, "Warning executing statement in " ++ file_path ++ ": " ++ e);
     (WARNING, "Statement preview: " ++ take 100 statement ++ "...")] in
  Spec.previews report = 1 /\ Spec.suppressions report = 0.
Proof.
  unfold Spec.previews, Spec.suppressions, Spec.is_preview,
    Spec.is_suppression. cbn [filter snd].
  rewrite prefix_append. split; reflexivity.
Qed.

Lemma suppression_notice_counts (file_path : string) :
  let notice :=
    [(WARNING, "Suppressing further error messages for " ++ file_path
               ++ "...")] in
  Spec.previews notice = 0 /\ Spec.suppressions notice = 1.
Proof.
  unfold Spec.previews, Spec.suppressions, Spec.is_preview,
    Spec.is_suppression. cbn [filter snd].
  rewrite prefix_append. split; reflexivity.
Qed.

(** The loop, started in any state: it runs every statement, counts
    each outcome, reports the first ten failures in detail and says
    once that it reports no more. *)
Lemma run_statements_spec (file_path : string) (chunks : list string)
    (st : loop_state cursor) :
  let stmts := filter kept (map strip chunks) in
  Spec.only_sqlite_errors cursor execute (cur st) stmts ->
  exists st',
    run_statements cursor execute file_path chunks st = (st', None)
    /\ cur st' = Spec.exec_all cursor execute (cur st) stmts
    /\ failed_statements st'
       = failed_statements st + Spec.failures cursor execute (cur st) stmts
    /\ successful_statements st' + failed_statements st'
       = successful_statements st + failed_statements st + List.length stmts
    /\ Spec.previews (logged st') + Nat.min (failed_statements st) 10
       = Spec.previews (logged st) + Nat.min (failed_statements st') 10
    /\ Spec.suppressions (logged st')
         + (if (10 <? failed_statements st)%nat then 1 else 0)
       = Spec.suppressions (logged st)
         + (if (10 <? failed_statements st')%nat then 1 else 0).
Proof.
  revert st. induction chunks as [|chunk rest IH]; intros st stmts Hok.
  - exists st. subst stmts. unfold Spec.failures. simpl.
    repeat split; try lia.
  - subst stmts. cbn [map filter run_statements] in *.
    destruct (kept (strip chunk)) eqn:Hk; [|now apply IH].
    unfold Spec.only_sqlite_errors in Hok. cbn [Spec.outcomes forallb] in Hok.
    apply andb_true_iff in Hok as [Ho Hok].
    unfold Spec.failures, Spec.exec_all.
    cbn [Spec.outcomes filter fold_left List.length].
    destruct (execute (cur st) (strip chunk)) as [c o] eqn:He.
    cbn [fst snd] in *.
    destruct o as [|e|e]; [| |discriminate].
    + destruct (IH {| cur := c;
                      successful_statements := S (successful_statements st);
                      failed_statements := failed_statements st;
                      logged := logged st |} Hok)
        as (st' & Hrun & Hc & Hf & Hs & Hp & Hn).
      cbn [cur failed_statements successful_statements logged] in *.
      exists st'. rewrite Hrun. cbn [Spec.is_sqlite_error].
      repeat split; try assumption; try lia.
    + match goal with
      | |- context [run_statements _ _ _ _ ?s] =>
          destruct (IH s Hok) as (st' & Hrun & Hc & Hf & Hs & Hp & Hn)
      end.
      cbn [cur failed_statements successful_statements logged] in *.
      exists st'. rewrite Hrun. cbn [Spec.is_sqlite_error List.length].
      fold (Spec.failures cursor execute c (filter kept (map strip rest))) in *.
      destruct (detailed_report_counts file_path e (strip chunk)) as [P1 S1].
      destruct (suppression_notice_counts file_path) as [P2 S2].
      cbv zeta in P1, S1, P2, S2.
      repeat split; try assumption; try lia.
      * destruct (Nat.leb_spec (S (failed_statements st)) 10).
        -- rewrite previews_app, P1 in Hp. lia.
        -- destruct (Nat.eqb_spec (S (failed_statements st)) 11).
           ++ rewrite previews_app, P2 in Hp. lia.
           ++ lia.
      * destruct (Nat.leb_spec (S (failed_statements st)) 10).
        -- rewrite suppressions_app, S1 in Hn.
           destruct (Nat.ltb_spec 10 (S (failed_statements st))); [lia|].
           destruct (Nat.ltb_spec 10 (failed_statements st)); [lia|].
           lia.
        -- destruct (Nat.eqb_spec (S (failed_statements st)) 11).
           ++ rewrite suppressions_app, S2 in Hn.
              destruct (Nat.ltb_spec 10 (S (failed_statements st))); [|lia].
              destruct (Nat.ltb_spec 10 (failed_statements st)); [lia|].
              lia.
           ++ destruct (Nat.ltb_spec 10 (S (failed_statements st))); [|lia].
              destruct (Nat.ltb_spec 10 (failed_statements st)); [|lia].
              lia.
Qed.

End executor_facts.

Section executor_support.
Import PyStr setup_database.

Lemma recorder_only_sqlite_errors (fails : string -> bool)
    (seen stmts : list string) :
  Spec.only_sqlite_errors (list string) (Spec.recorder fails) seen stmts.
Proof.
  unfold Spec.only_sqlite_errors. revert seen.
  induction stmts as [|s rest IH]; intros seen; [reflexivity|].
  cbn [Spec.outcomes forallb]. rewrite IH.
  unfold Spec.recorder. cbn [snd]. now destruct (fails s).
Qed.

Lemma recorder_exec_all (fails : string -> bool) (seen stmts : list string) :
  Spec.exec_all (list string) (Spec.recorder fails) seen stmts
  = (seen ++ stmts)%list.
Proof.
  unfold Spec.exec_all. revert seen.
  induction stmts as [|s rest IH]; intros seen; simpl.
  - now rewrite app_nil_r.
  - rewrite IH. now rewrite <- app_assoc.
Qed.

Lemma statements_free_of_semicolon (script : string) :
  Forall (fun s => Spec.free_of ";" s = true /\ Spec.clean_line s)
    (Spec.statements_of script).
Proof.
  apply Forall_forall. intros s Hs. unfold Spec.statements_of in Hs.
  apply filter_In in Hs as [Hs Hk]. split; [|now apply kept_clean].
  apply in_map_iff in Hs as (x & <- & Hx). apply strip_free.
  pose proof (split_free ";" script) as F.
  rewrite Forall_forall in F. now apply F.
Qed.

(** The statement path of [execute_sql_file], entered from [c1] with
    the log [log]. *)
Lemma execute_statements_spec (cursor : Type)
    (execute : cursor -> string -> cursor * outcome)
    (c1 : cursor) (log : list (level * string)) (file_path script : string) :
  Spec.only_sqlite_errors cursor execute c1 (Spec.statements_of script) ->
  Spec.previews log = 0 -> Spec.suppressions log = 0 ->
  let r := execute_statements cursor execute c1 log file_path script in
  raised r = false
  /\ cur (final r) = Spec.exec_all cursor execute c1 (Spec.statements_of script)
  /\ failed_statements (final r)
     = Spec.failures cursor execute c1 (Spec.statements_of script)
  /\ successful_statements (final r) + failed_statements (final r)
     = List.length (Spec.statements_of script)
  /\ Spec.previews (logged (final r))
     = Nat.min (failed_statements (final r)) 10
  /\ Spec.suppressions (logged (final r))
     = (if (10 <? failed_statements (final r))%nat then 1 else 0)
  /\ (failed_statements (final r) = 1 ->
      In (WARNING, "  - Failed statements: 1") (logged (final r))).
Proof.
  intros Hok Hp0 Hs0 r. subst r. unfold execute_statements.
  destruct (run_statements_spec cursor execute file_path (split ";" script)
              {| cur := c1; successful_statements := 0;
                 failed_statements := 0; logged := log |} Hok)
    as (st' & Hrun & Hc & Hf & Hs & Hp & Hn).
  rewrite Hrun. cbn [cur failed_statements successful_statements logged
                     final raised] in *.
  fold (Spec.statements_of script) in *.
  repeat split; try assumption; try lia.
  - rewrite !previews_app.
    assert (T : forall f,
      Spec.previews (if (0 <? f)%nat
                     then [(WARNING, "  - Failed statements: " ++ str_nat f)]
                     else []) = 0) by (intros f; now destruct (0 <? f)%nat).
    assert (M : forall a b,
      Spec.previews [(INFO, "Successfully executed: " ++ a);
                     (INFO, "  - Successful statements: " ++ b)] = 0)
      by reflexivity.
    rewrite T, M. simpl in Hp. lia.
  - rewrite !suppressions_app.
    assert (T : forall f,
      Spec.suppressions (if (0 <? f)%nat
                         then [(WARNING, "  - Failed statements: " ++ str_nat f)]
                         else []) = 0) by (intros f; now destruct (0 <? f)%nat).
    assert (M : forall a b,
      Spec.suppressions [(INFO, "Successfully executed: " ++ a);
                         (INFO, "  - Successful statements: " ++ b)] = 0)
      by reflexivity.
    rewrite T, M.
    change (if (10 <? 0)%nat then 1 else 0) with 0 in Hn.
    destruct (10 <? failed_statements st')%nat; lia.
  - intros H1. rewrite H1. apply in_or_app. right.
    apply in_or_app. right. left. reflexivity.
Qed.

(** A chunk counts as a statement only when it does not start with two
    dashes: after a comment that follows a semicolon on its line, the
    next statement belongs to a chunk that starts with the comment and
    is passed over with it. *)
Example comment_after_semicolon :
  Spec.statements_of
    (convert_postgres_to_sqlite
       ("CREATE INDEX i ON t(a); -- first" ++ nl ++ "CREATE INDEX j ON t(b);"))
  = ["CREATE INDEX i ON t(a)"].
Proof. vm_compute. reflexivity. Qed.

End executor_support.

Section executor_properties.
Import PyStr setup_database.

(** C3.  In the statement-by-statement path, when no statement raises
    anything but an sqlite3 error, the loop goes through all the
    statements of the script: every one is executed in turn, the failed
    counter equals the number of failures and the two counters add up
    to the number of statements.  A failure is reported in detail for
    the first ten only, then one notice says that further reports are
    suppressed.  In particular, when exactly one statement fails, all
    the others are executed and the reported number of failures is 1. *)
Theorem statement_path_tolerates_failures
    (cursor : Type)
    (execute executescript : cursor -> string -> cursor * outcome)
    (read_file : string -> read_result)
    (c c1 : cursor) (file_path content : string) :
  read_file file_path = Content content ->
  Spec.enters_statement_path cursor executescript c file_path
    (convert_postgres_to_sqlite content) c1 ->
  Spec.only_sqlite_errors cursor execute c1
    (Spec.statements_of (convert_postgres_to_sqlite content)) ->
  forall r,
    r = execute_sql_file cursor execute executescript read_file c file_path ->
    raised r = false
    /\ cur (final r)
       = Spec.exec_all cursor execute c1
           (Spec.statements_of (convert_postgres_to_sqlite content))
    /\ failed_statements (final r)
       = Spec.failures cursor execute c1
           (Spec.statements_of (convert_postgres_to_sqlite content))
    /\ successful_statements (final r) + failed_statements (final r)
       = List.length (Spec.statements_of (convert_postgres_to_sqlite content))
    /\ Spec.previews (logged (final r))
       = Nat.min (failed_statements (final r)) 10
    /\ Spec.suppressions (logged (final r))
       = (if (10 <? failed_statements (final r))%nat then 1 else 0)
    /\ (Spec.failures cursor execute c1
          (Spec.statements_of (convert_postgres_to_sqlite content)) = 1 ->
        failed_statements (final r) = 1
        /\ successful_statements (final r)
           = List.length
               (Spec.statements_of (convert_postgres_to_sqlite content)) - 1
        /\ In (WARNING, "  - Failed statements: 1") (logged (final r))).
Proof.
  intros Hread Henter Hok r ->. unfold execute_sql_file. rewrite Hread.
  assert (G : forall log,
    Spec.previews log = 0 -> Spec.suppressions log = 0 ->
    let r := execute_statements cursor execute c1 log file_path
               (convert_postgres_to_sqlite content) in
    raised r = false
    /\ cur (final r)
       = Spec.exec_all cursor execute c1
           (Spec.statements_of (convert_postgres_to_sqlite content))
    /\ failed_statements (final r)
       = Spec.failures cursor execute c1
           (Spec.statements_of (convert_postgres_to_sqlite content))
    /\ successful_statements (final r) + failed_statements (final r)
       = List.length (Spec.statements_of (convert_postgres_to_sqlite content))
    /\ Spec.previews (logged (final r))
       = Nat.min (failed_statements (final r)) 10
    /\ Spec.suppressions (logged (final r))
       = (if (10 <? failed_statements (final r))%nat then 1 else 0)
    /\ (Spec.failures cursor execute c1
          (Spec.statements_of (convert_postgres_to_sqlite content)) = 1 ->
        failed_statements (final r) = 1
        /\ successful_statements (final r)
           = List.length
               (Spec.statements_of (convert_postgres_to_sqlite content)) - 1
        /\ In (WARNING, "  - Failed statements: 1") (logged (final r)))).
  { intros log Hp Hs r.
    destruct (execute_statements_spec cursor execute c1 log file_path
                (convert_postgres_to_sqlite content) Hok Hp Hs)
      as (H1 & H2 & H3 & H4 & H5 & H6 & H7).
    fold r in H1, H2, H3, H4, H5, H6, H7.
    repeat split; try assumption; try lia.
    apply H7. lia. }
  destruct Henter as [[Hkind ->] | [Hkind (e & Hscript)]]; rewrite Hkind.
  - apply G; reflexivity.
  - rewrite Hscript. apply G; reflexivity.
Qed.

Lemma statement_path_tolerates_failures_witness :
  cur (final (execute_sql_file (list string) (Spec.recorder (prefix "BAD"))
                (Spec.recorder (prefix "BAD"))
                (fun _ => Content "CREATE TABLE t (a VARCHAR(3)); BAD one; INSERT INTO t VALUES (1);")
                [] "schema.sql"))
  = ["CREATE TABLE t (a TEXT)"; "BAD one"; "INSERT INTO t VALUES (1)"]
  /\ successful_statements
       (final (execute_sql_file (list string) (Spec.recorder (prefix "BAD"))
                 (Spec.recorder (prefix "BAD"))
                 (fun _ => Content "CREATE TABLE t (a VARCHAR(3)); BAD one; INSERT INTO t VALUES (1);")
                 [] "schema.sql")) = 2
  /\ failed_statements
       (final (execute_sql_file (list string) (Spec.recorder (prefix "BAD"))
                 (Spec.recorder (prefix "BAD"))
                 (fun _ => Content "CREATE TABLE t (a VARCHAR(3)); BAD one; INSERT INTO t VALUES (1);")
                 [] "schema.sql")) = 1.
Proof.
  destruct (statement_path_tolerates_failures (list string)
              (Spec.recorder (prefix "BAD")) (Spec.recorder (prefix "BAD"))
              (fun _ => Content "CREATE TABLE t (a VARCHAR(3)); BAD one; INSERT INTO t VALUES (1);")
              [] [] "schema.sql"
              "CREATE TABLE t (a VARCHAR(3)); BAD one; INSERT INTO t VALUES (1);"
              eq_refl (or_introl (conj eq_refl eq_refl))
              (recorder_only_sqlite_errors _ _ _) _ eq_refl)
    as (_ & Hc & _ & _ & _ & _ & H1).
  destruct (H1 eq_refl) as (Hf & Hs & _).
  repeat split; assumption.
Defined.

(** C10.  In the statement-by-statement path the statements handed to
    the cursor are exactly the chunks of the translated script between
    semicolons, stripped, without the empty ones and those starting
    with two dashes, in order.  No executed statement contains a
    semicolon: a statement whose quoted value has one is cut there and
    never executed whole. *)
Theorem fallback_splits_on_every_semicolon
    (fails : string -> bool)
    (executescript : list string -> string -> list string * outcome)
    (read_file : string -> read_result)
    (seen seen1 : list string) (file_path content : string) :
  read_file file_path = Content content ->
  Spec.enters_statement_path (list string) executescript seen file_path
    (convert_postgres_to_sqlite content) seen1 ->
  cur (final (execute_sql_file (list string) (Spec.recorder fails)
                executescript read_file seen file_path))
  = (seen1 ++ Spec.statements_of (convert_postgres_to_sqlite content))%list
  /\ Spec.statements_of (convert_postgres_to_sqlite content)
     = filter kept
         (map strip (split ";" (convert_postgres_to_sqlite content)))
  /\ Forall (fun s => Spec.free_of ";" s = true /\ Spec.clean_line s)
       (Spec.statements_of (convert_postgres_to_sqlite content)).
Proof.
  intros Hread Henter.
  split; [|split; [reflexivity | apply statements_free_of_semicolon]].
  unfold execute_sql_file. rewrite Hread.
  assert (G : forall log,
    cur (final (execute_statements (list string) (Spec.recorder fails)
                  seen1 log file_path (convert_postgres_to_sqlite content)))
    = (seen1 ++ Spec.statements_of (convert_postgres_to_sqlite content))%list).
  { intros log. unfold execute_statements.
    destruct (run_statements_spec (list string) (Spec.recorder fails)
                file_path (split ";" (convert_postgres_to_sqlite content))
                {| cur := seen1; successful_statements := 0;
                   failed_statements := 0; logged := log |}
                (recorder_only_sqlite_errors _ _ _))
      as (st' & Hrun & Hc & _).
    rewrite Hrun. cbn [cur final] in *. rewrite Hc.
    apply recorder_exec_all. }
  destruct Henter as [[Hkind ->] | [Hkind (e & Hscript)]]; rewrite Hkind.
  - apply G.
  - rewrite Hscript. apply G.
Qed.

Lemma fallback_splits_on_every_semicolon_witness :
  cur (final (execute_sql_file (list string) (Spec.recorder (fun _ => false))
                (fun seen _ => (seen, SqliteError "near line 1"))
                (fun _ => Content "INSERT INTO t VALUES ('a;b');")
                [] "t_insert.sql"))
  = ["INSERT INTO t VALUES ('a"; "b')"].
Proof.
  apply (fallback_splits_on_every_semicolon (fun _ => false)
           (fun seen _ => (seen, SqliteError "near line 1"))
           (fun _ => Content "INSERT INTO t VALUES ('a;b');")
           [] [] "t_insert.sql" "INSERT INTO t VALUES ('a;b');" eq_refl).
  right. split; [reflexivity|]. exists "near line 1". reflexivity.
Defined.

End executor_properties.

(** ** The query catalog *)

Section query_facts.
Import query_examples.

Lemma sql_limit_bound {row : Type} (n : Z) (rows : list row) :
  (0 <= n)%Z -> (Z.of_nat (List.length (sql_limit n rows)) <= n)%Z.
Proof.
  intros Hn. unfold sql_limit.
  destruct (Z.ltb_spec n 0); [lia|].
  pose proof (firstn_le_length (Z.to_nat n) rows) as H1.
  rewrite length_firstn. lia.
Qed.

Variables connection row : Type.
Variable select_rows : connection -> string -> list sqlvalue -> list row.

Lemma limit_param_bound (conn : connection) (q : query) (n : Z) :
  limit q = LimitParam -> (0 <= n)%Z ->
  (Z.of_nat (List.length
     (execute_query connection row select_rows conn q [SqlInt n])) <= n)%Z.
Proof.
  intros Hq Hn. unfold execute_query. rewrite Hq. simpl.
  now apply sql_limit_bound.
Qed.

Lemma limit_const_bound (conn : connection) (q : query) (n : Z)
    (params : list sqlvalue) :
  limit q = LimitConst n -> (0 <= n)%Z ->
  (Z.of_nat (List.length
     (execute_query connection row select_rows conn q params)) <= n)%Z.
Proof.
  intros Hq Hn. unfold execute_query. rewrite Hq.
  now apply sql_limit_bound.
Qed.

End query_facts.

Section query_properties.
Import query_examples.

(** C4, as the code has it.  Four queries take an optional row limit:
    the counts by year, the largest models and the counts by
    organization with default 10, the frontier models with default 20;
    each returns at most as many records as the limit, when that is not
    negative.  The training-cost analysis, the search and the domain
    distribution take no limit and return at most 20, 50 and 15
    records.  (The recent models and the models of one domain have no
    limit at all.) *)
Theorem limited_queries_are_bounded
    (connection row : Type)
    (select_rows : connection -> string -> list sqlvalue -> list row)
    (conn : connection) (n : Z) :
  (0 <= n)%Z ->
  (Spec.rows_count (get_models_by_year connection row select_rows conn (Some n)) <= n
   /\ Spec.rows_count (get_largest_models connection row select_rows conn (Some n)) <= n
   /\ Spec.rows_count (get_models_by_organization connection row select_rows conn (Some n)) <= n
   /\ Spec.rows_count (get_frontier_models connection row select_rows conn (Some n)) <= n
   /\ Spec.rows_count (get_models_by_year connection row select_rows conn None) <= 10
   /\ Spec.rows_count (get_largest_models connection row select_rows conn None) <= 10
   /\ Spec.rows_count (get_models_by_organization connection row select_rows conn None) <= 10
   /\ Spec.rows_count (get_frontier_models connection row select_rows conn None) <= 20
   /\ Spec.rows_count (get_training_cost_analysis connection row select_rows conn) <= 20
   /\ (forall term,
         Spec.rows_count (search_models connection row select_rows conn term) <= 50)
   /\ Spec.rows_count (get_models_by_domain connection row select_rows conn None) <= 15)%Z.
Proof.
  intros Hn. unfold Spec.rows_count.
  unfold get_models_by_year, get_largest_models, get_models_by_organization,
    get_frontier_models, get_training_cost_analysis, search_models,
    get_models_by_domain, default.
  repeat split; intros;
    first [ apply limit_param_bound; [reflexivity | lia]
          | apply limit_const_bound; [reflexivity | lia] ].
Qed.

Lemma limited_queries_are_bounded_witness :
  (0 <= 3)%Z
  /\ (Spec.rows_count
        (get_largest_models (list nat) nat Spec.table_scan (List.seq 0 51)
           (Some 3%Z)) <= 3)%Z.
Proof.
  split; [lia|].
  apply (limited_queries_are_bounded (list nat) nat Spec.table_scan
           (List.seq 0 51) 3).
  lia.
Defined.

(** C4 as stated fails.  With an engine that hands back the whole
    table and a table of 51 records, the recent models come back as 51
    records, whatever the argument, and so do the models of a domain:
    more than any limit of the catalog.  No number bounds what the
    recent-models query returns. *)
Lemma recent_models_have_no_row_limit :
  List.length
    (get_recent_models (list nat) nat Spec.table_scan (List.seq 0 51) None)
  = 51
  /\ List.length
       (get_recent_models (list nat) nat Spec.table_scan (List.seq 0 51)
          (Some 365%Z)) = 51
  /\ List.length
       (get_models_by_domain (list nat) nat Spec.table_scan (List.seq 0 51)
          (Some "Language")) = 51
  /\ ~ (exists bound : nat,
          forall (select_rows : list nat -> string -> list sqlvalue -> list nat)
                 (conn : list nat) (days : option Z),
            List.length (get_recent_models (list nat) nat select_rows conn days)
            <= bound).
Proof.
  repeat split.
  intros [bound H].
  specialize (H Spec.table_scan (List.seq 0 (S bound)) None).
  unfold get_recent_models, execute_query in H. simpl in H.
  unfold Spec.table_scan in H. rewrite length_seq in H. lia.
Qed.

End query_properties.

(** ** Further properties of the value coercions *)

Section strip_facts.
Import PyStr.

Lemma rstrip_idempotent (s : string) : rstrip (rstrip s) = rstrip s.
Proof.
  induction s as [|c s IH]; simpl; [reflexivity|].
  destruct (rstrip s) as [|a r] eqn:E.
  - destruct (isspace c) eqn:Hc; simpl; [reflexivity | now rewrite Hc].
  - change (rstrip (String c (String a r)))
      with (match rstrip (String a r) with
            | EmptyString =>
                if isspace c then EmptyString else String c EmptyString
            | String a' r' => String c (String a' r')
            end).
    now rewrite IH.
Qed.

Lemma rstrip_head (c : ascii) (s : string) :
  isspace c = false -> exists r, rstrip (String c s) = String c r.
Proof.
  intros Hc. simpl. destruct (rstrip s) as [|a r].
  - rewrite Hc. now exists "".
  - now exists (String a r).
Qed.

Lemma lstrip_head (s : string) :
  lstrip s = "" \/ exists c r, lstrip s = String c r /\ isspace c = false.
Proof.
  induction s as [|c s IH]; simpl; [now left|].
  destruct (isspace c) eqn:Hc; [exact IH|].
  right. now exists c, s.
Qed.

Lemma strip_head (s : string) :
  strip s = "" \/ exists c r, strip s = String c r /\ isspace c = false.
Proof.
  unfold strip. destruct (lstrip_head s) as [-> | (c & r & -> & Hc)].
  - now left.
  - right. destruct (rstrip_head c r Hc) as (r' & ->). now exists c, r'.
Qed.

(** Stripping twice is stripping once. *)
Lemma strip_idempotent (s : string) : strip (strip s) = strip s.
Proof.
  destruct (strip_head s) as [E | (c & r & E & Hc)].
  - now rewrite E.
  - unfold strip at 1. rewrite E. simpl lstrip. rewrite Hc.
    rewrite <- E. unfold strip. apply rstrip_idempotent.
Qed.

Lemma isspace_lower (c : ascii) : isspace (lower_char c) = isspace c.
Proof. destruct c as [[] [] [] [] [] [] [] []]; reflexivity. Qed.

Lemma lower_char_idempotent (c : ascii) :
  lower_char (lower_char c) = lower_char c.
Proof. destruct c as [[] [] [] [] [] [] [] []]; reflexivity. Qed.

Lemma lower_idempotent (s : string) : lower (lower s) = lower s.
Proof.
  induction s as [|c s IH]; simpl; [reflexivity|].
  now rewrite lower_char_idempotent, IH.
Qed.

Lemma lstrip_lower (s : string) : lstrip (lower s) = lower (lstrip s).
Proof.
  induction s as [|c s IH]; simpl; [reflexivity|].
  rewrite isspace_lower. now destruct (isspace c).
Qed.

Lemma rstrip_lower (s : string) : rstrip (lower s) = lower (rstrip s).
Proof.
  induction s as [|c s IH]; simpl; [reflexivity|].
  rewrite IH, isspace_lower.
  destruct (rstrip s); simpl; [now destruct (isspace c) | reflexivity].
Qed.

Lemma strip_lower (s : string) : strip (lower s) = lower (strip s).
Proof. unfold strip. now rewrite lstrip_lower, rstrip_lower. Qed.

Lemma whitespace_only_lower (s : string) :
  Spec.whitespace_only (lower s) = Spec.whitespace_only s.
Proof.
  induction s as [|c s IH]; simpl; [reflexivity|].
  now rewrite isspace_lower, IH.
Qed.

Lemma whitespace_only_strip (s : string) :
  Spec.whitespace_only (strip s) = Spec.whitespace_only s.
Proof.
  rewrite <- !strip_eqb_empty. now rewrite strip_idempotent.
Qed.

End strip_facts.

Section boolean_properties.
Import PyStr convert.

(** X1.  Boolean coercion of a text looks at it without its surrounding
    blanks and without regard to letter case: stripping the text or
    lowering its letters beforehand does not change the result. *)
Theorem boolean_ignores_blanks_and_case (s : string) :
  convert_to_sql_boolean (CStr (strip s)) = convert_to_sql_boolean (CStr s)
  /\ convert_to_sql_boolean (CStr (lower s)) = convert_to_sql_boolean (CStr s).
Proof.
  unfold convert_to_sql_boolean. rewrite !is_blank_str.
  rewrite whitespace_only_strip, whitespace_only_lower. simpl str.
  rewrite strip_idempotent, strip_lower, lower_idempotent. split; reflexivity.
Qed.

End boolean_properties.

Section date_properties.
Import PyStr convert.

Lemma only_chars_append (p : ascii -> bool) (a b : string) :
  Spec.only_chars p (a ++ b) = Spec.only_chars p a && Spec.only_chars p b.
Proof.
  induction a as [|c a IH]; simpl; [reflexivity|].
  now rewrite IH, andb_assoc.
Qed.













End date_properties.

Section number_properties.
Import PyStr convert.

Lemma float_raises (v : cell) (e : exn) :
  float v = Raise e ->
  (v = CNone /\ e = TypeError)
  \/ ((exists s, v = CStr s) /\ e = ValueError)
  \/ ((exists z, v = CInt z) /\ e = OverflowError).
Proof.
  destruct v as [|s|z|x|b]; simpl; try discriminate.
  - intros [= <-]. now left.
  - intros H. apply float_of_string_raises in H. right. left. eauto.
  - unfold PyFloat.of_Z. destruct (z =? 0)%Z; [discriminate|].
    destruct (PyFloat.round_pos _ _ _); try discriminate.
    intros [= <-]. right. right. eauto.
Qed.

(** X3.  Decimal mode never raises on a cell that is not an integer:
    for a text that does not read as a number, as for a missing cell,
    the result is the NULL keyword. *)
Theorem decimal_mode_never_raises (v : cell) :
  (forall z, v <> CInt z) ->
  exists r, convert_to_sql_number v true = Return r.
Proof.
  intros Hv. unfold convert_to_sql_number.
  destruct (is_blank v); [eauto|].
  assert (G : exists r,
    try_except (x <- float v ;; Return (PyFloat.to_string x))
      [ValueError; TypeError] (Return "NULL") = Return r).
  { destruct (float v) as [x|e] eqn:E; simpl; [eauto|].
    apply float_raises in E as [[_ ->] | [[_ ->] | [[z ->] _]]]; simpl; eauto.
    now destruct (Hv z). }
  destruct (_ || _); exact G.
Qed.

Lemma decimal_mode_never_raises_witness :
  (forall z, CStr "n/a" <> CInt z)
  /\ convert_to_sql_number (CStr "n/a") true = Return "NULL".
Proof.
  assert (H : forall z, CStr "n/a" <> CInt z) by discriminate.
  split; [exact H|].
  destruct (decimal_mode_never_raises (CStr "n/a") H) as [r Hr].
  rewrite Hr. vm_compute in Hr. symmetry. exact Hr.
Defined.

(** X4.  Numeric coercion lets one exception through, OverflowError,
    and only in two cases: the conversion of the cell to a float
    overflows (an integer too large for a float), or, in integer mode
    and without exponent marker, the cell reads as an infinite float. *)
Theorem number_raises_only_overflow (v : cell) (is_decimal : bool) (e : exn) :
  convert_to_sql_number v is_decimal = Raise e ->
  e = OverflowError
  /\ (float v = Raise OverflowError
      \/ (is_decimal = false
          /\ contains "e+" (lower (str v)) || contains "e-" (lower (str v))
             = false
          /\ exists neg, float v = Return (PyFloat.Inf neg))).
Proof.
  unfold convert_to_sql_number. destruct (is_blank v); [discriminate|].
  destruct (float v) as [x|e'] eqn:E.
  - destruct (contains "e+" (lower (str v)) || contains "e-" (lower (str v)));
      destruct is_decimal; simpl; try discriminate.
    + destruct x as [|neg|neg m z]; simpl; try discriminate.
      destruct (_ || _); discriminate.
    + destruct x as [|neg|neg m z]; simpl; try discriminate.
      intros [= <-]. split; [reflexivity|]. right. repeat split. now exists neg.
  - assert (G : try_except (@Raise string e') [ValueError; TypeError]
                  (Return "NULL") = Raise e ->
                e = OverflowError /\ e' = OverflowError).
    { apply float_raises in E as [[_ ->] | [[_ ->] | [_ ->]]]; simpl;
        try discriminate. now intros [= <-]. }
    destruct (_ || _); destruct is_decimal; simpl; intros H;
      apply G in H as [-> ->]; auto.
Qed.

Lemma number_raises_only_overflow_witness :
  convert_to_sql_number (CStr "-Infinity") false = Raise OverflowError
  /\ float (CStr "-Infinity") = Return (PyFloat.Inf true).
Proof.
  assert (H : convert_to_sql_number (CStr "-Infinity") false
              = Raise OverflowError) by (vm_compute; reflexivity).
  split; [exact H|].
  destruct (number_raises_only_overflow _ _ _ H) as [_ [F | (_ & _ & neg & F)]].
  - vm_compute in F. discriminate.
  - rewrite F. vm_compute in F. congruence.
Defined.

(** X6.  String coercion keeps texts apart: a text with a character
    that is not a blank never becomes the NULL keyword, and two such
    texts with the same literal are the same text. *)
Theorem string_literals_do_not_collide (s t : string) :
  Spec.whitespace_only s = false ->
  escape_sql_string (CStr s) <> "NULL"
  /\ (Spec.whitespace_only t = false ->
      escape_sql_string (CStr s) = escape_sql_string (CStr t) -> s = t).
Proof.
  intros Hs. unfold escape_sql_string. rewrite is_blank_str, Hs. split.
  - discriminate.
  - intros Ht. rewrite is_blank_str, Ht. simpl str. intros H.
    apply (f_equal Spec.decode_literal) in H. unfold Spec.decode_literal in H.
    simpl in H. rewrite !doubled_drop_closing in H. simpl in H.
    rewrite !collapse_doubled in H. congruence.
Qed.

Lemma string_literals_do_not_collide_witness :
  Spec.whitespace_only "NULL" = false
  /\ escape_sql_string (CStr "NULL") <> "NULL".
Proof.
  split; [reflexivity|].
  apply (string_literals_do_not_collide "NULL" "NULL"). reflexivity.
Defined.

End number_properties.

(** ** Integers through integer mode *)

Section integer_facts.
Import PyStr convert.
Open Scope Z_scope.

Lemma digits_acc (d : Decimal.uint) (acc : positive) :
  PyFloat.digits_to_Z (Z.pos acc) (NilEmpty.string_of_uint d)
  = Z.pos (Pos.of_uint_acc d acc).
Proof.
  revert acc. induction d; intros acc;
    cbn [NilEmpty.string_of_uint PyFloat.digits_to_Z Pos.of_uint_acc];
    [reflexivity|..];
    match goal with
    | |- PyFloat.digits_to_Z ?x _ = Z.pos (Pos.of_uint_acc _ ?y) =>
        replace x with (Z.pos y)
          by (rewrite ?Pos2Z.inj_add, ?Pos2Z.inj_mul; unfold digit_value;
              match goal with
              | |- context [N_of_ascii ?c] =>
                  let v := eval vm_compute in (Z.of_N (N_of_ascii c)) in
                  change (Z.of_N (N_of_ascii c)) with v
              end; lia)
    end; apply IHd.
Qed.

Lemma digits_of_uint (d : Decimal.uint) :
  PyFloat.digits_to_Z 0 (NilEmpty.string_of_uint d) = Z.of_N (Pos.of_uint d).
Proof.
  induction d;
    cbn [NilEmpty.string_of_uint PyFloat.digits_to_Z Pos.of_uint];
    [reflexivity | exact IHd |..];
    match goal with
    | |- PyFloat.digits_to_Z ?x _ = Z.of_N (N.pos (Pos.of_uint_acc _ ?y)) =>
        change x with (Z.pos y)
    end; apply digits_acc.
Qed.

Lemma uint_all_digits (d : Decimal.uint) :
  Spec.all_digits (NilEmpty.string_of_uint d) = true.
Proof. induction d; simpl; auto. Qed.

(** The decimal writing of an integer: an optional minus sign and the
    digits of its absolute value. *)
Lemma of_Z_form (n : Z) :
  exists ds,
    PyStr.of_Z n = (if n <? 0 then "-" else "") ++ ds
    /\ Spec.all_digits ds = true /\ ds <> ""%string
    /\ PyFloat.digits_to_Z 0 ds = Z.abs n.
Proof.
  unfold PyStr.of_Z. destruct n as [|p|p].
  - exists "0"%string. repeat split. discriminate.
  - exists (NilEmpty.string_of_uint (Pos.to_uint p)).
    pose proof (DecimalPos.Unsigned.to_uint_nonnil p) as Hn.
    simpl. unfold NilZero.string_of_uint.
    destruct (Pos.to_uint p) eqn:E; try contradiction;
      rewrite <- E; (repeat split;
        [ apply uint_all_digits
        | rewrite E; discriminate
        | rewrite digits_of_uint, DecimalPos.Unsigned.of_to; reflexivity ]).
  - exists (NilEmpty.string_of_uint (Pos.to_uint p)).
    pose proof (DecimalPos.Unsigned.to_uint_nonnil p) as Hn.
    simpl. unfold NilZero.string_of_uint.
    destruct (Pos.to_uint p) eqn:E; try contradiction;
      rewrite <- E; (repeat split;
        [ apply uint_all_digits
        | rewrite E; discriminate
        | rewrite digits_of_uint, DecimalPos.Unsigned.of_to; reflexivity ]).
Qed.


(** A positive integer below 2^53 is a float as it stands. *)
Lemma round_pos_exact (neg : bool) (n : Z) :
  0 < n < 2 ^ 53 ->
  exists e, e <= 0 /\ PyFloat.round_pos neg n 1
                      = PyFloat.Fin neg (n * 2 ^ (- e)) e.
Proof.
  intros [Hpos Hlt].
  destruct (Z.log2_spec n Hpos) as [Hlo Hhi].
  pose proof (Z.log2_nonneg n) as HL0.
  assert (HL : Z.log2 n < 53).
  { apply (Z.pow_lt_mono_r_iff 2); lia. }
  set (L := Z.log2 n) in *.
  assert (HP : 2 ^ L * 2 ^ (52 - L) = 2 ^ 52).
  { rewrite <- Z.pow_add_r by lia. f_equal. lia. }
  assert (HP0 : 0 < 2 ^ (52 - L)) by (apply Z.pow_pos_nonneg; lia).
  assert (HS : 2 ^ Z.succ L = 2 * 2 ^ L) by (apply Z.pow_succ_r; lia).
  assert (H53 : 2 ^ 53 = 2 * 2 ^ 52) by reflexivity.
  exists (L - 52). split; [lia|].
  unfold PyFloat.round_pos. change (Z.log2 1) with 0. fold L.
  cbv zeta.
  assert (E1 : (0 <=? L - 0 - 53) = false) by (apply Z.leb_gt; lia).
  rewrite E1, Z.div_1_r.
  replace (- (L - 0 - 53)) with (Z.succ (52 - L)) by lia.
  rewrite Z.pow_succ_r by lia.
  assert (E2 : (2 ^ 53 <=? n * (2 * 2 ^ (52 - L))) = true).
  { apply Z.leb_le. nia. }
  rewrite E2. rewrite Z.max_l by lia.
  replace (L - 0 - 53 + 1) with (L - 52) by lia.
  set (e := L - 52) in *.
  assert (Hnum : (if 0 <=? e then n else n * 2 ^ (- e)) = n * 2 ^ (- e)).
  { destruct (Z.leb_spec 0 e); [|reflexivity].
    replace e with 0 by lia. simpl. lia. }
  assert (Hden : (if 0 <=? e then 1 * 2 ^ e else 1) = 1).
  { destruct (Z.leb_spec 0 e); [|reflexivity].
    replace e with 0 by lia. reflexivity. }
  rewrite Hnum, Hden, Z.div_1_r, Z.mod_1_r.
  change (2 * 0 ?= 1) with Lt. cbv iota.
  replace (- e) with (52 - L) by (unfold e; lia).
  assert (E3 : (n * 2 ^ (52 - L) =? 2 ^ 53) = false) by (apply Z.eqb_neq; nia).
  assert (E4 : (n * 2 ^ (52 - L) =? 0) = false) by (apply Z.eqb_neq; nia).
  assert (E5 : (971 <? e) = false) by (apply Z.ltb_ge; unfold e; lia).
  now rewrite E3, E4, E5.
Qed.

(** *** Reading back the decimal writing of an integer *)

Ltac by_cases_on c :=
  destruct c as [[] [] [] [] [] [] [] []]; try discriminate; reflexivity.

Lemma numchar_not_underscore (c : ascii) :
  Spec.numchar c = true -> PyFloat.is_underscore c = false.
Proof. unfold Spec.numchar. by_cases_on c. Qed.

Lemma numchar_not_space (c : ascii) :
  Spec.numchar c = true -> isspace c = false /\ PyFloat.float_space c = false.
Proof. unfold Spec.numchar. intros H. split; revert H; by_cases_on c. Qed.

Lemma numchar_lower (c : ascii) : Spec.numchar c = true -> lower_char c = c.
Proof. unfold Spec.numchar. by_cases_on c. Qed.

Lemma numchar_not_e (c : ascii) : Spec.numchar c = true -> c <> "e"%char.
Proof. intros H ->. discriminate. Qed.

Lemma digit_is_numchar (c : ascii) : isdigit c = true -> Spec.numchar c = true.
Proof. intros H. unfold Spec.numchar. now rewrite H. Qed.

Lemma all_digits_numchars (s : string) :
  Spec.all_digits s = true -> Spec.only_chars Spec.numchar s = true.
Proof.
  induction s as [|c s IH]; simpl; [reflexivity|].
  intros H. apply andb_true_iff in H as [Hc Hs].
  now rewrite digit_is_numchar, IH.
Qed.

Lemma numchars_underscores_ok (s : string) (prev : option ascii) :
  Spec.only_chars Spec.numchar s = true ->
  match prev with Some p => PyFloat.is_underscore p = false | None => True end ->
  PyFloat.underscores_ok prev s = true.
Proof.
  revert prev. induction s as [|c s IH]; intros prev H Hp; simpl.
  - destruct prev; [now rewrite Hp | reflexivity].
  - simpl in H. apply andb_true_iff in H as [Hc Hs].
    pose proof (numchar_not_underscore c Hc) as Hu. rewrite Hu.
    rewrite (IH (Some c) Hs Hu).
    destruct prev; [now rewrite Hp | reflexivity].
Qed.

Lemma numchars_no_underscore (s : string) :
  Spec.only_chars Spec.numchar s = true -> replace_char "_" "" s = s.
Proof.
  induction s as [|c s IH]; simpl; [reflexivity|].
  intros H. apply andb_true_iff in H as [Hc Hs].
  apply numchar_not_underscore in Hc. unfold PyFloat.is_underscore in Hc.
  now rewrite Hc, IH.
Qed.

Lemma numchars_lskip (s : string) :
  Spec.only_chars Spec.numchar s = true -> PyFloat.lskip s = s.
Proof.
  destruct s as [|c s]; simpl; [reflexivity|].
  intros H. apply andb_true_iff in H as [Hc Hs].
  apply numchar_not_space in Hc as [_ Hc]. now rewrite Hc.
Qed.

Lemma numchars_rskip (s : string) :
  Spec.only_chars Spec.numchar s = true -> PyFloat.rskip s = s.
Proof.
  induction s as [|c s IH]; simpl; [reflexivity|].
  intros H. apply andb_true_iff in H as [Hc Hs].
  apply numchar_not_space in Hc as [_ Hc]. rewrite (IH Hs).
  destruct s; [now rewrite Hc | reflexivity].
Qed.

Lemma numchars_lower (s : string) :
  Spec.only_chars Spec.numchar s = true -> lower s = s.
Proof.
  induction s as [|c s IH]; simpl; [reflexivity|].
  intros H. apply andb_true_iff in H as [Hc Hs].
  now rewrite numchar_lower, IH.
Qed.

Lemma numchars_no_exponent (s : string) (c : ascii) :
  Spec.only_chars Spec.numchar s = true ->
  contains (String "e" (String c "")) s = false.
Proof.
  induction s as [|a s IH]; [reflexivity|].
  intros H. simpl in H. apply andb_true_iff in H as [Ha Hs].
  change (contains (String "e" (String c "")) (String a s))
    with (prefix (String "e" (String c "")) (String a s)
          || contains (String "e" (String c "")) s).
  rewrite (IH Hs), orb_false_r.
  change (prefix (String "e" (String c "")) (String a s))
    with (if ascii_dec "e" a then prefix (String c "") s else false).
  destruct (ascii_dec "e" a) as [<-|]; [discriminate | reflexivity].
Qed.

Lemma numchars_not_blank (c : ascii) (s : string) :
  Spec.numchar c = true -> is_blank (CStr (String c s)) = false.
Proof.
  intros Hc. rewrite is_blank_str. simpl.
  apply numchar_not_space in Hc as [Hc _]. now rewrite Hc.
Qed.

Lemma digit_split_sign (c : ascii) (r : string) :
  isdigit c = true ->
  PyFloat.split_sign (String c r) = (false, String c r).
Proof. unfold Spec.numchar. by_cases_on c. Qed.

Lemma digit_not_keyword (c : ascii) (r : string) :
  isdigit c = true ->
  (String c r =? "inf")%string || (String c r =? "infinity")%string = false
  /\ (String c r =? "nan")%string = false.
Proof. unfold Spec.numchar. intros H. split; revert H; by_cases_on c. Qed.

Lemma all_digits_span (s : string) :
  Spec.all_digits s = true -> PyFloat.span_digits s = (s, ""%string).
Proof.
  induction s as [|c s IH]; simpl; [reflexivity|].
  intros H. apply andb_true_iff in H as [Hc Hs]. now rewrite Hc, IH.
Qed.

Lemma digits_parse (ds : string) :
  Spec.all_digits ds = true -> ds <> ""%string ->
  PyFloat.parse_unsigned ds = Some (PyFloat.digits_to_Z 0 ds, 0).
Proof.
  intros Hd Hne. unfold PyFloat.parse_unsigned.
  rewrite all_digits_span by assumption. rewrite append_empty_r.
  destruct ds; [contradiction | reflexivity].
Qed.

(** [float] reads the decimal writing of an integer as that integer,
    rounded to a float. *)
Lemma float_of_decimal_writing (neg : bool) (ds : string) :
  Spec.all_digits ds = true -> ds <> ""%string ->
  PyFloat.of_string ((if neg then "-" else "") ++ ds)
  = Return (PyFloat.of_decimal neg (PyFloat.digits_to_Z 0 ds) 0).
Proof.
  intros Hd Hne.
  assert (Hn : Spec.only_chars Spec.numchar ((if neg then "-" else "") ++ ds) = true).
  { rewrite only_chars_append, (all_digits_numchars ds Hd).
    now destruct neg. }
  unfold PyFloat.of_string.
  rewrite (numchars_underscores_ok _ None Hn I). simpl negb. cbv iota.
  rewrite (numchars_no_underscore _ Hn), (numchars_lskip _ Hn),
    (numchars_rskip _ Hn).
  assert (Hs : PyFloat.split_sign ((if neg then "-" else "") ++ ds)
               = (neg, ds)).
  { destruct ds as [|c r]; [contradiction|]. simpl in Hd.
    apply andb_true_iff in Hd as [Hc _].
    destruct neg; [reflexivity | now apply digit_split_sign]. }
  rewrite Hs. rewrite (numchars_lower ds (all_digits_numchars ds Hd)).
  destruct ds as [|c r]; [contradiction|].
  pose proof Hd as Hd'. simpl in Hd'. apply andb_true_iff in Hd' as [Hc _].
  destruct (digit_not_keyword c r Hc) as [K1 K2]. rewrite K1, K2.
  now rewrite digits_parse.
Qed.

Lemma to_int_exact (neg : bool) (a e : Z) :
  e <= 0 ->
  PyFloat.to_int (PyFloat.Fin neg (a * 2 ^ (- e)) e)
  = Return (if neg then - a else a).
Proof.
  intros He. unfold PyFloat.to_int. destruct (Z.leb_spec 0 e).
  - replace e with 0 by lia. simpl. now rewrite !Z.mul_1_r.
  - rewrite Z.div_mul; [reflexivity|].
    apply Z.pow_nonzero; lia.
Qed.

Lemma of_decimal_to_int (n : Z) :
  Z.abs n < 2 ^ 53 ->
  exists x, PyFloat.of_decimal (n <? 0) (Z.abs n) 0 = x
            /\ PyFloat.of_Z n = Return x
            /\ PyFloat.to_int x = Return n.
Proof.
  intros Hn. unfold PyFloat.of_decimal, PyFloat.of_Z.
  destruct (Z.eqb_spec n 0) as [->|Hz]; [now exists (PyFloat.Fin false 0 0)|].
  destruct (Z.eqb_spec (Z.abs n) 0); [lia|].
  change (0 <=? 0) with true. cbv iota. rewrite Z.pow_0_r, Z.mul_1_r.
  destruct (round_pos_exact (n <? 0) (Z.abs n)) as (e & He & ->); [lia|].
  eexists. split; [reflexivity|]. split; [reflexivity|].
  rewrite to_int_exact by assumption.
  f_equal. destruct (Z.ltb_spec n 0); lia.
Qed.

End integer_facts.

Section integer_properties.
Import PyStr convert.

(** X5.  An integer of absolute value below 2^53, written in decimal
    as a text or held as an integer cell, comes out of integer mode as
    the same decimal writing. *)
Theorem integers_pass_integer_mode (n : Z) :
  (Z.abs n < 2 ^ 53)%Z ->
  convert_to_sql_number (CStr (PyStr.of_Z n)) false = Return (PyStr.of_Z n)
  /\ convert_to_sql_number (CInt n) false = Return (PyStr.of_Z n).
Proof.
  intros Hn.
  destruct (of_Z_form n) as (ds & Hs & Hd & Hne & Hv).
  destruct (of_decimal_to_int n Hn) as (x & Hx & HZ & Hi).
  assert (Hc : Spec.only_chars Spec.numchar (PyStr.of_Z n) = true).
  { rewrite Hs, only_chars_append, (all_digits_numchars ds Hd).
    now destruct (n <? 0)%Z. }
  assert (Hblank : Spec.whitespace_only (PyStr.of_Z n) = false).
  { rewrite Hs. destruct ds as [|c r]; [contradiction|].
    simpl in Hd. apply andb_true_iff in Hd as [Hc' _].
    apply digit_is_numchar, numchar_not_space in Hc' as [Hc' _].
    destruct (n <? 0)%Z; simpl; [reflexivity | now rewrite Hc']. }
  assert (Hm : contains "e+" (lower (PyStr.of_Z n))
               || contains "e-" (lower (PyStr.of_Z n)) = false).
  { rewrite (numchars_lower _ Hc), !numchars_no_exponent by assumption.
    reflexivity. }
  split.
  - apply integer_mode_plain with (x := x); try assumption.
    + now rewrite is_blank_str.
    + simpl float. rewrite Hs.
      rewrite float_of_decimal_writing by assumption. now rewrite Hv, Hx.
  - apply integer_mode_plain with (x := x); try assumption.
    unfold is_blank. simpl. now rewrite strip_eqb_empty, Hblank.
Qed.

Lemma integers_pass_integer_mode_witness :
  (Z.abs (-175000000000) < 2 ^ 53)%Z
  /\ convert_to_sql_number (CStr "-175000000000") false
     = Return "-175000000000".
Proof.
  split; [reflexivity|].
  apply (integers_pass_integer_mode (-175000000000)). reflexivity.
Defined.

End integer_properties.

(** ** Statements from rows *)

Section row_facts.
Import PyStr convert.

Lemma collect_returns (r : row) (cols : list (string * kind))
    (values : list string) :
  collect r cols = Return values ->
  Forall2 (fun col v => coerce (snd col) (get r (fst col)) = Return v)
    cols values.
Proof.
  revert values. induction cols as [|[name k] cols IH]; intros values; simpl.
  - intros [= <-]. constructor.
  - destruct (coerce k (get r name)) as [v|e] eqn:E; [|discriminate]. simpl.
    destruct (collect r cols) as [vs|e]; [|discriminate]. simpl.
    intros [= <-]. constructor; [exact E | now apply IH].
Qed.

Lemma collect_raises (r : row) (cols : list (string * kind)) (e : exn) :
  collect r cols = Raise e ->
  exists name k, In (name, k) cols /\ coerce k (get r name) = Raise e.
Proof.
  induction cols as [|[name k] cols IH]; simpl; [discriminate|].
  destruct (coerce k (get r name)) as [v|e'] eqn:E; simpl.
  - destruct (collect r cols) as [vs|e'']; simpl; [discriminate|].
    intros [= <-]. destruct (IH eq_refl) as (n' & k' & Hin & H).
    exists n', k'. auto.
  - intros [= <-]. exists name, k. auto.
Qed.

Lemma coerce_blank (k : kind) (v : cell) :
  is_blank v = true -> coerce k v = Return "NULL".
Proof.
  intros H. destruct k; simpl;
    unfold escape_sql_string, convert_to_sql_date, convert_to_sql_number,
      convert_to_sql_boolean; now rewrite H.
Qed.

Lemma collect_blank (r : row) (cols : list (string * kind)) :
  (forall name, is_blank (get r name) = true) ->
  collect r cols = Return (repeat "NULL" (List.length cols)).
Proof.
  intros H. induction cols as [|[name k] cols IH]; simpl; [reflexivity|].
  now rewrite coerce_blank, IH by apply H.
Qed.

Lemma write_rows_file (describe : exn -> string) (rows : list row)
    (index : nat) (file : string) (out : list string) :
  fst (write_rows describe index rows file out)
  = file ++ Spec.statement_lines (Spec.good_statements rows).
Proof.
  revert index file out. induction rows as [|r rows IH]; intros; simpl.
  - now rewrite append_empty_r.
  - destruct (generate_insert_statement r) as [stmt|e]; rewrite IH.
    + simpl. now rewrite !append_assoc.
    + reflexivity.
Qed.

End row_facts.

Section row_properties.
Import PyStr convert.

(** X7.  A statement, when one is generated, is
    INSERT INTO ai_models VALUES (...); with 42 values separated by a
    comma and a blank, and the value at each position is the coercion
    of the cell of the column planned for that position. *)
Theorem insert_statement_lists_every_column (r : row) (stmt : string) :
  generate_insert_statement r = Return stmt ->
  exists values,
    stmt = "INSERT INTO ai_models VALUES (" ++ join ", " values ++ ");"
    /\ List.length values = 42
    /\ Forall2 (fun col v => coerce (snd col) (get r (fst col)) = Return v)
         columns values.
Proof.
  unfold generate_insert_statement.
  destruct (collect r columns) as [values|e] eqn:E; [|discriminate].
  simpl. intros [= <-]. exists values. split; [reflexivity|].
  pose proof (collect_returns _ _ _ E) as F. split; [|exact F].
  apply Forall2_length in F. now rewrite <- F.
Qed.

Lemma insert_statement_lists_every_column_witness :
  exists values,
    generate_insert_statement
      [("Model", CStr "GPT"); ("Parameters", CStr "1.5e+3");
       ("Frontier model", CStr "yes")]
    = Return ("INSERT INTO ai_models VALUES (" ++ join ", " values ++ ");")
    /\ List.length values = 42.
Proof.
  destruct (generate_insert_statement
              [("Model", CStr "GPT"); ("Parameters", CStr "1.5e+3");
               ("Frontier model", CStr "yes")]) as [stmt|e] eqn:E.
  - destruct (insert_statement_lists_every_column _ _ E)
      as (values & Hs & Hl & _).
    exists values. split; [now rewrite Hs | exact Hl].
  - vm_compute in E. discriminate.
Defined.

(** X8.  A row in which every planned column is missing, empty or
    blank gives the statement with 42 times the NULL keyword; this is
    the case of a row that has none of the columns. *)
Theorem row_without_values_is_all_null (r : row) :
  (forall name, Spec.no_value (get r name)) ->
  generate_insert_statement r
  = Return ("INSERT INTO ai_models VALUES ("
            ++ join ", " (repeat "NULL" 42) ++ ");").
Proof.
  intros H. unfold generate_insert_statement.
  rewrite collect_blank by (intros; apply no_value_is_blank, H).
  reflexivity.
Qed.

Lemma row_without_values_is_all_null_witness :
  (forall name, Spec.no_value (get [] name))
  /\ generate_insert_statement []
     = Return ("INSERT INTO ai_models VALUES ("
               ++ join ", " (repeat "NULL" 42) ++ ");").
Proof.
  assert (H : forall name, Spec.no_value (get [] name)) by (intros; now left).
  split; [exact H | apply (row_without_values_is_all_null [] H)].
Defined.

(** X9.  For a row whose cells are all texts, generating the statement
    raises only OverflowError, and only when the cell of one of the
    columns coerced in integer mode reads as an infinite float. *)
Theorem insert_statement_raises_on_infinite_integer (r : row) (e : exn) :
  (forall name v, lookup r name = Some v -> exists s, v = CStr s) ->
  generate_insert_statement r = Raise e ->
  e = OverflowError
  /\ exists name s neg,
       In (name, AsInteger) columns /\ get r name = CStr s
       /\ PyFloat.of_string s = Return (PyFloat.Inf neg).
Proof.
  intros Htext. unfold generate_insert_statement.
  destruct (collect r columns) as [values|e'] eqn:E; [discriminate|].
  simpl. intros [= <-].
  apply collect_raises in E as (name & k & Hin & Hc).
  assert (Hv : get r name = CNone \/ exists s, get r name = CStr s).
  { unfold get. destruct (lookup r name) as [v|] eqn:L; [|now left].
    right. now apply (Htext name). }
  destruct k; simpl in Hc; try discriminate.
  - destruct (date_total (get r name)) as [x Hx]. congruence.
  - destruct Hv as [Hv | [s Hv]]; rewrite Hv in Hc; [discriminate|].
    apply integer_mode_raises_only_on_infinity in Hc as (-> & _ & neg & Hf).
    split; [reflexivity|]. now exists name, s, neg.
  - destruct Hv as [Hv | [s Hv]]; rewrite Hv in Hc; [discriminate|].
    destruct (decimal_mode_total s) as [x Hx]. congruence.
Qed.

Lemma insert_statement_raises_on_infinite_integer_witness :
  generate_insert_statement [("Model", CStr "m"); ("Citations", CStr "inf")]
  = Raise OverflowError.
Proof.
  destruct (generate_insert_statement
              [("Model", CStr "m"); ("Citations", CStr "inf")]) as [x|e] eqn:E.
  - vm_compute in E. discriminate.
  - f_equal.
    apply (insert_statement_raises_on_infinite_integer
             [("Model", CStr "m"); ("Citations", CStr "inf")] e);
      [|exact E].
    intros name v. cbn [lookup].
    destruct ("Model" =? name)%string; [intros [= <-]; eauto|].
    destruct ("Citations" =? name)%string; [intros [= <-]; eauto|].
    discriminate.
Defined.

(** X10.  When the CSV file was read and the output file takes what
    is written to it, [main] ends with status 0 whatever the rows are.
    The file it writes is the header, which counts all the rows of the
    frame, then one line for each row whose statement could be
    generated, in the order of the rows, then the closing comment: a
    row that raises is left out and does not stop the rows after it. *)
Theorem main_writes_every_good_row (describe : exn -> string)
    (df : list row) (now : string) :
  written (main describe (Frame df) now)
  = Some (Spec.file_header (List.length df) now
          ++ Spec.statement_lines (Spec.good_statements df)
          ++ eol ++ "-- End of INSERT statements" ++ eol)
  /\ exit_status (main describe (Frame df) now) = 0%Z.
Proof.
  unfold main.
  match goal with
  | |- context [write_rows describe 0 df ?h ?o] =>
      pose proof (write_rows_file describe df 0 h o) as H;
      destruct (write_rows describe 0 df h o) as [file out]
  end.
  cbn [fst] in H. subst file. cbn [written exit_status].
  split; [|reflexivity]. f_equal.
  exact (append_assoc (Spec.file_header (List.length df) now) _ _).
Qed.

End row_properties.

(** ** Finding the SQL files *)

Section sort_facts.
Import PyStr.

Lemma insert_sorted_perm (x : string) (l : list string) :
  Permutation (insert_sorted x l) (x :: l).
Proof.
  induction l as [|y l IH]; simpl; [reflexivity|].
  destruct (String.leb x y); [reflexivity|].
  rewrite IH. apply perm_swap.
Qed.

Lemma sort_perm (l : list string) : Permutation (sort l) l.
Proof.
  induction l as [|x l IH]; simpl; [reflexivity|].
  rewrite insert_sorted_perm. now constructor.
Qed.

Lemma insert_sorted_ascending (x : string) (l : list string) :
  Spec.ascending l -> Spec.ascending (insert_sorted x l).
Proof.
  unfold Spec.ascending. intros H. induction H as [|y l Hl IH Hd]; simpl.
  - repeat constructor.
  - destruct (String.leb x y) eqn:E.
    + constructor; [constructor; assumption | constructor; exact E].
    + constructor; [exact IH|].
      assert (Hyx : String.leb y x = true).
      { destruct (String.leb_total x y); congruence. }
      destruct l as [|z l]; simpl.
      * constructor. exact Hyx.
      * inversion Hd; subst.
        destruct (String.leb x z); constructor; assumption.
Qed.

Lemma sort_ascending (l : list string) : Spec.ascending (sort l).
Proof.
  induction l as [|x l IH]; simpl.
  - constructor.
  - now apply insert_sorted_ascending.
Qed.

Lemma sort_In (l : list string) (x : string) : In x (sort l) <-> In x l.
Proof.
  split; apply Permutation_in; [apply sort_perm|].
  symmetry. apply sort_perm.
Qed.

End sort_facts.

Section find_facts.
Import PyStr setup_database.

Lemma classify_schema (root : string) (files : list string)
    (acc : list string * list string) (p : string) :
  In p (fst (classify root files acc))
  <-> In p (fst acc)
      \/ exists file, In file files /\ endswith ".sql" file = true
                      /\ endswith "_insert.sql" file = false
                      /\ p = path_join root file.
Proof.
  revert acc. induction files as [|f files IH]; intros acc; simpl.
  - split; [now left | intros [H | (file & [] & _)]; exact H].
  - rewrite IH. destruct (endswith ".sql" f) eqn:E1;
      [destruct (endswith "_insert.sql" f) eqn:E2|]; simpl.
    + split.
      * intros [H | (file & Hin & H)]; [now left|].
        right. exists file. auto.
      * intros [H | (file & [-> | Hin] & H1 & H2 & H3)]; [now left | congruence|].
        right. exists file. auto.
    + rewrite in_app_iff. simpl. split.
      * intros [[H | [<- | []]] | (file & Hin & H)]; [now left | |].
        -- right. exists f. auto.
        -- right. exists file. tauto.
      * intros [H | (file & [-> | Hin] & H1 & H2 & ->)]; [tauto | tauto|].
        right. exists file. auto.
    + split.
      * intros [H | (file & Hin & H)]; [now left|].
        right. exists file. auto.
      * intros [H | (file & [-> | Hin] & H1 & H2 & H3)]; [now left | congruence|].
        right. exists file. auto.
Qed.

Lemma classify_insert (root : string) (files : list string)
    (acc : list string * list string) (p : string) :
  In p (snd (classify root files acc))
  <-> In p (snd acc)
      \/ exists file, In file files /\ endswith ".sql" file = true
                      /\ endswith "_insert.sql" file = true
                      /\ p = path_join root file.
Proof.
  revert acc. induction files as [|f files IH]; intros acc; simpl.
  - split; [now left | intros [H | (file & [] & _)]; exact H].
  - rewrite IH. destruct (endswith ".sql" f) eqn:E1;
      [destruct (endswith "_insert.sql" f) eqn:E2|]; simpl.
    + rewrite in_app_iff. simpl. split.
      * intros [[H | [<- | []]] | (file & Hin & H)]; [now left | |].
        -- right. exists f. auto.
        -- right. exists file. tauto.
      * intros [H | (file & [-> | Hin] & H1 & H2 & ->)]; [tauto | tauto|].
        right. exists file. auto.
    + split.
      * intros [H | (file & Hin & H)]; [now left|].
        right. exists file. auto.
      * intros [H | (file & [-> | Hin] & H1 & H2 & H3)]; [now left | congruence|].
        right. exists file. auto.
    + split.
      * intros [H | (file & Hin & H)]; [now left|].
        right. exists file. auto.
      * intros [H | (file & [-> | Hin] & H1 & H2 & H3)]; [now left | congruence|].
        right. exists file. auto.
Qed.

Lemma walk_files_schema (walk : list (string * list string))
    (acc : list string * list string) (p : string) :
  In p (fst (walk_files walk acc))
  <-> In p (fst acc)
      \/ exists root file, Spec.listed walk root file
           /\ endswith ".sql" file = true
           /\ endswith "_insert.sql" file = false
           /\ p = path_join root file.
Proof.
  revert acc. induction walk as [|[root files] walk IH]; intros acc; simpl.
  - split; [now left | intros [H | (r & f & (fs & [] & _) & _)]; exact H].
  - rewrite IH, classify_schema. unfold Spec.listed. split.
    + intros [[H | (file & Hin & H)] | (r & f & (fs & Hw & Hf) & H)].
      * now left.
      * right. exists root, file. split; [|exact H].
        exists files. simpl. auto.
      * right. exists r, f. split; [|exact H]. exists fs. simpl. auto.
    + intros [H0 | (r & f & (fs & Hin & Hf) & Hq)]; [tauto|].
      destruct Hin as [E | Hw].
      * injection E as <- <-. left. right. exists f. tauto.
      * right. exists r, f. split; [|exact Hq]. now exists fs.
Qed.

Lemma walk_files_insert (walk : list (string * list string))
    (acc : list string * list string) (p : string) :
  In p (snd (walk_files walk acc))
  <-> In p (snd acc)
      \/ exists root file, Spec.listed walk root file
           /\ endswith ".sql" file = true
           /\ endswith "_insert.sql" file = true
           /\ p = path_join root file.
Proof.
  revert acc. induction walk as [|[root files] walk IH]; intros acc; simpl.
  - split; [now left | intros [H | (r & f & (fs & [] & _) & _)]; exact H].
  - rewrite IH, classify_insert. unfold Spec.listed. split.
    + intros [[H | (file & Hin & H)] | (r & f & (fs & Hw & Hf) & H)].
      * now left.
      * right. exists root, file. split; [|exact H].
        exists files. simpl. auto.
      * right. exists r, f. split; [|exact H]. exists fs. simpl. auto.
    + intros [H0 | (r & f & (fs & Hin & Hf) & Hq)]; [tauto|].
      destruct Hin as [E | Hw].
      * injection E as <- <-. left. right. exists f. tauto.
      * right. exists r, f. split; [|exact Hq]. now exists fs.
Qed.

Lemma classify_count (root : string) (files : list string)
    (acc : list string * list string) :
  List.length (fst (classify root files acc))
  + List.length (snd (classify root files acc))
  = List.length (fst acc) + List.length (snd acc)
    + List.length (filter (endswith ".sql") files).
Proof.
  revert acc. induction files as [|f files IH]; intros acc; simpl; [lia|].
  rewrite IH. destruct (endswith ".sql" f); [|lia].
  destruct (endswith "_insert.sql" f); simpl; rewrite length_app; simpl; lia.
Qed.

Lemma walk_files_count (walk : list (string * list string))
    (acc : list string * list string) :
  List.length (fst (walk_files walk acc))
  + List.length (snd (walk_files walk acc))
  = List.length (fst acc) + List.length (snd acc) + Spec.sql_count walk.
Proof.
  revert acc. induction walk as [|[root files] walk IH]; intros acc; simpl;
    [lia|].
  rewrite IH, classify_count. lia.
Qed.

End find_facts.

Section find_properties.
Import PyStr setup_database.

(** X11.  [find_sql_files] returns the joined path of every listed file
    whose name ends in .sql, and of no other file: in the second list
    when the name ends in _insert.sql, in the first list otherwise. *)
Theorem find_sql_files_classifies (walk : list (string * list string))
    (p : string) :
  (In p (fst (find_sql_files walk))
   <-> exists root file, Spec.listed walk root file
         /\ endswith ".sql" file = true
         /\ endswith "_insert.sql" file = false
         /\ p = path_join root file)
  /\ (In p (snd (find_sql_files walk))
      <-> exists root file, Spec.listed walk root file
            /\ endswith ".sql" file = true
            /\ endswith "_insert.sql" file = true
            /\ p = path_join root file).
Proof.
  unfold find_sql_files.
  pose proof (walk_files_schema walk ([], []) p) as H1.
  pose proof (walk_files_insert walk ([], []) p) as H2.
  destruct (walk_files walk ([], [])) as [schema_files insert_files].
  cbn [fst snd] in *. rewrite !sort_In, H1, H2. simpl. tauto.
Qed.

(** X12.  Both lists of [find_sql_files] are in ascending order, and
    together they have as many paths as there are listed files whose
    name ends in .sql: a file listed twice is returned twice. *)
Theorem find_sql_files_sorted (walk : list (string * list string)) :
  Spec.ascending (fst (find_sql_files walk))
  /\ Spec.ascending (snd (find_sql_files walk))
  /\ List.length (fst (find_sql_files walk))
     + List.length (snd (find_sql_files walk))
     = Spec.sql_count walk.
Proof.
  unfold find_sql_files.
  pose proof (walk_files_count walk ([], [])) as H.
  destruct (walk_files walk ([], [])) as [schema_files insert_files].
  cbn [fst snd] in *. repeat split; try apply sort_ascending.
  rewrite !(Permutation_length (sort_perm _)). simpl in H. lia.
Qed.

End find_properties.

Section path_facts.
Import PyStr setup_database.

Lemma substring_whole (s : string) : substring 0 (String.length s) s = s.
Proof. induction s as [|c s IH]; simpl; [reflexivity | now rewrite IH]. Qed.

Lemma substring_skip (u t : string) (n : nat) :
  substring (String.length u) n (u ++ t) = substring 0 n t.
Proof. induction u as [|c u IH]; simpl; [reflexivity | exact IH]. Qed.

Lemma substring_split (s : string) (i k : nat) :
  i + k = String.length s -> substring 0 i s ++ substring i k s = s.
Proof.
  revert i. induction s as [|c s IH]; intros i H; simpl in H.
  - assert (i = 0) by lia. assert (k = 0) by lia. now subst.
  - destruct i as [|i].
    + simpl in H. subst k. simpl. now rewrite substring_whole.
    + simpl. rewrite IH by lia. reflexivity.
Qed.

Lemma endswith_append (u p : string) : endswith p (u ++ p) = true.
Proof.
  unfold endswith. rewrite length_append.
  replace (String.length u + String.length p - String.length p)
    with (String.length u) by lia.
  rewrite substring_skip, substring_whole, String.eqb_refl.
  rewrite andb_true_r. apply Nat.leb_le. lia.
Qed.

Lemma endswith_inv (p s : string) :
  endswith p s = true -> exists u, s = u ++ p.
Proof.
  unfold endswith. intros H. apply andb_true_iff in H as [Hl He].
  apply Nat.leb_le in Hl. apply String.eqb_eq in He.
  exists (substring 0 (String.length s - String.length p) s).
  pose proof (substring_split s (String.length s - String.length p)
                (String.length p)) as H.
  rewrite He in H. symmetry. apply H. lia.
Qed.

Lemma append_eq_append (x file u p : string) :
  x ++ file = u ++ p ->
  (exists w, u = x ++ w /\ file = w ++ p)
  \/ (exists w, w <> "" /\ x = u ++ w /\ p = w ++ file).
Proof.
  revert u. induction x as [|a x IH]; intros u H.
  - left. exists u. auto.
  - destruct u as [|b u].
    + right. exists (String a x). repeat split; [discriminate | exact (eq_sym H)].
    + simpl in H. injection H as <- H.
      destruct (IH u H) as [(w & -> & Hf) | (w & Hw & -> & Hp)].
      * left. exists w. auto.
      * right. exists w. auto.
Qed.

Lemma last_char_append (a b : string) :
  b <> "" -> Spec.last_char (a ++ b) = Spec.last_char b.
Proof.
  intros Hb. induction a as [|c a IH]; [reflexivity|].
  change (String c a ++ b) with (String c (a ++ b)).
  destruct (a ++ b) eqn:E.
  - destruct a; [simpl in E; contradiction | discriminate].
  - rewrite <- IH. reflexivity.
Qed.

Lemma free_of_append (c : ascii) (a b : string) :
  Spec.free_of c (a ++ b) = Spec.free_of c a && Spec.free_of c b.
Proof.
  induction a as [|x a IH]; simpl; [reflexivity|].
  now rewrite IH, andb_assoc.
Qed.

Lemma free_of_last_char (c : ascii) (s : string) :
  Spec.free_of c s = true -> Spec.last_char s <> Some c.
Proof.
  induction s as [|a s IH]; [discriminate|].
  intros H. simpl in H. apply andb_true_iff in H as [Ha Hs].
  destruct s as [|b s].
  - simpl. intros [= ->]. now rewrite Ascii.eqb_refl in Ha.
  - exact (IH Hs).
Qed.

(** The joined path is the file name after a piece that is empty or
    ends with a slash. *)
Lemma path_join_shape (root file : string) :
  Spec.free_of "/" file = true ->
  exists x, path_join root file = x ++ file
            /\ (x = "" \/ Spec.last_char x = Some "/"%char).
Proof.
  intros Hf. unfold path_join.
  assert (Hs : startswith "/" file = false).
  { destruct file as [|c r]; [reflexivity|]. cbn [Spec.free_of] in Hf.
    unfold startswith.
    change (prefix "/" (String c r))
      with (if ascii_dec "/" c then prefix "" r else false).
    destruct (ascii_dec "/" c) as [<-|]; [|reflexivity].
    rewrite Ascii.eqb_refl in Hf. discriminate. }
  rewrite Hs. destruct (String.eqb_spec root "") as [->|Hr]; simpl orb.
  - exists "". auto.
  - destruct (endswith "/" root) eqn:E.
    + exists root. split; [reflexivity|]. right.
      apply endswith_inv in E as (u & ->).
      now rewrite last_char_append.
    + exists (root ++ "/"). split; [now rewrite append_assoc|]. right.
      now rewrite last_char_append.
Qed.

(** A suffix without slash is a suffix of the path exactly when it is
    one of the file name. *)
Lemma endswith_path_join (p root file : string) :
  Spec.free_of "/" p = true -> Spec.free_of "/" file = true ->
  endswith p (path_join root file) = endswith p file.
Proof.
  intros Hp Hf. destruct (path_join_shape root file Hf) as (x & -> & Hx).
  destruct (endswith p file) eqn:E.
  - apply endswith_inv in E as (u & ->).
    rewrite <- append_assoc. apply endswith_append.
  - destruct (endswith p (x ++ file)) eqn:E'; [|reflexivity].
    apply endswith_inv in E' as (u & Hu).
    apply append_eq_append in Hu as [(w & _ & ->) | (w & Hw & -> & ->)].
    + now rewrite endswith_append in E.
    + exfalso. rewrite free_of_append in Hp.
      apply andb_true_iff in Hp as [Hp _].
      apply free_of_last_char in Hp. apply Hp.
      destruct Hx as [Hx | Hx].
      * destruct u; [simpl in Hx; contradiction | discriminate].
      * now rewrite last_char_append in Hx.
Qed.

End path_facts.

Section path_properties.
Import PyStr setup_database.

(** X13.  When no listed file name has a slash, the two lists agree
    with the test that [execute_sql_file] makes on the path: every path
    of the second list ends in _insert.sql and is tried as one script
    first, and no path of the first list does. *)
Theorem lists_agree_with_execution_path (walk : list (string * list string)) :
  (forall root file, Spec.listed walk root file ->
                     Spec.free_of "/" file = true) ->
  Forall (fun p => endswith "_insert.sql" p = true)
    (snd (find_sql_files walk))
  /\ Forall (fun p => endswith "_insert.sql" p = false)
       (fst (find_sql_files walk)).
Proof.
  intros Hw. unfold find_sql_files.
  pose proof (walk_files_schema walk ([], [])) as H1.
  pose proof (walk_files_insert walk ([], [])) as H2.
  destruct (walk_files walk ([], [])) as [schema_files insert_files].
  cbn [fst snd] in *. split; apply Forall_forall; intros p Hp;
    apply (proj1 (sort_In _ _)) in Hp.
  - apply H2 in Hp as [[] | (root & file & Hl & _ & He & ->)].
    rewrite endswith_path_join; [exact He | reflexivity | eauto].
  - apply H1 in Hp as [[] | (root & file & Hl & _ & He & ->)].
    rewrite endswith_path_join; [exact He | reflexivity | eauto].
Qed.

Lemma lists_agree_with_execution_path_witness :
  find_sql_files [("data/models", ["notable_insert.sql"; "schema.sql"])]
  = (["data/models/schema.sql"], ["data/models/notable_insert.sql"])
  /\ Forall (fun p => endswith "_insert.sql" p = true)
       (snd (find_sql_files
               [("data/models", ["notable_insert.sql"; "schema.sql"])])).
Proof.
  split; [reflexivity|].
  apply (lists_agree_with_execution_path
           [("data/models", ["notable_insert.sql"; "schema.sql"])]).
  intros root file (files & [[= <- <-] | []] & [<- | [<- | []]]); reflexivity.
Defined.

End path_properties.

(** ** Further properties of the translator and of the executor *)

Section translator_facts.
Import PyStr PyRe setup_database.

Lemma sub_leading (m : matcher) (P : string -> Prop) (r w v : string) :
  complete m P -> P w -> w <> "" -> sub m r (w ++ v) = r ++ sub m r v.
Proof.
  intros Hc Hw Hne. destruct w as [|c w]; [contradiction|].
  pose proof (Hc _ v Hw) as Hm. simpl String.length in Hm.
  change (String c w ++ v) with (String c (w ++ v)) in *.
  rewrite (sub_hit m r c (w ++ v) (String.length w) Hm).
  now rewrite drop_append.
Qed.

Lemma sub_without_prefix (m : matcher) (p r s : string) :
  (forall t n, m t = Some n -> prefix p t = true) ->
  contains p s = false -> sub m r s = s.
Proof.
  intros Hm. induction s as [|c s IH]; [reflexivity|].
  intros H.
  change (contains p (String c s))
    with (prefix p (String c s) || contains p s) in H.
  apply orb_false_iff in H as [Hp Hs].
  rewrite sub_miss; [now rewrite IH|].
  destruct (m (String c s)) as [n|] eqn:E; [|reflexivity].
  apply Hm in E. congruence.
Qed.

Lemma lit_prefix (p t : string) (n : nat) :
  lit p t = Some n -> prefix p t = true.
Proof. unfold lit. destruct (prefix p t); [reflexivity | discriminate]. Qed.

Lemma seq_lit_prefix (p : string) (m2 : matcher) (t : string) (n : nat) :
  seq (lit p) m2 t = Some n -> prefix p t = true.
Proof.
  unfold seq. destruct (lit p t) as [k|] eqn:E; [|discriminate].
  intros _. now apply lit_prefix in E.
Qed.

End translator_facts.

Section translator_more.
Import PyStr PyRe setup_database.

Lemma rstrip_last (s : string) (c : ascii) :
  Spec.last_char (rstrip s) = Some c -> isspace c = false.
Proof.
  induction s as [|a s IH]; [discriminate|].
  cbn [rstrip]. destruct (rstrip s) as [|b r].
  - destruct (isspace a) eqn:Ha; [discriminate|]. now intros [= <-].
  - exact IH.
Qed.

Lemma strip_ends (s : string) (c : ascii) :
  Spec.first_char (strip s) = Some c \/ Spec.last_char (strip s) = Some c ->
  isspace c = false.
Proof.
  intros [H | H].
  - destruct (strip_head s) as [E | (a & r & E & Ha)]; rewrite E in H.
    + discriminate.
    + now injection H as <-.
  - unfold strip in H. now apply rstrip_last in H.
Qed.

(** X14.  No line of the translator's output has a blank at its start
    or at its end, and none is empty.  (An output without lines is the
    empty text.) *)
Theorem translator_lines_are_trimmed (sql : string) :
  convert_postgres_to_sqlite sql = ""
  \/ Forall (fun l => l <> ""
                      /\ forall c, Spec.first_char l = Some c
                                   \/ Spec.last_char l = Some c ->
                                   isspace c = false)
       (split newline (convert_postgres_to_sqlite sql)).
Proof.
  unfold convert_postgres_to_sqlite.
  set (s5 := sub re_boolean "INTEGER" _).
  destruct (filter kept (map strip (split newline s5))) as [|l0 ls] eqn:E.
  - now left.
  - right. rewrite <- E.
    assert (F : Forall (fun l => Spec.free_of newline l = true
                                 /\ l <> ""
                                 /\ forall c, Spec.first_char l = Some c
                                              \/ Spec.last_char l = Some c ->
                                              isspace c = false)
                  (filter kept (map strip (split newline s5)))).
    { apply Forall_forall. intros l Hl. apply filter_In in Hl as [Hl Hk].
      apply in_map_iff in Hl as (x & <- & Hx). repeat split.
      - apply strip_free. pose proof (split_free newline s5) as F.
        rewrite Forall_forall in F. now apply F.
      - now apply kept_clean.
      - apply strip_ends. }
    rewrite split_join.
    + eapply Forall_impl; [|exact F]. intros l H. exact (proj2 H).
    + rewrite E. discriminate.
    + eapply Forall_impl; [|exact F]. intros l H. exact (proj1 H).
Qed.

(** X15.  A COMMENT ON clause at the start of the text is dropped up to
    its first semicolon, whatever stands between: translating the text
    is translating what follows that semicolon. *)
Theorem leading_comment_clause_is_dropped (text rest : string) :
  Spec.free_of ";" text = true ->
  convert_postgres_to_sqlite ("COMMENT ON " ++ text ++ ";" ++ rest)
  = convert_postgres_to_sqlite rest.
Proof.
  intros Hf. unfold convert_postgres_to_sqlite.
  replace ("COMMENT ON " ++ text ++ ";" ++ rest)
    with (("COMMENT ON " ++ text ++ ";") ++ rest)
    by (now rewrite !append_assoc).
  rewrite (sub_leading re_comment_on Spec.comment_clause "" _ rest
             comment_on_complete).
  - reflexivity.
  - now exists text.
  - discriminate.
Qed.

Lemma leading_comment_clause_is_dropped_witness :
  Spec.free_of ";" "COLUMN t.c IS 'the BIGINT key'" = true
  /\ convert_postgres_to_sqlite
       ("COMMENT ON " ++ "COLUMN t.c IS 'the BIGINT key'" ++ ";"
        ++ " CREATE TABLE u (k BIGINT);")
     = "CREATE TABLE u (k INTEGER);".
Proof.
  split; [reflexivity|].
  rewrite (leading_comment_clause_is_dropped
             "COLUMN t.c IS 'the BIGINT key'" " CREATE TABLE u (k BIGINT);"
             eq_refl).
  vm_compute. reflexivity.
Defined.

(** X16.  A text in which none of COMMENT ON, DECIMAL(, VARCHAR(,
    BIGINT and BOOLEAN occurs is only cleaned: its lines are stripped
    and the blank ones and those starting with two dashes are dropped,
    nothing else changes. *)
Theorem text_without_keywords_is_only_cleaned (sql : string) :
  contains "COMMENT ON " sql = false ->
  contains "DECIMAL(" sql = false ->
  contains "VARCHAR(" sql = false ->
  contains "BIGINT" sql = false ->
  contains "BOOLEAN" sql = false ->
  convert_postgres_to_sqlite sql
  = join nl (filter kept (map strip (split newline sql))).
Proof.
  intros H1 H2 H3 H4 H5. unfold convert_postgres_to_sqlite.
  rewrite (sub_without_prefix re_comment_on "COMMENT ON " "" sql)
    by (try assumption; intros t n; apply seq_lit_prefix).
  rewrite (sub_without_prefix re_decimal "DECIMAL(" "REAL" sql)
    by (try assumption; intros t n; apply seq_lit_prefix).
  rewrite (sub_without_prefix re_varchar "VARCHAR(" "TEXT" sql)
    by (try assumption; intros t n; apply seq_lit_prefix).
  rewrite (sub_without_prefix re_bigint "BIGINT" "INTEGER" sql)
    by (try assumption; intros t n; apply lit_prefix).
  rewrite (sub_without_prefix re_boolean "BOOLEAN" "INTEGER" sql)
    by (try assumption; intros t n; apply lit_prefix).
  reflexivity.
Qed.

Lemma text_without_keywords_is_only_cleaned_witness :
  convert_postgres_to_sqlite "  CREATE TABLE t (a TEXT, b REAL);  "
  = "CREATE TABLE t (a TEXT, b REAL);".
Proof.
  rewrite (text_without_keywords_is_only_cleaned
             "  CREATE TABLE t (a TEXT, b REAL);  "
             eq_refl eq_refl eq_refl eq_refl eq_refl).
  reflexivity.
Defined.

End translator_more.

Section abort_facts.
Import PyStr setup_database.

Variable cursor : Type.
Variable execute : cursor -> string -> cursor * outcome.

(** The loop stops at the first statement that raises something that is
    not an [sqlite3.Error]. *)
Lemma run_statements_abort (file_path : string) (chunks : list string)
    (st : loop_state cursor) (l1 : list string) (s : string)
    (l2 : list string) (c2 : cursor) (e : string) :
  filter kept (map strip chunks) = (l1 ++ s :: l2)%list ->
  Spec.only_sqlite_errors cursor execute (cur st) l1 ->
  execute (Spec.exec_all cursor execute (cur st) l1) s
  = (c2, OtherException e) ->
  exists st',
    run_statements cursor execute file_path chunks st = (st', Some e)
    /\ cur st' = c2
    /\ successful_statements st' + failed_statements st'
       = successful_statements st + failed_statements st + List.length l1.
Proof.
  revert st l1. induction chunks as [|chunk rest IH]; intros st l1 Hf Hok He.
  - destruct l1; discriminate.
  - cbn [map filter run_statements] in *.
    destruct (kept (strip chunk)) eqn:Hk; [|now apply IH].
    destruct l1 as [|a l1].
    + simpl in Hf. injection Hf as <- _.
      unfold Spec.exec_all in He. simpl in He. rewrite He.
      eexists. split; [reflexivity|]. simpl. split; [reflexivity | lia].
    + simpl in Hf. injection Hf as <- Hf.
      unfold Spec.only_sqlite_errors in Hok.
      cbn [Spec.outcomes forallb] in Hok.
      apply andb_true_iff in Hok as [Ho Hok].
      unfold Spec.exec_all in He. cbn [fold_left] in He.
      destruct (execute (cur st) (strip chunk)) as [c o] eqn:Hx.
      cbn [fst snd] in *.
      destruct o as [|e'|e']; [| |discriminate];
        match goal with
        | |- context [run_statements _ _ _ _ ?s] =>
            destruct (IH s l1 Hf Hok He) as (st' & Hrun & Hc & Hn)
        end;
        exists st'; rewrite Hrun;
        cbn [cur successful_statements failed_statements] in *;
        repeat split; try assumption; simpl; lia.
Qed.

End abort_facts.

Section abort_properties.
Import PyStr setup_database.

(** X17.  In the statement-by-statement path, a statement that raises
    something other than an sqlite3 error ends the file there: the
    database is left as that statement left it, so no later statement
    is executed; the statements before it are all counted; the error is
    logged and the exception is raised to the caller. *)
Theorem other_exception_ends_the_file
    (cursor : Type)
    (execute executescript : cursor -> string -> cursor * outcome)
    (read_file : string -> read_result)
    (c c1 c2 : cursor) (file_path content e : string)
    (l1 : list string) (s : string) (l2 : list string) :
  read_file file_path = Content content ->
  Spec.enters_statement_path cursor executescript c file_path
    (convert_postgres_to_sqlite content) c1 ->
  Spec.statements_of (convert_postgres_to_sqlite content)
  = (l1 ++ s :: l2)%list ->
  Spec.only_sqlite_errors cursor execute c1 l1 ->
  execute (Spec.exec_all cursor execute c1 l1) s = (c2, OtherException e) ->
  forall r,
    r = execute_sql_file cursor execute executescript read_file c file_path ->
    raised r = true
    /\ cur (final r) = c2
    /\ successful_statements (final r) + failed_statements (final r)
       = List.length l1
    /\ In (ERROR, "Error executing " ++ file_path ++ ": " ++ e)
         (logged (final r)).
Proof.
  intros Hread Henter Hs Hok He r ->. unfold execute_sql_file. rewrite Hread.
  assert (G : forall log,
    let r := execute_statements cursor execute c1 log file_path
               (convert_postgres_to_sqlite content) in
    raised r = true /\ cur (final r) = c2
    /\ successful_statements (final r) + failed_statements (final r)
       = List.length l1
    /\ In (ERROR, "Error executing " ++ file_path ++ ": " ++ e)
         (logged (final r))).
  { intros log r. subst r. unfold execute_statements.
    destruct (run_statements_abort cursor execute file_path
                (split ";" (convert_postgres_to_sqlite content))
                {| cur := c1; successful_statements := 0;
                   failed_statements := 0; logged := log |}
                l1 s l2 c2 e Hs Hok He) as (st' & Hrun & Hc & Hn).
    rewrite Hrun. cbn [raised final cur successful_statements
                       failed_statements logged] in *.
    repeat split; try assumption; try lia.
    apply in_or_app. right. now left. }
  destruct Henter as [[Hkind ->] | [Hkind (e' & Hscript)]]; rewrite Hkind.
  - apply G.
  - rewrite Hscript. apply G.
Qed.

Lemma other_exception_ends_the_file_witness :
  cur (final (execute_sql_file (list string)
                (fun seen s => (app seen [s],
                                if prefix "PRAGMA" s
                                then OtherException "interrupted" else Done))
                (Spec.recorder (fun _ => false))
                (fun _ => Content "CREATE TABLE t (a INT); PRAGMA x; DROP TABLE t;")
                [] "schema.sql"))
  = ["CREATE TABLE t (a INT)"; "PRAGMA x"].
Proof.
  destruct (other_exception_ends_the_file (list string)
              (fun seen s => (app seen [s],
                              if prefix "PRAGMA" s
                              then OtherException "interrupted" else Done))
              (Spec.recorder (fun _ => false))
              (fun _ => Content "CREATE TABLE t (a INT); PRAGMA x; DROP TABLE t;")
              [] [] ["CREATE TABLE t (a INT)"; "PRAGMA x"] "schema.sql"
              "CREATE TABLE t (a INT); PRAGMA x; DROP TABLE t;" "interrupted"
              ["CREATE TABLE t (a INT)"] "PRAGMA x" ["DROP TABLE t"]
              eq_refl (or_introl (conj eq_refl eq_refl)) eq_refl eq_refl
              eq_refl _ eq_refl) as (_ & Hc & _).
  exact Hc.
Defined.

End abort_properties.

(** ** The set-up of the database *)

Section setup_facts.
Import PyStr setup_database.

Variable cursor : Type.
Variable execute : cursor -> string -> cursor * outcome.
Variable executescript : cursor -> string -> cursor * outcome.
Variable read_file : string -> read_result.

Local Abbreviation run_file := (run_file cursor execute executescript read_file).
Local Abbreviation exec_file :=
  (execute_sql_file cursor execute executescript read_file).
Local Abbreviation after_files :=
  (Spec.after_files cursor execute executescript read_file).
Local Abbreviation no_file_raises :=
  (Spec.no_file_raises cursor execute executescript read_file).

(** A loop over files that ends normally has run them all. *)
Lemma for_each_files_returns (files : list string) (s s' : conn_state cursor) :
  for_each cursor files run_file s = (s', inl tt) ->
  no_file_raises (conn s) files = true
  /\ conn s' = after_files (conn s) files.
Proof.
  revert s. induction files as [|f files IH]; intros s H.
  - injection H as <-. now split.
  - cbn [for_each] in H. unfold and_then in H.
    destruct (run_file f s) as [s1 [[]|e]] eqn:E; [|discriminate].
    unfold setup_database.run_file in E.
    destruct (raised (exec_file (conn s) f)) eqn:R; [discriminate|].
    injection E as <-. apply IH in H as [H1 H2]. cbn [conn] in H1, H2.
    cbn [Spec.no_file_raises Spec.after_files fold_left].
    rewrite R. simpl. now split.
Qed.

(** A loop over files stops at the first one that raises. *)
Lemma for_each_files_raises (l1 : list string) (f : string)
    (l2 : list string) (s : conn_state cursor) :
  no_file_raises (conn s) l1 = true ->
  raised (exec_file (after_files (conn s) l1) f) = true ->
  exists log,
    for_each cursor (l1 ++ f :: l2) run_file s
    = ({| conn := cur (final (exec_file (after_files (conn s) l1) f));
          messages :=
            app log (logged (final (exec_file (after_files (conn s) l1) f))) |},
       inr (raised_exception cursor f
              (exec_file (after_files (conn s) l1) f))).
Proof.
  revert s. induction l1 as [|g l1 IH]; intros s Hn Hr.
  - cbn [app for_each]. unfold and_then, setup_database.run_file.
    cbn [Spec.after_files fold_left] in *. rewrite Hr. eauto.
  - cbn [app for_each]. unfold and_then at 1.
    unfold setup_database.run_file at 1.
    cbn [Spec.no_file_raises] in Hn. apply andb_true_iff in Hn as [Hg Hn].
    apply negb_true_iff in Hg. rewrite Hg.
    cbn [Spec.after_files fold_left] in *.
    match goal with
    | |- context [for_each _ _ _ ?s1] =>
        destruct (IH s1 Hn Hr) as (log & H)
    end.
    exists log. exact H.
Qed.

Lemma call_conn (f : cursor -> cursor * outcome) (s s' : conn_state cursor)
    (r : unit + string) :
  call cursor f s = (s', r) -> conn s' = fst (f (conn s)).
Proof.
  unfold call. destruct (f (conn s)) as [c o].
  destruct o; intros [= <- _]; reflexivity.
Qed.

Lemma call_returns (f : cursor -> cursor * outcome) (s s' : conn_state cursor)
    (u : unit) :
  call cursor f s = (s', inl u) -> f (conn s) = (conn s', Done).
Proof.
  unfold call. destruct (f (conn s)) as [c o].
  destruct o; intros [= <-]; reflexivity.
Qed.

Lemma finally_database (close : cursor -> cursor * outcome)
    (s : conn_state cursor) (pending : option string) :
  database (finally cursor close s pending) = Some (fst (close (conn s))).
Proof.
  unfold finally. destruct (call cursor close s) as [s' [u|e]] eqn:E;
    apply call_conn in E; simpl; now rewrite E.
Qed.

Lemma finally_exception (close : cursor -> cursor * outcome)
    (s : conn_state cursor) (e : string) :
  exception (finally cursor close s (Some e)) <> None.
Proof.
  unfold finally. destruct (call cursor close s) as [s' [u|e']]; discriminate.
Qed.

Lemma finally_log (close : cursor -> cursor * outcome)
    (s : conn_state cursor) (pending : option string) :
  setup_log (finally cursor close s pending) = messages s.
Proof.
  unfold finally, call. destruct (close (conn s)) as [c o].
  destruct o; reflexivity.
Qed.

Lemma finally_returns (close : cursor -> cursor * outcome)
    (s : conn_state cursor) (pending : option string) :
  exception (finally cursor close s pending) = None ->
  pending = None /\ snd (close (conn s)) = Done.
Proof.
  unfold finally, call. destruct (close (conn s)) as [c o].
  destruct o; simpl; intros H; try discriminate. now split.
Qed.

End setup_facts.

Section files_found.
Import PyStr setup_database.

Lemma sort_length (l : list string) : List.length (sort l) = List.length l.
Proof. apply Permutation_length, sort_perm. Qed.

Lemma find_sql_files_count (walk : list (string * list string)) :
  List.length (fst (find_sql_files walk))
  + List.length (snd (find_sql_files walk))
  = Spec.sql_count walk.
Proof.
  unfold find_sql_files.
  pose proof (walk_files_count walk ([], [])) as H.
  destruct (walk_files walk ([], [])) as [a b]. simpl in *.
  now rewrite !sort_length.
Qed.

End files_found.

Section setup_support.
Import PyStr setup_database.

Variable cursor : Type.
Variable execute : cursor -> string -> cursor * outcome.
Variable executescript : cursor -> string -> cursor * outcome.
Variable read_file : string -> read_result.

Local Abbreviation run_file := (run_file cursor execute executescript read_file).
Local Abbreviation exec_file :=
  (execute_sql_file cursor execute executescript read_file).
Local Abbreviation after_files :=
  (Spec.after_files cursor execute executescript read_file).
Local Abbreviation no_file_raises :=
  (Spec.no_file_raises cursor execute executescript read_file).

(** The exception that a raising file passes on is the one its last
    log entry reports. *)
Lemma raised_exception_logged (c : cursor) (file_path : string) :
  raised (exec_file c file_path) = true ->
  exists log,
    logged (final (exec_file c file_path))
    = app log [(ERROR, "Error executing " ++ file_path ++ ": "
                      ++ raised_exception cursor file_path
                           (exec_file c file_path))].
Proof.
  assert (D : forall e, drop (String.length ("Error executing " ++ file_path ++ ": "))
                ("Error executing " ++ file_path ++ ": " ++ e) = e).
  { intros e.
    replace ("Error executing " ++ file_path ++ ": " ++ e)
      with (("Error executing " ++ file_path ++ ": ") ++ e)
      by (now rewrite <- !append_assoc).
    apply drop_append. }
  assert (F : forall c log e,
    exists log', logged (final (fail_with cursor c log file_path e))
    = app log' [(ERROR, "Error executing " ++ file_path ++ ": "
                       ++ raised_exception cursor file_path
                            (fail_with cursor c log file_path e))]).
  { intros c' log e. exists log. unfold raised_exception, fail_with.
    cbn [final logged]. rewrite last_last. cbn [snd]. now rewrite D. }
  assert (G : forall c log sql,
    raised (execute_statements cursor execute c log file_path sql) = true ->
    exists log', logged (final (execute_statements cursor execute c log file_path sql))
    = app log' [(ERROR, "Error executing " ++ file_path ++ ": "
                       ++ raised_exception cursor file_path
                            (execute_statements cursor execute c log file_path sql))]).
  { intros c' log sql. unfold execute_statements.
    destruct (run_statements _ _ _ _ _) as [st [e|]]; [|discriminate].
    intros _. exists (logged st). unfold raised_exception.
    cbn [final logged]. rewrite last_last. cbn [snd]. now rewrite D. }
  unfold execute_sql_file.
  destruct (read_file file_path) as [content|e]; [|intros _; apply F].
  destruct (endswith "_insert.sql" file_path); [|apply G].
  destruct (executescript c _) as [c' [|e|e]].
  - discriminate.
  - apply G.
  - intros _; apply F.
Qed.

Variable commit : cursor -> cursor * outcome.

Lemma load_files_returns (schema_files insert_files : list string)
    (s s' : conn_state cursor) (u : unit) :
  load_files cursor execute executescript read_file commit
    schema_files insert_files s = (s', inl u) ->
  exists c1 c2,
    execute (conn s) "PRAGMA foreign_keys = ON" = (c1, Done)
    /\ no_file_raises c1 schema_files = true
    /\ commit (after_files c1 schema_files) = (c2, Done)
    /\ (insert_files = [] -> conn s' = c2)
    /\ (insert_files <> [] ->
        no_file_raises c2 insert_files = true
        /\ commit (after_files c2 insert_files) = (conn s', Done)).
Proof.
  unfold load_files. intros H. unfold and_then in H.
  destruct (call cursor _ s) as [s1 [[]|e]] eqn:E1; [|discriminate].
  apply call_returns in E1.
  unfold log_line at 1 in H.
  match type of H with
  | context [for_each _ _ _ ?s0] =>
      destruct (for_each cursor schema_files run_file s0)
        as [s2 [[]|e]] eqn:E2; [|discriminate]
  end.
  apply for_each_files_returns in E2 as [N2 A2]. cbn [conn] in N2, A2.
  destruct (call cursor commit s2) as [s3 [[]|e]] eqn:E3; [|discriminate].
  apply call_returns in E3. rewrite A2 in E3.
  exists (conn s1), (conn s3). repeat split; try assumption.
  - intros ->. unfold log_line, pure in H. now injection H as <-.
  - destruct insert_files as [|g gs]; [congruence|].
    unfold log_line at 1 2 in H.
    match type of H with
    | context [for_each _ _ _ ?s0] =>
        destruct (for_each cursor (g :: gs) run_file s0)
          as [s4 [[]|e]] eqn:E4; [|discriminate]
    end.
    apply for_each_files_returns in E4 as [N4 A4]. now cbn [conn] in N4.
  - destruct insert_files as [|g gs]; [congruence|].
    unfold log_line at 1 2 in H.
    match type of H with
    | context [for_each _ _ _ ?s0] =>
        destruct (for_each cursor (g :: gs) run_file s0)
          as [s4 [[]|e]] eqn:E4; [|discriminate]
    end.
    apply for_each_files_returns in E4 as [N4 A4]. cbn [conn] in N4, A4.
    destruct (call cursor commit s4) as [s5 [[]|e]] eqn:E5; [|discriminate].
    apply call_returns in E5. rewrite A4 in E5.
    unfold log_line in H. injection H as <-. exact E5.
Qed.

(** A schema file that raises ends the loading there. *)
Lemma load_files_raises (l1 : list string) (f : string) (l2 : list string)
    (insert_files : list string) (s : conn_state cursor) (c1 : cursor) :
  execute (conn s) "PRAGMA foreign_keys = ON" = (c1, Done) ->
  no_file_raises c1 l1 = true ->
  raised (exec_file (after_files c1 l1) f) = true ->
  exists log,
    load_files cursor execute executescript read_file commit
      (l1 ++ f :: l2) insert_files s
    = ({| conn := cur (final (exec_file (after_files c1 l1) f));
          messages :=
            app log (logged (final (exec_file (after_files c1 l1) f))) |},
       inr (raised_exception cursor f (exec_file (after_files c1 l1) f))).
Proof.
  intros Hp Hn Hr. unfold load_files.
  unfold and_then at 1. unfold call at 1. rewrite Hp.
  unfold and_then at 1. unfold log_line at 1.
  unfold and_then at 1. cbn [conn messages].
  match goal with
  | |- context [for_each _ _ _ ?s0] =>
      destruct (for_each_files_raises cursor execute executescript read_file
                  l1 f l2 s0 Hn Hr) as (log & H)
  end.
  cbn [conn] in H. rewrite H. eauto.
Qed.

Variable rollback : cursor -> cursor * outcome.
Variable close : cursor -> cursor * outcome.
Variable fetchall : cursor -> list string.
Variable fetchone : cursor -> Z.

Local Abbreviation try_files :=
  (try_files cursor execute executescript read_file commit rollback close
     fetchall fetchone).
Local Abbreviation load_files :=
  (load_files cursor execute executescript read_file commit).

(** The [finally] clause closes the database on every path. *)
Lemma try_files_database (schema_files insert_files : list string)
    (s : conn_state cursor) :
  exists c,
    database (try_files schema_files insert_files s) = Some (fst (close c)).
Proof.
  unfold setup_database.try_files.
  destruct (and_then _ _ _ _) as [s1 [u|e]].
  - eexists. apply finally_database.
  - destruct (and_then _ _ _ s1) as [s2 [u|e']];
      eexists; apply finally_database.
Qed.

Lemma try_files_returns (schema_files insert_files : list string)
    (s : conn_state cursor) :
  exception (try_files schema_files insert_files s) = None ->
  exists s', load_files schema_files insert_files s = (s', inl tt).
Proof.
  unfold setup_database.try_files. unfold and_then at 1.
  destruct (load_files schema_files insert_files s) as [s1 [[]|e]].
  - eauto.
  - intros H. exfalso.
    destruct (and_then _ _ _ s1) as [s2 [u|e']];
      now apply finally_exception in H.
Qed.

Lemma try_files_raises (schema_files insert_files : list string)
    (s s1 : conn_state cursor) (e : string) :
  load_files schema_files insert_files s = (s1, inr e) ->
  let r := try_files schema_files insert_files s in
  database r = Some (fst (close (fst (rollback (conn s1)))))
  /\ exception r <> None
  /\ setup_log r
     = app (messages s1) [(ERROR, "Error setting up database: " ++ e)]
  /\ (snd (rollback (conn s1)) = Done ->
      snd (close (fst (rollback (conn s1)))) = Done ->
      exception r = Some e).
Proof.
  intros H r. subst r. unfold setup_database.try_files.
  unfold and_then, log_line, call. rewrite H. cbn [conn messages].
  destruct (rollback (conn s1)) as [c o]. cbn [fst snd].
  destruct o as [|e'|e']; (split; [|split; [|split]]).
  all: try (rewrite finally_database; reflexivity).
  all: try apply finally_exception.
  all: try (rewrite finally_log; reflexivity).
  all: try discriminate.
  intros _ Hc. unfold finally, call. cbn [conn].
  destruct (close c) as [c' o']. cbn [snd] in Hc. now subst o'.
Qed.

End setup_support.

Section setup_opened.
Import PyStr setup_database.

(** With a file to execute and a database that opens, the set-up is
    the [try] statement on that database. *)
Lemma setup_database_opened
    (cursor : Type)
    (execute executescript : cursor -> string -> cursor * outcome)
    (read_file : string -> read_result)
    (walk : string -> list (string * list string))
    (connect : string -> cursor + string)
    (commit rollback close : cursor -> cursor * outcome)
    (fetchall : cursor -> list string) (fetchone : cursor -> Z)
    (db_path data_dir : string) (c0 : cursor)
    (schema_files insert_files : list string) :
  find_sql_files (walk data_dir) = (schema_files, insert_files) ->
  app schema_files insert_files <> [] ->
  connect db_path = inl c0 ->
  setup_database cursor execute executescript read_file walk connect
    commit rollback close fetchall fetchone db_path data_dir
  = try_files cursor execute executescript read_file commit rollback close
      fetchall fetchone schema_files insert_files
      {| conn := c0;
         messages :=
           [(INFO, "Setting up database: " ++ db_path);
            (INFO, "Data directory: " ++ data_dir);
            (INFO, "Found " ++ str_nat (List.length schema_files)
                   ++ " schema files and "
                   ++ str_nat (List.length insert_files)
                   ++ " insert files")] |}.
Proof.
  intros Hf Hne Hc. unfold setup_database. rewrite Hf, Hc.
  destruct schema_files as [|a schema]; [destruct insert_files as [|b ins]|];
    [contradiction | reflexivity | reflexivity].
Qed.

End setup_opened.

Section setup_properties.
Import PyStr setup_database.

(** X18.  When the data directory lists no file whose name ends in
    .sql, the set-up stops after a warning: no database is opened and
    nothing is raised. *)
Theorem setup_without_sql_files_opens_nothing
    (cursor : Type)
    (execute executescript : cursor -> string -> cursor * outcome)
    (read_file : string -> read_result)
    (walk : string -> list (string * list string))
    (connect : string -> cursor + string)
    (commit rollback close : cursor -> cursor * outcome)
    (fetchall : cursor -> list string) (fetchone : cursor -> Z)
    (db_path data_dir : string) :
  Spec.sql_count (walk data_dir) = 0 ->
  setup_database cursor execute executescript read_file walk connect
    commit rollback close fetchall fetchone db_path data_dir
  = {| database := None;
       setup_log :=
         [(INFO, "Setting up database: " ++ db_path);
          (INFO, "Data directory: " ++ data_dir);
          (INFO, "Found 0 schema files and 0 insert files");
          (WARNING, "No SQL files found in the data directory")];
       exception := None |}.
Proof.
  intros H. unfold setup_database.
  pose proof (find_sql_files_count (walk data_dir)) as N. rewrite H in N.
  destruct (find_sql_files (walk data_dir)) as [[|a schema] [|b inserts]];
    simpl in N; try lia.
  reflexivity.
Qed.

Lemma setup_without_sql_files_opens_nothing_witness :
  database
    (setup_database (list string) (Spec.recorder (fun _ => false))
       (Spec.recorder (fun _ => false)) (fun _ => Content "")
       (fun _ => [("data", ["models.csv"; "README.md"]); ("data/old", [])])
       (fun _ => inl []) (Spec.mark "COMMIT") (Spec.mark "ROLLBACK")
       (Spec.mark "CLOSE") (fun _ => []) (fun _ => 0%Z) "ai.db" "data")
  = None.
Proof.
  rewrite (setup_without_sql_files_opens_nothing (list string)
             (Spec.recorder (fun _ => false))
             (Spec.recorder (fun _ => false)) (fun _ => Content "")
             (fun _ => [("data", ["models.csv"; "README.md"]); ("data/old", [])])
             (fun _ => inl []) (Spec.mark "COMMIT") (Spec.mark "ROLLBACK")
             (Spec.mark "CLOSE") (fun _ => []) (fun _ => 0%Z) "ai.db" "data"
             eq_refl).
  reflexivity.
Defined.

(** X19.  When there is a file to execute, a database that was opened
    is closed on every path, whatever raises in between: the database
    left behind is the one that [close] returns.  When opening fails,
    the exception goes to the caller and there is no database. *)
Theorem setup_closes_what_it_opens
    (cursor : Type)
    (execute executescript : cursor -> string -> cursor * outcome)
    (read_file : string -> read_result)
    (walk : string -> list (string * list string))
    (connect : string -> cursor + string)
    (commit rollback close : cursor -> cursor * outcome)
    (fetchall : cursor -> list string) (fetchone : cursor -> Z)
    (db_path data_dir : string) :
  Spec.sql_count (walk data_dir) <> 0 ->
  forall r,
    r = setup_database cursor execute executescript read_file walk connect
          commit rollback close fetchall fetchone db_path data_dir ->
    match connect db_path with
    | inl _ => exists c, database r = Some (fst (close c))
    | inr e => database r = None /\ exception r = Some e
    end.
Proof.
  intros H r ->. unfold setup_database.
  pose proof (find_sql_files_count (walk data_dir)) as N.
  destruct (find_sql_files (walk data_dir)) as [schema inserts].
  cbn [fst snd] in N.
  destruct schema as [|a schema]; [destruct inserts as [|b inserts]|].
  - simpl in N. congruence.
  - destruct (connect db_path); [apply try_files_database | now split].
  - destruct (connect db_path); [apply try_files_database | now split].
Qed.

Lemma setup_closes_what_it_opens_witness :
  exists c,
    database
      (setup_database (list string) (Spec.recorder (fun _ => false))
         (Spec.recorder (fun _ => false))
         (fun _ => Content "CREATE TABLE t (a INT);")
         (fun _ => [("data", ["t.sql"])])
         (fun _ => inl []) (Spec.mark "COMMIT") (Spec.mark "ROLLBACK")
         (Spec.mark "CLOSE") (fun _ => ["t"]) (fun _ => 0%Z) "ai.db" "data")
    = Some (fst (Spec.mark "CLOSE" c)).
Proof.
  assert (N : Spec.sql_count [("data", ["t.sql"])] <> 0)
    by (vm_compute; discriminate).
  exact (setup_closes_what_it_opens (list string)
           (Spec.recorder (fun _ => false)) (Spec.recorder (fun _ => false))
           (fun _ => Content "CREATE TABLE t (a INT);")
           (fun _ => [("data", ["t.sql"])])
           (fun _ => inl []) (Spec.mark "COMMIT") (Spec.mark "ROLLBACK")
           (Spec.mark "CLOSE") (fun _ => ["t"]) (fun _ => 0%Z) "ai.db" "data"
           N _ eq_refl).
Defined.

(** X20.  A schema file that raises ends the set-up: after it only the
    rollback and the closing touch the database, so no later file is
    executed and nothing is committed; the error is logged after the
    file's own report and an exception goes to the caller, the file's
    one when the rollback and the closing succeed. *)
Theorem failing_schema_file_rolls_back
    (cursor : Type)
    (execute executescript : cursor -> string -> cursor * outcome)
    (read_file : string -> read_result)
    (walk : string -> list (string * list string))
    (connect : string -> cursor + string)
    (commit rollback close : cursor -> cursor * outcome)
    (fetchall : cursor -> list string) (fetchone : cursor -> Z)
    (db_path data_dir : string) (c0 c1 : cursor)
    (l1 : list string) (f : string) (l2 insert_files : list string) :
  find_sql_files (walk data_dir) = (app l1 (f :: l2), insert_files) ->
  connect db_path = inl c0 ->
  execute c0 "PRAGMA foreign_keys = ON" = (c1, Done) ->
  Spec.no_file_raises cursor execute executescript read_file c1 l1 = true ->
  forall r,
    r = execute_sql_file cursor execute executescript read_file
          (Spec.after_files cursor execute executescript read_file c1 l1) f ->
    raised r = true ->
    forall res,
      res = setup_database cursor execute executescript read_file walk
              connect commit rollback close fetchall fetchone
              db_path data_dir ->
      exists e log,
        database res = Some (fst (close (fst (rollback (cur (final r))))))
        /\ exception res <> None
        /\ setup_log res
           = app log [(ERROR, "Error executing " ++ f ++ ": " ++ e);
                      (ERROR, "Error setting up database: " ++ e)]
        /\ (snd (rollback (cur (final r))) = Done ->
            snd (close (fst (rollback (cur (final r))))) = Done ->
            exception res = Some e).
Proof.
  intros Hf Hc Hp Hn r -> Hr res ->.
  rewrite (setup_database_opened cursor execute executescript read_file walk
             connect commit rollback close fetchall fetchone db_path data_dir
             c0 _ _ Hf) by (try assumption; now destruct l1).
  match goal with
  | |- context [try_files _ _ _ _ _ _ _ _ _ _ _ ?s0] =>
      destruct (load_files_raises cursor execute executescript read_file
                  commit l1 f l2 insert_files s0 c1 Hp Hn Hr) as (log & Hl);
      pose proof (try_files_raises cursor execute executescript read_file
                    commit rollback close fetchall fetchone _ _ s0 _ _ Hl)
        as (H1 & H2 & H3 & H4)
  end.
  cbn [conn messages] in *.
  destruct (raised_exception_logged cursor execute executescript read_file
              _ _ Hr) as (log' & Hlog).
  exists (raised_exception cursor f
            (execute_sql_file cursor execute executescript read_file
               (Spec.after_files cursor execute executescript read_file c1 l1)
               f)), (app log log').
  repeat split; try assumption.
  rewrite H3, Hlog, <- !app_assoc. reflexivity.
Qed.

Lemma failing_schema_file_rolls_back_witness :
  database
    (setup_database (list string) (Spec.recorder (fun _ => false))
       (Spec.recorder (fun _ => false))
       (fun p => if (p =? "data/b.sql")%string
                 then ReadError "No such file"
                 else Content "CREATE TABLE t (a INT);")
       (fun _ => [("data", ["c_insert.sql"; "b.sql"; "a.sql"])])
       (fun _ => inl []) (Spec.mark "COMMIT") (Spec.mark "ROLLBACK")
       (Spec.mark "CLOSE") (fun _ => ["t"]) (fun _ => 0%Z) "ai.db" "data")
  = Some ["PRAGMA foreign_keys = ON"; "CREATE TABLE t (a INT)";
          "ROLLBACK"; "CLOSE"].
Proof.
  destruct (failing_schema_file_rolls_back (list string)
              (Spec.recorder (fun _ => false))
              (Spec.recorder (fun _ => false))
              (fun p => if (p =? "data/b.sql")%string
                        then ReadError "No such file"
                        else Content "CREATE TABLE t (a INT);")
              (fun _ => [("data", ["c_insert.sql"; "b.sql"; "a.sql"])])
              (fun _ => inl []) (Spec.mark "COMMIT") (Spec.mark "ROLLBACK")
              (Spec.mark "CLOSE") (fun _ => ["t"]) (fun _ => 0%Z)
              "ai.db" "data" [] ["PRAGMA foreign_keys = ON"]
              ["data/a.sql"] "data/b.sql" [] ["data/c_insert.sql"]
              eq_refl eq_refl eq_refl eq_refl _ eq_refl eq_refl _ eq_refl)
    as (e & log & H & _).
  exact H.
Defined.

(** X21.  A set-up that returns without an exception has executed the
    pragma, then every schema file in order, none of which raised,
    then committed, then every insert file in order, none of which
    raised, and committed again. *)
Theorem setup_that_returns_ran_every_file
    (cursor : Type)
    (execute executescript : cursor -> string -> cursor * outcome)
    (read_file : string -> read_result)
    (walk : string -> list (string * list string))
    (connect : string -> cursor + string)
    (commit rollback close : cursor -> cursor * outcome)
    (fetchall : cursor -> list string) (fetchone : cursor -> Z)
    (db_path data_dir : string) (c0 : cursor)
    (schema_files insert_files : list string) :
  find_sql_files (walk data_dir) = (schema_files, insert_files) ->
  app schema_files insert_files <> [] ->
  connect db_path = inl c0 ->
  exception
    (setup_database cursor execute executescript read_file walk connect
       commit rollback close fetchall fetchone db_path data_dir) = None ->
  exists c1 c2,
    execute c0 "PRAGMA foreign_keys = ON" = (c1, Done)
    /\ Spec.no_file_raises cursor execute executescript read_file
         c1 schema_files = true
    /\ commit (Spec.after_files cursor execute executescript read_file
                 c1 schema_files) = (c2, Done)
    /\ (insert_files <> [] ->
        Spec.no_file_raises cursor execute executescript read_file
          c2 insert_files = true
        /\ snd (commit (Spec.after_files cursor execute executescript
                          read_file c2 insert_files)) = Done).
Proof.
  intros Hf Hne Hc H.
  rewrite (setup_database_opened cursor execute executescript read_file walk
             connect commit rollback close fetchall fetchone db_path data_dir
             c0 _ _ Hf Hne Hc) in H.
  apply try_files_returns in H as (s' & H).
  apply load_files_returns in H as (c1 & c2 & H1 & H2 & H3 & _ & H5).
  exists c1, c2. cbn [conn] in H1. repeat split; try assumption.
  - now apply H5.
  - destruct (H5 H) as [_ ->]. reflexivity.
Qed.

Lemma setup_that_returns_ran_every_file_witness :
  exists c1 c2 : list string,
    c1 = ["PRAGMA foreign_keys = ON"]
    /\ c2 = ["PRAGMA foreign_keys = ON"; "CREATE TABLE t (a INT)"; "COMMIT"]
    /\ Spec.no_file_raises (list string) (Spec.recorder (fun _ => false))
         (Spec.recorder (fun _ => false))
         (fun _ => Content "CREATE TABLE t (a INT);")
         c2 ["data/t_insert.sql"] = true.
Proof.
  destruct (setup_that_returns_ran_every_file (list string)
              (Spec.recorder (fun _ => false))
              (Spec.recorder (fun _ => false))
              (fun _ => Content "CREATE TABLE t (a INT);")
              (fun _ => [("data", ["t_insert.sql"; "t.sql"])])
              (fun _ => inl []) (Spec.mark "COMMIT") (Spec.mark "ROLLBACK")
              (Spec.mark "CLOSE") (fun _ => ["t"]) (fun _ => 0%Z)
              "ai.db" "data" [] ["data/t.sql"] ["data/t_insert.sql"]
              eq_refl ltac:(discriminate) eq_refl eq_refl)
    as (c1 & c2 & H1 & H2 & H3 & H4).
  exists c1, c2.
  assert (E1 : c1 = ["PRAGMA foreign_keys = ON"]) by (now injection H1).
  subst c1. vm_compute in H3.
  assert (E2 : c2 = ["PRAGMA foreign_keys = ON"; "CREATE TABLE t (a INT)";
                     "COMMIT"]) by (now injection H3).
  split; [reflexivity|]. split; [exact E2|]. subst c2.
  apply H4. discriminate.
Defined.
End setup_properties.
